(** * The belief-panel pipeline: panel construction, peer shares, tenure,
      run manifests and the quality scorer.

    Shallow embedding of the Python sources under [src/] and the properties
    the specification states about them.

    Conventions used throughout:
    - a pandas DataFrame is a list of row records (row order is the list order);
    - a float64 column is read as exact rationals [Q], a missing value (NaN)
      as [None]; what the stored binary64 values are is computed next to it
      with [Binary64] wherever rounding decides a property;
    - text is ASCII;
    - a raised Python exception is an explicit [Raise] result. *)

From Stdlib Require Import ZArith QArith String Ascii DecimalString List Bool
  Lia Permutation Sorted.
From Stdlib Require SpecFloat.
Import ListNotations.

Open Scope Z_scope.

(** ** Exceptions and fallible steps *)

Inductive exn : Type :=
| AssertionError (site : string)
| MergeError
| IntCastingNaNError
| ValueError (msg : string)
| KeyError (key : string)
| TypeError (msg : string).

Inductive result (A : Type) : Type :=
| Ok (a : A)
| Raise (e : exn).
Arguments Ok {A} a.
Arguments Raise {A} e.

Definition bind {A B : Type} (r : result A) (k : A -> result B) : result B :=
  match r with
  | Ok a => k a
  | Raise e => Raise e
  end.

Notation "x <- c ;; k" := (bind c (fun x => k))
  (at level 61, c at next level, right associativity).

(** ** Small list utilities shared by the scripts *)

(** [len(df[mask])]. *)
Definition count_if {A : Type} (p : A -> bool) (l : list A) : Z :=
  Z.of_nat (length (filter p l)).

(** Python's built-in [sum] over floats: a left fold from 0. *)
Definition qsum (l : list Q) : Q := fold_left Qplus l 0%Q.

(** [Series.mean()] of a non-empty group. *)
Definition qmean (l : list Q) : Q := (qsum l / inject_Z (Z.of_nat (length l)))%Q.

(** ** float64 arithmetic *)

Module Binary64.

(** An IEEE 754 binary64 value: 53 bits of precision, rounding to nearest
    with ties to even. *)
Definition f64 : Type := SpecFloat.spec_float.
Definition prec : Z := 53.
Definition emax : Z := 1024.

(** [float(z)]. *)
Definition of_Z (z : Z) : f64 := SpecFloat.binary_normalize prec emax z 0 false.

Definition add : f64 -> f64 -> f64 := SpecFloat.SFadd prec emax.
Definition sub : f64 -> f64 -> f64 := SpecFloat.SFsub prec emax.
Definition div : f64 -> f64 -> f64 := SpecFloat.SFdiv prec emax.
Definition eqb : f64 -> f64 -> bool := SpecFloat.SFeqb.
Definition ltb : f64 -> f64 -> bool := SpecFloat.SFltb.

(** The float64 quotient of the numerator and the denominator: for a
    numerator and a denominator below 2^53 the float64 nearest to the
    fraction, such as the value of the literal [0.1] for [1 # 10]. *)
Definition of_Q (q : Q) : f64 := div (of_Z (Qnum q)) (of_Z (Z.pos (Qden q))).

(** A sum taken term by term from 0, as the built-in [sum] and the column
    sums of pandas take it for a handful of terms. *)
Definition sum (l : list f64) : f64 := fold_left add l (of_Z 0).

(** The value 0.9999999999999999, that is 1 - 2^-53, and the value
    0.20000000000000004. *)
Definition below_one : f64 := SpecFloat.S754_finite false 9007199254740991 (-53).
Definition above_fifth : f64 := SpecFloat.S754_finite false 7205759403792795 (-55).

End Binary64.

(** [str.split(sep)] for a one-character separator. *)
Fixpoint split_on (sep : ascii) (s : string) : list string :=
  match s with
  | EmptyString => [EmptyString]
  | String c s' =>
      if Ascii.eqb c sep then EmptyString :: split_on sep s'
      else match split_on sep s' with
           | h :: t => String c h :: t
           | [] => [String c EmptyString]
           end
  end.

(** [c in s] for a character. *)
Fixpoint contains_char (c : ascii) (s : string) : bool :=
  match s with
  | EmptyString => false
  | String d s' => Ascii.eqb d c || contains_char c s'
  end.

Section Frames.
Context {A K : Type}.
Variable keqb : K -> K -> bool.
Variable key : A -> K.

(** [df.drop_duplicates(subset=key)]: the first row of every key is kept. *)
Fixpoint drop_duplicates (l : list A) : list A :=
  match l with
  | [] => []
  | x :: t => x :: filter (fun y => negb (keqb (key x) (key y))) (drop_duplicates t)
  end.

(** [key in seen]. *)
Definition mem_key (k : K) (seen : list K) : bool := existsb (keqb k) seen.

(** The check behind [validate="1:1"] / [validate="m:1"]: no key occurs twice. *)
Fixpoint unique_keys (l : list A) : bool :=
  match l with
  | [] => true
  | x :: t => negb (mem_key (key x) (map key t)) && unique_keys t
  end.
End Frames.

Section Sorting.
Context {A : Type}.
Variable leb : A -> A -> bool.

Fixpoint insert_sorted (x : A) (l : list A) : list A :=
  match l with
  | [] => [x]
  | y :: t => if leb x y then x :: y :: t else y :: insert_sorted x t
  end.

(** A stable sort ([sorted], [sort_values], the group order of [groupby]):
    equal elements keep their input order. *)
Definition sort_by (l : list A) : list A := fold_right insert_sorted [] l.
End Sorting.

(** ** src/py/manifest.py: run manifests *)

Module Manifest.

Local Open Scope string_scope.
Local Open Scope Z_scope.

(** The values a manifest holds: what [json.dumps] accepts. *)
#[local] Unset Elimination Schemes.
Inductive json : Type :=
| JNull
| JBool (b : bool)
| JInt (z : Z)
| JStr (s : string)
| JList (l : list json)
| JDict (d : list (string * json)).
#[local] Set Elimination Schemes.

(** A Python dict with string keys, in insertion order. *)
Definition dict : Type := list (string * json).

Fixpoint dict_get (k : string) (d : dict) : option json :=
  match d with
  | [] => None
  | (k', v) :: t => if String.eqb k' k then Some v else dict_get k t
  end.

(** *** Paths *)

(** A [pathlib] path, as the list of its components after the anchor. *)
Definition path : Type := list string.

(** [Path.name]: the final component, [""] when there is none. *)
Definition name (p : path) : string := last p "".

(** [Path(s)]: empty components and ["."] are dropped. *)
Definition parse_path (s : string) : path :=
  filter (fun c => negb (String.eqb c "" || String.eqb c ".")) (split_on "/" s).

(** [s.rfind(".")]: the index of the last dot. *)
Fixpoint rfind_dot (s : string) : option nat :=
  match s with
  | EmptyString => None
  | String c s' =>
      match rfind_dot s' with
      | Some i => Some (S i)
      | None => if Ascii.eqb c "." then Some O else None
      end
  end.

(** [Path.stem]: the name without its last suffix; a leading or a trailing
    dot does not start a suffix. *)
Definition stem (nm : string) : string :=
  match rfind_dot nm with
  | Some i =>
      if (0 <? i)%nat && (i <? String.length nm - 1)%nat
      then substring 0 i nm
      else nm
  | None => nm
  end.

(** *** create_manifest *)

(** [create_manifest]; [now_iso] is [datetime.datetime.now().isoformat()]. *)
Definition create_manifest (now_iso : string) (script_path : path) (seed : Z)
  (input_files output_files : list string) (row_counts : list (string * Z))
  (parameters : option dict) : dict :=
  [ ("script", JStr (name script_path));
    ("timestamp", JStr now_iso);
    ("seed", JInt seed);
    ("input_files", JList (map JStr input_files));
    ("output_files", JList (map JStr output_files));
    ("row_counts", JDict (map (fun kv => (fst kv, JInt (snd kv))) row_counts));
    ("parameters", JDict (match parameters with
                          | Some (kv :: t) => kv :: t
                          | Some [] | None => []
                          end)) ].

(** *** The runs directory *)

Record file := mk_file { f_name : string; f_mtime : Z; f_content : string }.

(** The entries of [runs_dir], in the order in which the file system lists
    them; [None] when the directory does not exist. *)
Definition directory : Type := option (list file).

(** [filepath.write_text(content)]: an existing file of that name is
    rewritten, a new one is listed at position [slot]; the file system stamps
    it with [mtime]. *)
Definition write_text (nm content : string) (mtime : Z) (slot : nat) (d : list file)
  : list file :=
  if existsb (fun f => String.eqb (f_name f) nm) d
  then map (fun f => if String.eqb (f_name f) nm then mk_file nm mtime content else f) d
  else (firstn slot d ++ mk_file nm mtime content :: skipn slot d)%list.

(** Matching of a file name against a pattern of one path component: a
    star stands for any run of characters, a question mark for one
    character, every other character for itself.  This is how [Path.glob]
    reads a pattern without a slash and without an opening bracket; an
    opening bracket starts a character class there, which is not modelled,
    so the statements below keep to names without it. *)
Fixpoint glob_match (p s : string) {struct p} : bool :=
  match p with
  | EmptyString => match s with EmptyString => true | _ => false end
  | String c p' =>
      if Ascii.eqb c "*" then
        (fix star (s : string) : bool :=
           glob_match p' s ||
           match s with
           | EmptyString => false
           | String _ s' => star s'
           end) s
      else
        match s with
        | EmptyString => false
        | String d s' => (Ascii.eqb c "?" || Ascii.eqb c d) && glob_match p' s'
        end
  end.

(** The stems for which the pattern built from the stem is a plain prefix. *)
Definition is_glob_meta (c : ascii) : bool :=
  Ascii.eqb c "*" || Ascii.eqb c "?" || Ascii.eqb c "[".

Fixpoint no_glob_meta (s : string) : bool :=
  match s with
  | EmptyString => true
  | String c s' => negb (is_glob_meta c) && no_glob_meta s'
  end.

(** The script names whose pattern is a plain prefix of one path component:
    no glob character and no [/], which would move the search into a
    subdirectory. *)
Definition plain_name (script_name : option string) : bool :=
  match script_name with
  | None => true
  | Some s => no_glob_meta s && negb (contains_char "/" s)
  end.

Section Json.
(** [json.dumps(manifest, indent=2)] and [json.loads]. *)
Variable json_dumps : json -> string.
Variable json_loads : string -> result json.
(** Whether [Path.glob] accepts a pattern.  This depends on the version of
    the interpreter: CPython 3.11 rejects a pattern that holds [**] inside a
    path component with a [ValueError]. *)
Variable glob_accepts : string -> bool.

(** [write_manifest]; [timestamp] is
    [datetime.datetime.now().strftime("%Y%m%d_%H%M%S")].  The result is the
    name of the written file and the directory afterwards. *)
Definition write_manifest (timestamp : string) (mtime : Z) (slot : nat)
  (manifest : dict) (runs_dir : directory) : result (string * directory) :=
  let entries := match runs_dir with Some d => d | None => [] end in
  match dict_get "script" manifest with
  | None => Raise (KeyError "script")
  | Some (JStr script) =>
      let script_stem := stem (name (parse_path script)) in
      let filename := script_stem ++ "_" ++ timestamp ++ ".json" in
      Ok (filename,
          Some (write_text filename (json_dumps (JDict manifest)) mtime slot entries))
  | Some _ => Raise (TypeError "expected str, bytes or os.PathLike object")
  end.

(** [f"{script_name}_*.json" if script_name else "*.json"]. *)
Definition pattern_of (script_name : option string) : string :=
  match script_name with
  | None | Some EmptyString => "*.json"
  | Some s => s ++ "_*.json"
  end.

(** [sorted(runs_dir.glob(pattern), key=lambda p: p.stat().st_mtime)]. *)
Definition sorted_manifests (d : list file) (script_name : option string) : list file :=
  sort_by (fun a b => f_mtime a <=? f_mtime b)
          (filter (fun f => glob_match (pattern_of script_name) (f_name f)) d).

(** [manifests[-1]], when there is a manifest. *)
Definition latest_file (runs_dir : directory) (script_name : option string)
  : option file :=
  match runs_dir with
  | None => None
  | Some d =>
      match sorted_manifests d script_name with
      | [] => None
      | f :: t => Some (last t f)
      end
  end.

(** [read_latest_manifest].  The value returned is a Python object: [None]
    is [JNull], both when there is nothing to read and when the file read
    holds the JSON value [null]. *)
Definition read_latest_manifest (runs_dir : directory) (script_name : option string)
  : result json :=
  match runs_dir with
  | None => Ok JNull
  | Some _ =>
      if glob_accepts (pattern_of script_name) then
        match latest_file runs_dir script_name with
        | None => Ok JNull
        | Some f => json_loads (f_content f)
        end
      else Raise (ValueError "Invalid pattern: '**' can only be an entire path component")
  end.

End Json.

(** *** Example documents *)

(** The manifest of [tests/test_pipeline.py]. *)
Definition test_manifest : dict :=
  create_manifest "2024-01-01T12:00:00" ["test_script.py"] 42
    ["data/test.csv"] ["results/test_output.csv"] [("input", 100); ("output", 95)] None.

Definition m_run : dict :=
  create_manifest "2024-01-01T12:00:00" ["src"; "py"; "run.py"] 42 [] [] [] None.

Definition m_extra : dict :=
  create_manifest "2024-01-01T12:00:00" ["src"; "py"; "run_extra.py"] 42 [] [] [] None.

(** A codec for the examples; it knows the three documents above. *)
Definition example_dumps (j : json) : string :=
  match j with
  | JDict d =>
      match dict_get "script" d with
      | Some (JStr s) => "manifest of " ++ s
      | _ => ""
      end
  | _ => ""
  end.

Definition example_loads (s : string) : result json :=
  if String.eqb s "manifest of test_script.py" then Ok (JDict test_manifest)
  else if String.eqb s "manifest of run.py" then Ok (JDict m_run)
  else if String.eqb s "manifest of run_extra.py" then Ok (JDict m_extra)
  else Raise (ValueError "JSONDecodeError").

(** What CPython 3.11 accepts among the patterns of one path component. *)
Fixpoint no_double_star (p : string) : bool :=
  match p with
  | String "*" (String "*" _) => false
  | String _ p' => no_double_star p'
  | EmptyString => true
  end.

(** A runs directory that holds the manifest of [run_extra.py], written in
    the same clock tick (mtime 1000) as the manifest about to be written. *)
Definition tie_dir : directory :=
  Some [ mk_file "run_extra_20240101_120000.json" 1000 "manifest of run_extra.py" ].

(** A runs directory with an earlier manifest of [test_script.py], a later
    manifest of another script and a later file that is not a manifest. *)
Definition busy_dir : directory :=
  Some [ mk_file "test_script_20231231_235959.json" 900 "manifest of an earlier run";
         mk_file "run_20240102_080000.json" 2000 "manifest of run.py";
         mk_file "test_script_notes.txt" 3000 "not a manifest" ].

End Manifest.

(** ** 03_table_II_summary_stats.py: from causal snippets to the panel *)

Module SummaryStats.

Local Open Scope string_scope.
Local Open Scope Z_scope.

(** A cell of the gvkey or macro_id column as [pd.to_numeric] reads it: no
    value, a finite number, an infinity ([inf], [-inf]), or text that is not
    a number. *)
Inductive cell : Type :=
| CMissing
| CNum (q : Q)
| CInf (negative : bool)
| CText (s : string).

(** A row of the causal-snippets file, with the columns of [causal_cols]. *)
Record raw_row := mk_raw {
  r_gvkey : cell;
  r_technology : option string;
  r_dateQ : option string;
  r_side : option string;
  r_input_id : option string;
  r_macro_id : cell;
  r_macro_name : option string;
  r_sic : option Z;
  r_loc : option string
}.

Definition cell_isna (c : cell) : bool :=
  match c with CMissing => true | _ => false end.

Definition opt_isna {A : Type} (o : option A) : bool :=
  match o with None => true | Some _ => false end.

(** [cs.dropna(subset=["gvkey","technology","dateQ","side","macro_id"])]. *)
Definition dropna_keys (cs : list raw_row) : list raw_row :=
  filter (fun r => negb (cell_isna (r_gvkey r) || opt_isna (r_technology r)
                         || opt_isna (r_dateQ r) || opt_isna (r_side r)
                         || cell_isna (r_macro_id r))) cs.

(** [pd.to_numeric(col, errors="coerce")] on one cell. *)
Definition to_numeric (c : cell) : cell :=
  match c with
  | CNum q => CNum q
  | CInf b => CInf b
  | CMissing | CText _ => CMissing
  end.

Definition coerce_row (r : raw_row) : raw_row :=
  mk_raw (to_numeric (r_gvkey r)) (r_technology r) (r_dateQ r) (r_side r)
         (r_input_id r) (to_numeric (r_macro_id r)) (r_macro_name r)
         (r_sic r) (r_loc r).

(** [cs[["gvkey","macro_id"]].isna().any(axis=1)]. *)
Definition bad_numeric (r : raw_row) : bool :=
  cell_isna (r_gvkey r) || cell_isna (r_macro_id r).

(** A causal snippet once the identifiers are integers. *)
Record snippet := mk_snippet {
  gvkey : Z;
  technology : string;
  dateQ : string;
  side : string;
  input_id : option string;
  macro_id : Z;
  macro_name : option string;
  sic : option Z;
  loc : option string
}.

(** Truncation of a float toward zero. *)
Definition truncate (q : Q) : Z := Z.quot (Qnum q) (Z.pos (Qden q)).

Definition INT64_MIN : Z := - 2 ^ 63.
Definition INT64_MAX : Z := 2 ^ 63 - 1.

(** The cast of a finite float64 to int64: truncation toward zero; a value
    that does not fit gives the most negative int64, as the conversion
    instruction of x86-64 does. *)
Definition float_to_int64 (q : Q) : Z :=
  let z := truncate q in
  if (INT64_MIN <=? z) && (z <=? INT64_MAX) then z else INT64_MIN.

(** [astype(int)] on one float cell; a missing or an infinite value cannot
    be cast ([IntCastingNaNError]). *)
Definition astype_int (c : cell) : option Z :=
  match c with
  | CNum q => Some (float_to_int64 q)
  | CInf _ | CMissing | CText _ => None
  end.

Definition cast_row (r : raw_row) : option snippet :=
  match astype_int (r_gvkey r), astype_int (r_macro_id r),
        r_technology r, r_dateQ r, r_side r with
  | Some g, Some m, Some t, Some d, Some s =>
      Some (mk_snippet g t d s (r_input_id r) m (r_macro_name r) (r_sic r) (r_loc r))
  | _, _, _, _, _ => None
  end.

Fixpoint cast_rows (cs : list raw_row) : option (list snippet) :=
  match cs with
  | [] => Some []
  | r :: t =>
      match cast_row r, cast_rows t with
      | Some s, Some t' => Some (s :: t')
      | _, _ => None
      end
  end.

(** [x in range(1, 6)]. *)
Definition in_range_1_6 (m : Z) : bool := (1 <=? m) && (m <? 6).

(** Lines 114-133: drop rows with missing keys, coerce the identifiers to
    numbers, drop what did not parse, cast to int and assert the macro-id
    range. *)
Definition load_causal (raw : list raw_row) : result (list snippet) :=
  let cs := dropna_keys raw in
  let cs := map coerce_row cs in
  let n_bad := count_if bad_numeric cs in
  let cs := if 0 <? n_bad then filter (fun r => negb (bad_numeric r)) cs else cs in
  match cast_rows cs with
  | None => Raise IntCastingNaNError
  | Some cs =>
      if forallb (fun s => in_range_1_6 (macro_id s)) cs
      then Ok cs
      else Raise (AssertionError "Unexpected macro_id values")
  end.

(** Specification side: the causal-snippet rows that remain after the
    coercion, as they stand before the cast: every key field is present and
    gvkey and macro_id read as numbers. *)
Definition is_number (c : cell) : bool :=
  match c with
  | CNum _ | CInf _ => true
  | CMissing | CText _ => false
  end.

Definition remains (r : raw_row) : bool :=
  is_number (r_gvkey r) && is_number (r_macro_id r) && negb (opt_isna (r_technology r))
  && negb (opt_isna (r_dateQ r)) && negb (opt_isna (r_side r)).

Definition remaining_rows (raw : list raw_row) : list raw_row := filter remains raw.

Definition is_finite (c : cell) : bool :=
  match c with
  | CNum _ => true
  | CInf _ | CMissing | CText _ => false
  end.

(** Specification side: the number in the cell is one of 1, 2, 3, 4, 5. *)
Definition in_macro_set (c : cell) : bool :=
  match c with
  | CNum q => existsb (fun k => Qeq_bool q (inject_Z k)) [1; 2; 3; 4; 5]
  | CInf _ | CMissing | CText _ => false
  end.

(** Specification side: the number in the cell is at least 1 and below 6. *)
Definition in_macro_interval (c : cell) : bool :=
  match c with
  | CNum q => Qle_bool 1 q && negb (Qle_bool 6 q)
  | CInf _ | CMissing | CText _ => false
  end.

(** The snippets the script holds after the cast, when the cast succeeds. *)
Definition remaining (raw : list raw_row) : list snippet :=
  match cast_rows (remaining_rows raw) with
  | Some cs => cs
  | None => []
  end.

(** A file with one row whose macro_id reads as 5.7, and a file with one row
    whose macro_id reads as [inf]. *)
Definition fractional_raw : list raw_row :=
  [ mk_raw (CNum 1) (Some "AI") (Some "2021q1") (Some "cause") (Some "s1")
           (CNum (57 # 10)) (Some "Cost and Economic Viability") None None ].

Definition infinite_raw : list raw_row :=
  [ mk_raw (CNum 1) (Some "AI") (Some "2021q1") (Some "cause") (Some "s1")
           (CInf false) (Some "Cost and Economic Viability") None None ].

Definition EXPECTED_CAUSE : list (Z * string) :=
  [ (1, "Technology Innovation and Advancement");
    (2, "Market Demand and Consumer Behavior");
    (3, "Regulatory and Policy Drivers");
    (4, "Strategic Partnerships and Investment");
    (5, "Cost and Economic Viability") ].

Definition EXPECTED_EFFECT : list (Z * string) :=
  [ (1, "Revenue and Financial Growth");
    (2, "Cost Reduction and Efficiency");
    (3, "Market Expansion and Adoption");
    (4, "Product and Service Innovation");
    (5, "Operational Efficiency and Automation") ].

(** [GroupBy.first()]: the first non-missing value of the group. *)
Fixpoint first_valid (l : list (option string)) : option string :=
  match l with
  | [] => None
  | Some x :: _ => Some x
  | None :: t => first_valid t
  end.

(** [subset.groupby("macro_id")["macro_name"].first().to_dict().get(mid)]. *)
Definition actual_name (cs : list snippet) (side_name : string) (mid : Z)
  : option string :=
  first_valid
    (map macro_name
       (filter (fun s => String.eqb (side s) side_name && (macro_id s =? mid)) cs)).

Definition names_match (cs : list snippet) (side_name : string)
  (expected : list (Z * string)) : bool :=
  forallb (fun me : Z * string =>
             match actual_name cs side_name (fst me) with
             | Some a => String.eqb a (snd me)
             | None => false
             end) expected.

(** Lines 135-157: the macro names must be the expected labels. *)
Definition check_names (cs : list snippet) : result (list snippet) :=
  if names_match cs "cause" EXPECTED_CAUSE && names_match cs "effect" EXPECTED_EFFECT
  then Ok cs
  else Raise (AssertionError "macro_name does not match the expected label").

(** *** Keys *)

(** (gvkey, technology, dateQ): the key of a panel row. *)
Definition key3 : Type := Z * string * string.
(** (gvkey, technology, dateQ, side): the index of the wide table. *)
Definition key4 : Type := key3 * string.
(** (gvkey, technology, dateQ, side, macro_id): the grouping key of [counts]. *)
Definition key5 : Type := key4 * Z.

Definition key3_eqb (a b : key3) : bool :=
  let '(g, t, d) := a in
  let '(g', t', d') := b in
  (g =? g') && String.eqb t t' && String.eqb d d'.

Definition key4_eqb (a b : key4) : bool :=
  key3_eqb (fst a) (fst b) && String.eqb (snd a) (snd b).

Definition key5_eqb (a b : key5) : bool :=
  key4_eqb (fst a) (fst b) && (snd a =? snd b).

Definition opt_string_eqb (a b : option string) : bool :=
  match a, b with
  | Some x, Some y => String.eqb x y
  | None, None => true
  | _, _ => false
  end.

(** Lexicographic chaining of comparisons. *)
Definition lex (c1 c2 : comparison) : comparison :=
  match c1 with Eq => c2 | _ => c1 end.

Definition key4_compare (a b : key4) : comparison :=
  let '(g, t, d, s) := a in
  let '(g', t', d', s') := b in
  lex (g ?= g') (lex (String.compare t t') (lex (String.compare d d') (String.compare s s'))).

Definition key4_leb (a b : key4) : bool :=
  match key4_compare a b with Gt => false | _ => true end.

Definition key5_leb (a b : key5) : bool :=
  match lex (key4_compare (fst a) (fst b)) (snd a ?= snd b) with
  | Gt => false
  | _ => true
  end.

Definition key4_of (s : snippet) : key4 := (gvkey s, technology s, dateQ s, side s).
Definition key5_of (s : snippet) : key5 := (key4_of s, macro_id s).

(** The subset of [drop_duplicates]: one span per
    (firm, tech, quarter, side, statement, macro). *)
Definition dedup_key (s : snippet) : key5 * option string := (key5_of s, input_id s).

Definition dedup_key_eqb (a b : key5 * option string) : bool :=
  key5_eqb (fst a) (fst b) && opt_string_eqb (snd a) (snd b).

(** *** Counts and the wide table *)

Record count_row := mk_count { c_key : key4; c_macro : Z; c_n : Z }.

(** [cs.groupby([...5 keys]).size().reset_index(name="n")]: one row per
    distinct key, in key order. *)
Definition groupby_size (cs : list snippet) : list count_row :=
  map (fun k => mk_count (fst k) (snd k)
                  (count_if (fun s => key5_eqb (key5_of s) k) cs))
      (sort_by key5_leb (drop_duplicates key5_eqb (fun k => k) (map key5_of cs))).

(** One cell of [counts.pivot_table(index=..., columns="macro_id", values="n",
    fill_value=0)]: the (default) mean of the matching counts, 0 when there is
    none.  A macro-id column that does not exist is added as 0 as well. *)
Definition pivot_cell (counts : list count_row) (k : key4) (c : Z) : Q :=
  match filter (fun r => key4_eqb (c_key r) k && (c_macro r =? c)) counts with
  | [] => 0%Q
  | g => qmean (map (fun r => inject_Z (c_n r)) g)
  end.

(** [range(1, 6)]. *)
Definition MACROS : list Z := [1; 2; 3; 4; 5].

Record wide_row := mk_wide {
  w_key : key4;
  w_n : list Q;        (* n1 .. n5 *)
  w_N_side : Q;
  w_share : list Q     (* share1 .. share5 *)
}.

Definition w_side (w : wide_row) : string := snd (w_key w).

(** [N_side = sum(n_c for c in range(1, 6))] and [share_c = n_c / N_side]. *)
Definition make_wide_row (counts : list count_row) (k : key4) : wide_row :=
  let ns := map (pivot_cell counts k) MACROS in
  let N := qsum ns in
  mk_wide k ns N (map (fun n => (n / N)%Q) ns).

(** The same two lines on the binary64 values the frame holds: the counts
    are whole numbers, which binary64 holds exactly; [N_side] is their sum
    and each share is the rounded quotient. *)
Definition shares_f64 (ns : list Q) : list Binary64.f64 :=
  let fs := map Binary64.of_Q ns in
  let N := Binary64.sum fs in
  map (fun n => Binary64.div n N) fs.

Definition pivot_wide (counts : list count_row) : list wide_row :=
  map (make_wide_row counts)
      (sort_by key4_leb (drop_duplicates key4_eqb (fun k => k) (map c_key counts))).

(** [wide[wide["N_side"] >= 3]]. *)
Definition apply_threshold (wide : list wide_row) : list wide_row :=
  filter (fun w => Qle_bool 3 (w_N_side w)) wide.

(** [wide[wide["side"] == name]]. *)
Definition side_df (name : string) (wide : list wide_row) : list wide_row :=
  filter (fun w => String.eqb (w_side w) name) wide.

(** Specification side: one side of a retained row holds five counts, their
    total, the five quotients count / total, and a total of at least 3. *)
Definition side_ok (ns shares : list Q) (N : Q) : Prop :=
  length ns = 5%nat /\
  N = qsum ns /\
  shares = map (fun n => (n / N)%Q) ns /\
  (3 <= N)%Q.

(** *** The joint panel *)

Definition w_key3 (w : wide_row) : key3 := fst (w_key w).

(** [pd.merge(cause_df, effect_df, on=[gvkey, technology, dateQ], how="inner",
    validate="1:1")]: pandas raises [MergeError] when a key repeats on either
    side. *)
Definition merge_inner_1_1 (cause_df effect_df : list wide_row)
  : result (list (wide_row * wide_row)) :=
  if unique_keys key3_eqb w_key3 cause_df && unique_keys key3_eqb w_key3 effect_df
  then Ok (flat_map
             (fun c => map (pair c)
                         (filter (fun e => key3_eqb (w_key3 c) (w_key3 e)) effect_df))
             cause_df)
  else Raise MergeError.

Record joint_row := mk_joint {
  j_key : key3;
  n_cause : list Q;
  share_cause : list Q;
  N_cause : Q;
  n_effect : list Q;
  share_effect : list Q;
  N_effect : Q;
  N_total : Q;
  cause_effect_ratio : Q
}.

Definition make_joint (ce : wide_row * wide_row) : joint_row :=
  let (c, e) := ce in
  mk_joint (w_key3 c) (w_n c) (w_share c) (w_N_side c)
           (w_n e) (w_share e) (w_N_side e)
           (w_N_side c + w_N_side e)%Q (w_N_side c / w_N_side e)%Q.

Record firm_row := mk_firm { f_gvkey : Z; f_sic : option Z; f_loc : option string }.

(** [cs.sort_values("dateQ", ascending=False).drop_duplicates("gvkey",
    keep="first")[["gvkey","sic","loc"]]].  Rows of one quarter are kept in
    input order here; pandas does not fix their order. *)
Definition firm_info (cs : list snippet) : list firm_row :=
  map (fun s => mk_firm (gvkey s) (sic s) (loc s))
      (drop_duplicates Z.eqb gvkey
         (sort_by (fun a b => String.leb (dateQ b) (dateQ a)) cs)).

Record panel_row := mk_panel {
  p_joint : joint_row;
  p_sic : option Z;
  p_loc : option string
}.

Definition p_key (p : panel_row) : key3 := j_key (p_joint p).

(** [panel.merge(firm_info, on="gvkey", how="left", validate="m:1")]. *)
Definition merge_left_m_1 (panel : list joint_row) (info : list firm_row)
  : result (list panel_row) :=
  if unique_keys Z.eqb f_gvkey info
  then Ok (flat_map
             (fun j =>
                match filter (fun f => fst (fst (j_key j)) =? f_gvkey f) info with
                | [] => [mk_panel j None None]
                | ms => map (fun f => mk_panel j (f_sic f) (f_loc f)) ms
                end)
             panel)
  else Raise MergeError.

(** Lines 159-247: deduplicate, count, pivot, threshold, join the two sides,
    attach the firm metadata; the result is what [to_csv] writes. *)
Definition build_panel (cs0 : list snippet) : result (list panel_row) :=
  let cs := drop_duplicates dedup_key_eqb dedup_key cs0 in
  let counts := groupby_size cs in
  let info := firm_info cs in
  let wide := apply_threshold (pivot_wide counts) in
  let cause_df := side_df "cause" wide in
  let effect_df := side_df "effect" wide in
  pairs <- merge_inner_1_1 cause_df effect_df ;;
  if forallb (fun ce => negb (Qle_bool (w_N_side (snd ce)) 0)) pairs then
    let panel := map make_joint pairs in
    merged <- merge_left_m_1 panel info ;;
    if Nat.eqb (length merged) (length panel) then Ok merged
    else Raise (AssertionError "Firm metadata merge changed row count")
  else Raise (AssertionError "Zero N_effect found").

(** The script up to the panel it saves as [panel_ikt.csv]. *)
Definition panel_ikt (raw : list raw_row) : result (list panel_row) :=
  cs <- load_causal raw ;;
  cs <- check_names cs ;;
  build_panel cs.

(** *** A small input file *)

Definition example_row (g : Z) (t d s i : string) (m : Z) (nm : string) : raw_row :=
  mk_raw (CNum (inject_Z g)) (Some t) (Some d) (Some s) (Some i)
         (CNum (inject_Z m)) (Some nm) (Some 3571) (Some "USA").

Definition cause_name (m : Z) : string :=
  nth (Z.to_nat (m - 1)) (map snd EXPECTED_CAUSE) "".
Definition effect_name (m : Z) : string :=
  nth (Z.to_nat (m - 1)) (map snd EXPECTED_EFFECT) "".

(** Firm 1 talks about "AI" in 2021q1 with six distinct cause spans (one
    snippet is a duplicate) and five effect spans; firm 2 has a single effect
    span; one row has a non-numeric gvkey. *)
Definition example_raw : list raw_row :=
  [ example_row 1 "AI" "2021q1" "cause" "s1" 1 (cause_name 1);
    example_row 1 "AI" "2021q1" "cause" "s2" 1 (cause_name 1);
    example_row 1 "AI" "2021q1" "cause" "s3" 2 (cause_name 2);
    example_row 1 "AI" "2021q1" "cause" "s3" 2 (cause_name 2);
    example_row 1 "AI" "2021q1" "cause" "s4" 3 (cause_name 3);
    example_row 1 "AI" "2021q1" "cause" "s5" 4 (cause_name 4);
    example_row 1 "AI" "2021q1" "cause" "s6" 5 (cause_name 5);
    example_row 1 "AI" "2021q1" "effect" "s1" 1 (effect_name 1);
    example_row 1 "AI" "2021q1" "effect" "s2" 2 (effect_name 2);
    example_row 1 "AI" "2021q1" "effect" "s3" 3 (effect_name 3);
    example_row 1 "AI" "2021q1" "effect" "s4" 4 (effect_name 4);
    example_row 1 "AI" "2021q1" "effect" "s5" 5 (effect_name 5);
    example_row 2 "AI" "2021q1" "effect" "s5" 5 (effect_name 5);
    mk_raw (CText "unknown") (Some "AI") (Some "2021q1") (Some "cause") None
           (CNum 1) None None None ].

(** [n] distinct spans of one firm-technology-quarter, side and macro
    category; the statement identifiers are [tag], [tag'], [tag''], ... *)
Fixpoint spans (n : nat) (tag : string) (side_name : string) (m : Z) (nm : string)
  : list snippet :=
  match n with
  | O => []
  | S k =>
      mk_snippet 1 "AI" "2021q1" side_name (Some tag) m (Some nm) (Some 3571) (Some "USA")
      :: spans k (tag ++ "'") side_name m nm
  end.

(** Firm 1 with 8, 9, 9 and 9 cause spans in the categories 2 to 5 and three
    effect spans. *)
Definition rounding_cs : list snippet :=
  (spans 8 "b" "cause" 2 (cause_name 2) ++ spans 9 "c" "cause" 3 (cause_name 3)
   ++ spans 9 "d" "cause" 4 (cause_name 4) ++ spans 9 "e" "cause" 5 (cause_name 5)
   ++ spans 3 "x" "effect" 1 (effect_name 1))%list.

End SummaryStats.

(** ** 06_table_IVB_spillover.py: multi-technology sample and peer shares *)

Module Spillover.

Local Open Scope string_scope.
Local Open Scope Z_scope.

(** A row of the panel: the key columns and the float columns by name.
    A column that is absent reads as missing; the script only reads columns
    that exist. *)
Record row := mk_row {
  gvkey : Z;
  technology : string;
  dateQ : string;
  cols : list (string * option Q)
}.

(** [row[c]]. *)
Definition get (r : row) (c : string) : option Q :=
  match find (fun kv => String.eqb (fst kv) c) (cols r) with
  | Some kv => snd kv
  | None => None
  end.

Fixpoint set_assoc (k : string) (v : option Q) (l : list (string * option Q))
  : list (string * option Q) :=
  match l with
  | [] => [(k, v)]
  | kv :: t => if String.eqb (fst kv) k then (k, v) :: t else kv :: set_assoc k v t
  end.

(** [c in data.columns], for a frame with at least one row. *)
Definition has_column (data : list row) (c : string) : bool :=
  forallb (fun r => existsb (fun kv => String.eqb (fst kv) c) (cols r)) data.

Definition has_columns (data : list row) (cs : list string) : bool :=
  forallb (has_column data) cs.

(** [data[c] = v] on one row: the column is replaced, or added. *)
Definition set_col (c : string) (v : option Q) (r : row) : row :=
  mk_row (gvkey r) (technology r) (dateQ r) (set_assoc c v (cols r)).

(** The non-missing values of a column. *)
Definition present (l : list (option Q)) : list Q :=
  flat_map (fun o => match o with Some q => [q] | None => [] end) l.

(** What a cell contributes to a sum that skips missing values. *)
Definition cell_or_zero (o : option Q) : Q :=
  match o with Some q => q | None => 0%Q end.

(** [sum()] and [count()] of a group: both skip missing values. *)
Definition nansum (l : list (option Q)) : Q := qsum (present l).
Definition nancount (l : list (option Q)) : Z := Z.of_nat (length (present l)).

Definition same_firm (r x : row) : bool := gvkey r =? gvkey x.

Definition same_firm_tech (r x : row) : bool :=
  same_firm r x && String.eqb (technology r) (technology x).

Definition column (c : string) (rows : list row) : list (option Q) :=
  map (fun x => get x c) rows.

(** [data.groupby("gvkey")[share_cols].sum()] mapped back to the row. *)
Definition firm_sum (data : list row) (r : row) (c : string) : Q :=
  nansum (column c (filter (same_firm r) data)).

(** [data.groupby("gvkey")[share_cols].count()] mapped back to the row. *)
Definition firm_n (data : list row) (r : row) (c : string) : Z :=
  nancount (column c (filter (same_firm r) data)).

(** [data.groupby(["gvkey","technology"])[share_cols].transform("sum")]. *)
Definition own_sum (data : list row) (r : row) (c : string) : Q :=
  nansum (column c (filter (same_firm_tech r) data)).

(** [data.groupby(["gvkey","technology"])[share_cols].transform("count")]. *)
Definition own_n (data : list row) (r : row) (c : string) : Z :=
  nancount (column c (filter (same_firm_tech r) data)).

(** [numerator / denominator.replace(0, np.nan)]. *)
Definition peer_value (data : list row) (r : row) (c : string) : option Q :=
  let numerator := (firm_sum data r c - own_sum data r c)%Q in
  let denominator := firm_n data r c - own_n data r c in
  if denominator =? 0 then None else Some (numerator / inject_Z denominator)%Q.

(** The same computation on the binary64 values of the column: the sums are
    taken term by term, the difference and the quotient are rounded. *)
Definition f64_sum (l : list (option Q)) : Binary64.f64 :=
  Binary64.sum (map Binary64.of_Q (present l)).

Definition peer_value_f64 (data : list row) (r : row) (c : string)
  : option Binary64.f64 :=
  let numerator :=
    Binary64.sub (f64_sum (column c (filter (same_firm r) data)))
                 (f64_sum (column c (filter (same_firm_tech r) data))) in
  let denominator := firm_n data r c - own_n data r c in
  if denominator =? 0 then None
  else Some (Binary64.div numerator (Binary64.of_Z denominator)).

(** [f"{prefix}_{col}"]. *)
Definition peer_name (prefix c : string) : string := prefix ++ "_" ++ c.

(** The sums and counts are taken from the frame as it is passed in; the loop
    then writes one peer column per share column.  The frame has at least
    one row and holds the share columns: on a frame without rows the lookup
    of the first share column in the mapped sums raises [KeyError]. *)
Definition compute_peer_shares (data : list row) (share_cols : list string)
  (prefix : string) : list row :=
  map (fun r =>
         fold_left (fun r' c => set_col (peer_name prefix c) (peer_value data r c) r')
                   share_cols r)
      data.

(** Specification side: the firm's observations in its other technologies. *)
Definition other_tech (r x : row) : bool :=
  same_firm r x && negb (String.eqb (technology r) (technology x)).

Definition other_values (data : list row) (r : row) (c : string) : list Q :=
  present (column c (filter (other_tech r) data)).

(** Specification side: the mean of the share over the firm's observations in
    its other technologies; missing when there is none. *)
Definition leave_one_out_mean (data : list row) (r : row) (c : string) : option Q :=
  match other_values data r c with
  | [] => None
  | l => Some (qmean l)
  end.

(** Specification side, on binary64 values: the mean as [Series.mean] takes
    it, the sum divided by the count. *)
Definition leave_one_out_mean_f64 (data : list row) (r : row) (c : string)
  : option Binary64.f64 :=
  match other_values data r c with
  | [] => None
  | l => Some (Binary64.div (Binary64.sum (map Binary64.of_Q l))
                            (Binary64.of_Z (Z.of_nat (length l))))
  end.

(** Equality of float cells up to the representation of the rational. *)
Definition cell_eq (a b : option Q) : Prop :=
  match a, b with
  | Some x, Some y => (x == y)%Q
  | None, None => True
  | _, _ => False
  end.

(** *** The multi-technology sample *)

Definition CATEGORIES : list string := ["1"; "2"; "3"; "4"; "5"].
Definition CAUSE_COLS : list string := map (fun c => "share_cause_" ++ c) CATEGORIES.
Definition EFFECT_COLS : list string := map (fun c => "share_effect_" ++ c) CATEGORIES.

(** [panel.groupby("gvkey")["technology"].nunique()] at firm [g]. *)
Definition techs_per_firm (panel : list row) (g : Z) : Z :=
  Z.of_nat (length (nodup string_dec
                      (map technology (filter (fun x => gvkey x =? g) panel)))).

(** [panel[panel["gvkey"].isin(multi_tech_firms)]]. *)
Definition multi_tech_sample (panel : list row) : list row :=
  filter (fun r => 2 <=? techs_per_firm panel (gvkey r)) panel.

Definition notna (o : option Q) : bool :=
  match o with Some _ => true | None => false end.

(** [df.dropna(subset=cols)]. *)
Definition dropna (subset : list string) (df : list row) : list row :=
  filter (fun r => forallb (fun c => notna (get r c)) subset) df.

Definition peer_cause_cols : list string := map (peer_name "peer") CAUSE_COLS.
Definition peer_effect_cols : list string := map (peer_name "peer") EFFECT_COLS.

(** Lines 64-117: the sample the regressions run on. *)
Definition with_peers (df : list row) : list row :=
  compute_peer_shares (compute_peer_shares df CAUSE_COLS "peer") EFFECT_COLS "peer".

Definition final_sample (panel : list row) : list row :=
  dropna (peer_cause_cols ++ peer_effect_cols) (with_peers (multi_tech_sample panel)).

(** Specification side: no share column of the panel has a missing value. *)
Definition shares_complete (panel : list row) : Prop :=
  forall r c, In r panel -> In c (CAUSE_COLS ++ EFFECT_COLS) -> get r c <> None.

(** *** A small panel *)

Definition example_cols (c1 e1 : Q) : list (string * option Q) :=
  [ ("share_cause_1", Some c1); ("share_cause_2", Some (1 - c1)%Q);
    ("share_cause_3", Some 0%Q); ("share_cause_4", Some 0%Q);
    ("share_cause_5", Some 0%Q);
    ("share_effect_1", Some e1); ("share_effect_2", Some (1 - e1)%Q);
    ("share_effect_3", Some 0%Q); ("share_effect_4", Some 0%Q);
    ("share_effect_5", Some 0%Q) ].

(** Firm 9 has one observation in each of two technologies, with the shares
    0.1 and 0.2 in the first cause category. *)
Definition tenth_fifth_panel : list row :=
  [ mk_row 9 "AI" "2021q1" [("share_cause_1", Some (1 # 10))];
    mk_row 9 "Cloud" "2021q1" [("share_cause_1", Some (2 # 10))] ].

(** Its first row. *)
Definition tenth_row : row := mk_row 9 "AI" "2021q1" [("share_cause_1", Some (1 # 10))].

(** Firm 7 has two technologies, firm 8 a single one. *)
Definition example_panel : list row :=
  [ mk_row 7 "AI" "2021q1" (example_cols (1 # 2) (1 # 4));
    mk_row 7 "AI" "2021q2" (example_cols (1 # 4) (1 # 2));
    mk_row 7 "Cloud" "2021q1" (example_cols (3 # 4) (3 # 4));
    mk_row 8 "AI" "2021q1" (example_cols (1 # 3) (2 # 3)) ].

End Spillover.

(** ** The table loops of 06_table_IVB_spillover.py and
       07_table_IVC_dynamics.py *)

Module Regressions.

Local Open Scope string_scope.
Local Open Scope Z_scope.

(** One entry of [MAIN_SPECS]. *)
Record spec := mk_spec {
  label : string;
  desc : string;
  fe : list string;
  sample : string
}.

(** [MAIN_SPECS] of 06_table_IVB_spillover.py. *)
Definition MAIN_SPECS_IVB : list spec :=
  [ mk_spec "(I)" "Baseline" ["tech_cat"; "qtr_cat"] "all";
    mk_spec "(II)" "Ind x Qtr" ["tech_cat"; "indqtr_cat"] "all";
    mk_spec "(III)" "Tech x Qtr" ["techqtr_cat"; "indqtr_cat"] "all";
    mk_spec "(IV)" "First appear." ["tech_cat"; "qtr_cat"] "first" ].

(** [MAIN_SPECS] of 07_table_IVC_dynamics.py. *)
Definition MAIN_SPECS_IVC : list spec :=
  [ mk_spec "(I)" "All horizons" ["tech_cat"; "qtr_cat"] "all";
    mk_spec "(II)" "Tenure 1--4q" ["tech_cat"; "qtr_cat"] "1-4q";
    mk_spec "(III)" "Tenure 5--12q" ["tech_cat"; "qtr_cat"] "5-12q";
    mk_spec "(IV)" "Tenure 13+q" ["tech_cat"; "qtr_cat"] "13+q" ].

(** What a run does, in order: a specification is started (the progress
    line is printed), then it is estimated or it fails. *)
Inductive event : Type :=
| Started (side label : string)
| Estimated (side label : string)
| Failed (side label : string) (e : exn).

(** The claim "no later step executes after an error", on a run's events. *)
Definition fail_fast (log : list event) : Prop :=
  forall pre side lbl e post, log = (pre ++ Failed side lbl e :: post)%list -> post = [].

(** Loops whose body may raise. *)
Fixpoint foldM {A S : Type} (f : S -> A -> result S) (l : list A) (s : S) : result S :=
  match l with
  | [] => Ok s
  | x :: t => s' <- f s x ;; foldM f t s'
  end.

Section Loops.
(** A stacked long DataFrame, the demeaned arrays, and the dict of estimates
    [run_hdfe_ols] returns. *)
Variables frame demeaned estimate : Type.
(** [pyhdfe.create(...).residualize(...)] on the valid rows. *)
Variable residualize : frame -> list string -> result demeaned.
(** [keep.sum()]: the rows whose demeaned regressor is not zero. *)
Variable n_keep : demeaned -> Z.
(** [sm.OLS(...).fit(cov_type="cluster", ...)] and the packaging of the result. *)
Variable ols : demeaned -> result estimate.
(** [long_df[long_df["is_first"]]] and [long_df[long_df["tenure_bin"] == b]]. *)
Variable first_rows : frame -> frame.
Variable bin_rows : string -> frame -> frame.

Definition run_hdfe_ols (data : frame) (fe_cols : list string) : result estimate :=
  dm <- residualize data fe_cols ;;
  if n_keep dm <? 10
  then Raise (ValueError "Only a few rows with non-zero demeaned X")
  else ols dm.

Definition results : Type := list (string * string * option estimate).

(** [d[key] = value] on a dict kept in insertion order. *)
Fixpoint dict_set (k : string * string) (v : option estimate) (d : results) : results :=
  match d with
  | [] => [(k, v)]
  | (k', v') :: t =>
      if String.eqb (fst k') (fst k) && String.eqb (snd k') (snd k)
      then (k', v) :: t
      else (k', v') :: dict_set k v t
  end.

Definition state : Type := results * list event.

(** The body shared by both loops:
    [try: res = run_hdfe_ols(sample, spec["fe"]); main_results[(side, label)] = res
     except Exception as e: print(f"FAILED: {e}"); main_results[(side, label)] = None]. *)
Definition try_spec (side : string) (smp : frame) (s : spec) (st : state) : state :=
  let started := (snd st ++ [Started side (label s)])%list in
  match run_hdfe_ols smp (fe s) with
  | Ok res => (dict_set (side, label s) (Some res) (fst st),
               (started ++ [Estimated side (label s)])%list)
  | Raise e => (dict_set (side, label s) None (fst st),
                (started ++ [Failed side (label s) e])%list)
  end.

(** The sample selection of 06; it is outside the [try]. *)
Definition select_sample_IVB (long_df : frame) (s : spec) : result frame :=
  if String.eqb (sample s) "all" then Ok long_df
  else if String.eqb (sample s) "first" then Ok (first_rows long_df)
  else Raise (ValueError "Unknown sample").

(** Section 7 of 06_table_IVB_spillover.py. *)
Definition main_table_IVB (specs : list spec) (cause_long effect_long : frame)
  : result state :=
  foldM (fun st (sl : string * frame) =>
           foldM (fun st' s =>
                    smp <- select_sample_IVB (snd sl) s ;;
                    Ok (try_spec (fst sl) smp s st'))
                 specs st)
        [("cause", cause_long); ("effect", effect_long)]
        ([], []).

Definition select_sample_IVC (long_df : frame) (s : spec) : frame :=
  if String.eqb (sample s) "all" then long_df else bin_rows (sample s) long_df.

(** Section 7 of 07_table_IVC_dynamics.py. *)
Definition persistence_table (specs : list spec) (cause_long effect_long : frame)
  : state :=
  fold_left (fun st (sl : string * frame) =>
               fold_left (fun st' s =>
                            try_spec (fst sl) (select_sample_IVC (snd sl) s) s st')
                         specs st)
            [("cause", cause_long); ("effect", effect_long)]
            ([], []).

(** What ends up in [main_results] for one specification. *)
Definition attempt (smp : frame) (s : spec) : option estimate :=
  match run_hdfe_ols smp (fe s) with
  | Ok res => Some res
  | Raise _ => None
  end.

(** The event that follows the progress line of one specification. *)
Definition outcome (side : string) (smp : frame) (s : spec) : event :=
  match run_hdfe_ols smp (fe s) with
  | Ok _ => Estimated side (label s)
  | Raise e => Failed side (label s) e
  end.

End Loops.

(** *** A run in which the first-appearance subsample is too small *)

(** Frames are reduced to their number of usable rows; an estimate to the
    number of observations it used. *)
Definition example_run : result (results Z) * list event :=
  match main_table_IVB Z Z Z (fun d _ => Ok d) (fun d => d) (fun d => Ok d)
          (fun _ => 6) MAIN_SPECS_IVB 500 480 with
  | Ok st => (Ok (fst st), snd st)
  | Raise e => (Raise e, [])
  end.

End Regressions.

(** ** 07_table_IVC_dynamics.py: quarter labels and tenure *)

Module Dynamics.

Local Open Scope string_scope.
Local Open Scope Z_scope.

(** A panel row, restricted to the columns the tenure computation reads. *)
Record obs := mk_obs { gvkey : Z; technology : string; dateQ : string }.

Definition digit_val (c : ascii) : option Z :=
  let n := Z.of_N (N_of_ascii c) in
  if (48 <=? n) && (n <=? 57) then Some (n - 48) else None.

(** The digits of a decimal literal after the first one: single underscores
    may separate them. *)
Fixpoint int_body (acc : Z) (s : string) : option Z :=
  match s with
  | EmptyString => Some acc
  | String c s' =>
      match digit_val c with
      | Some d => int_body (10 * acc + d) s'
      | None =>
          if Ascii.eqb c "_" then
            match s' with
            | String c' s'' =>
                match digit_val c' with
                | Some d => int_body (10 * acc + d) s''
                | None => None
                end
            | EmptyString => None
            end
          else None
      end
  end.

Definition int_literal (s : string) : option Z :=
  match s with
  | String c s' =>
      match digit_val c with
      | Some d => int_body d s'
      | None => None
      end
  | EmptyString => None
  end.

(** The white space that [int] skips around a number, on ASCII text: tab,
    line feed, vertical tab, form feed, carriage return and blank. *)
Definition is_int_space (c : ascii) : bool :=
  let n := N_of_ascii c in
  ((9 <=? n) && (n <=? 13) || (n =? 32))%N.

Fixpoint skip_left (s : string) : string :=
  match s with
  | String c s' => if is_int_space c then skip_left s' else s
  | EmptyString => EmptyString
  end.

Fixpoint skip_right (s : string) : string :=
  match s with
  | EmptyString => EmptyString
  | String c s' =>
      match skip_right s' with
      | EmptyString => if is_int_space c then EmptyString else String c EmptyString
      | t => String c t
      end
  end.

(** [int(s)] on a string: white space around the number is skipped; the
    number is an optional sign followed by decimal digits, which single
    underscores may separate.  [None] is [ValueError]. *)
Definition py_int (s : string) : option Z :=
  match skip_right (skip_left s) with
  | String c s' =>
      if Ascii.eqb c "-" then option_map Z.opp (int_literal s')
      else if Ascii.eqb c "+" then int_literal s'
      else int_literal (String c s')
  | EmptyString => None
  end.

(** [y, qn = q.split("q"); return int(y) * 4 + int(qn)].  Unpacking
    anything but two pieces raises. *)
Definition q_to_num (q : string) : option Z :=
  match split_on "q" q with
  | [y; qn] =>
      match py_int y, py_int qn with
      | Some a, Some b => Some (a * 4 + b)
      | _, _ => None
      end
  | _ => None
  end.

Definition same_pair (r r' : obs) : bool :=
  (gvkey r =? gvkey r')%Z && String.eqb (technology r) (technology r').

(** [panel.groupby(["gvkey","technology"]).size()] read at the pair of [r]. *)
Definition pair_count (panel : list obs) (r : obs) : Z :=
  count_if (same_pair r) panel.

(** [df = panel.merge(multi_obs_pairs, on=["gvkey","technology"])]: the rows
    whose firm-technology pair has at least two observations. *)
Definition build_df (panel : list obs) : list obs :=
  filter (fun r => 2 <=? pair_count panel r)%Z panel.

(** [min] of two Python strings (code-point lexicographic order). *)
Definition str_min (a b : string) : string :=
  if String.ltb b a then b else a.

(** [Series.min()] of a group of strings; [None] for an empty group. *)
Definition group_min (l : list string) : option string :=
  match l with
  | [] => None
  | x :: t => Some (fold_left str_min t x)
  end.

(** The [first_dateQ] column after the left merge of
    [df.groupby(["gvkey","technology"])["dateQ"].min()]. *)
Definition first_dateQ (df : list obs) (r : obs) : option string :=
  group_min (map dateQ (filter (same_pair r) df)).

(** [df["tenure_q"] = df["q_num"] - df["first_q_num"]]. *)
Definition tenure_q (df : list obs) (r : obs) : option Z :=
  match first_dateQ df r with
  | Some f =>
      match q_to_num (dateQ r), q_to_num f with
      | Some a, Some b => Some (a - b)
      | _, _ => None
      end
  | None => None
  end.

(** *** Labels of the form YYYYqQ (specification side) *)

Definition is_quarter_digit (c : ascii) : bool :=
  match digit_val c with
  | Some d => (1 <=? d)%Z && (d <=? 4)%Z
  | None => false
  end.

Definition is_digit (c : ascii) : bool :=
  match digit_val c with Some _ => true | None => false end.

Definition is_label (s : string) : bool :=
  match s with
  | String a (String b (String c (String d (String "q" (String k EmptyString))))) =>
      is_digit a && is_digit b && is_digit c && is_digit d && is_quarter_digit k
  | _ => false
  end.

Definition dv (c : ascii) : Z := Z.of_N (N_of_ascii c) - 48.

Definition label_year (s : string) : Z :=
  match s with
  | String a (String b (String c (String d _))) =>
      1000 * dv a + 100 * dv b + 10 * dv c + dv d
  | _ => 0
  end.

Definition label_quarter (s : string) : Z :=
  match s with
  | String _ (String _ (String _ (String _ (String _ (String k _))))) => dv k
  | _ => 0
  end.

(** The numeric value of a label, as the specification reads it. *)
Definition label_num (s : string) : Z := label_year s * 4 + label_quarter s.

(** Chronological order on labels: by year, then by quarter. *)
Definition chrono_lt (s t : string) : Prop :=
  label_year s < label_year t \/
  (label_year s = label_year t /\ label_quarter s < label_quarter t).

(** *** Small panels *)

(** A two-row panel for one firm-technology pair. *)
Definition tenure_example : list obs :=
  [ mk_obs 1001 "AI" "2021q3"; mk_obs 1001 "AI" "2020q4" ].

(** A pair observed in the last quarter of the year 9999 and in a quarter
    labelled with a five-digit year. *)
Definition long_year_example : list obs :=
  [ mk_obs 1001 "AI" "9999q4"; mk_obs 1001 "AI" "10000q1" ].

End Dynamics.

(** ** scripts/quality_score.py: the quality scorer *)

Module QualityScore.

Local Open Scope string_scope.
Local Open Scope Z_scope.

(** One entry of [self.issues[severity]]. *)
Record issue := mk_issue {
  i_type : string;
  i_description : string;
  i_details : string;
  i_points : Z
}.

(** The state of a [QualityScorer] object. *)
Record scorer := mk_scorer {
  filepath : string;
  verbose : bool;
  score : Z;
  critical : list issue;
  major : list issue;
  minor : list issue;
  auto_fail : bool
}.

(** [QualityScorer.__init__]. *)
Definition init (path : string) (verb : bool) : scorer :=
  mk_scorer path verb 100 [] [] [] false.

Definition THRESHOLD_commit : Z := 80.
Definition THRESHOLD_pr : Z := 90.
Definition THRESHOLD_excellence : Z := 95.

Record report := mk_report {
  r_filepath : string;
  r_score : Z;
  r_status : string;
  r_threshold : string;
  r_auto_fail : bool;
  r_critical : list issue;
  r_major : list issue;
  r_minor : list issue;
  r_counts : Z * Z * Z * Z     (* critical, major, minor, total *)
}.

(** [QualityScorer._generate_report]. *)
Definition generate_report (s : scorer) : report :=
  let st :=
    if auto_fail s then ("FAIL", "None (auto-fail)")
    else if THRESHOLD_excellence <=? score s then ("EXCELLENCE", "excellence")
    else if THRESHOLD_pr <=? score s then ("PR_READY", "pr")
    else if THRESHOLD_commit <=? score s then ("COMMIT_READY", "commit")
    else ("BLOCKED", "None (below commit)") in
  let cc := Z.of_nat (length (critical s)) in
  let mc := Z.of_nat (length (major s)) in
  let nc := Z.of_nat (length (minor s)) in
  mk_report (filepath s) (score s) (fst st) (snd st) (auto_fail s)
            (critical s) (major s) (minor s) (cc, mc, nc, cc + mc + nc).

(** [self.issues['critical'].append(i); self.score -= pts] and its siblings. *)
Definition add_critical (i : issue) (pts : Z) (s : scorer) : scorer :=
  mk_scorer (filepath s) (verbose s) (score s - pts)
            (critical s ++ [i])%list (major s) (minor s) (auto_fail s).

Definition add_major (i : issue) (pts : Z) (s : scorer) : scorer :=
  mk_scorer (filepath s) (verbose s) (score s - pts)
            (critical s) (major s ++ [i])%list (minor s) (auto_fail s).

Definition add_minor (i : issue) (pts : Z) (s : scorer) : scorer :=
  mk_scorer (filepath s) (verbose s) (score s - pts)
            (critical s) (major s) (minor s ++ [i])%list (auto_fail s).

Definition set_score (v : Z) (s : scorer) : scorer :=
  mk_scorer (filepath s) (verbose s) v (critical s) (major s) (minor s) (auto_fail s).

Definition set_auto_fail (s : scorer) : scorer :=
  mk_scorer (filepath s) (verbose s) (score s) (critical s) (major s) (minor s) true.

(** The double-quote character. *)
Definition dq : string := String "034" EmptyString.

(** [str(n)] for a line number. *)
Definition str_of_Z (n : Z) : string :=
  DecimalString.NilZero.string_of_int (Z.to_int n).

(** *** String helpers *)

Fixpoint starts_with (p s : string) : bool :=
  match p, s with
  | EmptyString, _ => true
  | String a p', String b s' => Ascii.eqb a b && starts_with p' s'
  | String _ _, EmptyString => false
  end.

(** [sub in s]. *)
Fixpoint str_contains (sub s : string) : bool :=
  starts_with sub s ||
  match s with
  | EmptyString => false
  | String _ s' => str_contains sub s'
  end.

Definition is_space (c : ascii) : bool :=
  let n := N_of_ascii c in
  ((9 <=? n) && (n <=? 13) || (28 <=? n) && (n <=? 32))%N.

Fixpoint lstrip (s : string) : string :=
  match s with
  | String c s' => if is_space c then lstrip s' else s
  | EmptyString => EmptyString
  end.

Fixpoint rstrip (s : string) : string :=
  match s with
  | EmptyString => EmptyString
  | String c s' =>
      match rstrip s' with
      | EmptyString => if is_space c then EmptyString else String c EmptyString
      | t => String c t
      end
  end.

(** [s.strip()] on ASCII text. *)
Definition strip (s : string) : string := rstrip (lstrip s).

(** *** Citation keys *)

Definition is_lower (c : ascii) : bool :=
  let n := N_of_ascii c in ((97 <=? n) && (n <=? 122))%N.

(** [\w] on ASCII text. *)
Definition is_word (c : ascii) : bool :=
  let n := N_of_ascii c in
  ((48 <=? n) && (n <=? 57) || (65 <=? n) && (n <=? 90) || (n =? 95)
   || (97 <=? n) && (n <=? 122))%N.

Fixpoint skip_while (p : ascii -> bool) (s : string) : string :=
  match s with
  | String c s' => if p c then skip_while p s' else s
  | EmptyString => EmptyString
  end.

(** A run of characters other than [stop], followed by [stop]: the run and
    what comes after [stop]. *)
Fixpoint take_until (stop : ascii) (s : string) : option (string * string) :=
  match s with
  | EmptyString => None
  | String c s' =>
      if Ascii.eqb c stop then Some (EmptyString, s')
      else match take_until stop s' with
           | Some (g, r) => Some (String c g, r)
           | None => None
           end
  end.

Fixpoint drop_chars (n : nat) (s : string) : string :=
  match n, s with
  | O, _ => s
  | S n', String _ s' => drop_chars n' s'
  | S _, EmptyString => EmptyString
  end.

(** A match of [\\cite[a-z]*\{([^}]+)\}] starting at the head of [s]:
    group 1 and the text after the match. *)
Definition cite_at (s : string) : option (string * string) :=
  if starts_with "\cite" s then
    match skip_while is_lower (drop_chars 5 s) with
    | String "{" s' =>
        match take_until "}" s' with
        | Some (String c g, r) => Some (String c g, r)
        | _ => None
        end
    | _ => None
    end
  else None.

(** A match of [@\w+\{([^,]+),] starting at the head of [s]. *)
Definition bib_entry_at (s : string) : option (string * string) :=
  match s with
  | String "@" (String w s1) =>
      if is_word w then
        match skip_while is_word s1 with
        | String "{" s' =>
            match take_until "," s' with
            | Some (String c g, r) => Some (String c g, r)
            | _ => None
            end
        | _ => None
        end
      else None
  | _ => None
  end.

(** [group(1)] of the successive non-overlapping matches, left to right.
    [skip] counts the characters of the last match still to be passed. *)
Fixpoint scan (at_head : string -> option (string * string)) (skip : nat) (s : string)
  : list string :=
  match s with
  | EmptyString => []
  | String _ s' =>
      match skip with
      | S k => scan at_head k s'
      | O =>
          match at_head s with
          | Some (g, r) => g :: scan at_head (String.length s' - String.length r) s'
          | None => scan at_head O s'
          end
      end
  end.

(** A Python set of strings, kept here as the list of its distinct elements
    in insertion order. *)
Definition set_mem (x : string) (s : list string) : bool := existsb (String.eqb x) s.

Definition set_add (s : list string) (x : string) : list string :=
  if set_mem x s then s else (s ++ [x])%list.

(** [cited_keys.update(k.strip() for k in keys)] over all matches. *)
Definition cited_keys (content : string) : list string :=
  fold_left (fun acc g => fold_left set_add (map strip (split_on "," g)) acc)
            (scan cite_at O content) [].

(** [set(re.findall(..., bib_content))]. *)
Definition bib_keys (bib_content : string) : list string :=
  fold_left set_add (scan bib_entry_at O bib_content) [].

(** [cited_keys - bib_keys]. *)
Definition set_diff (a b : list string) : list string :=
  filter (fun x => negb (set_mem x b)) a.

(** The entry [score_manuscript] appends for a citation key that is not in
    the bibliography. *)
Definition undefined_citation (key : string) : issue :=
  mk_issue "undefined_citation" ("Citation key not in bibliography: " ++ key)
           "Add to Overleaf/references.bib or fix key" 15.

Section Scorer.

(** [list(s)] for a set [s] of strings: the order in which this process
    iterates over the set.  It depends on the string hashes, which Python
    randomises per process. *)
Variable set_order : list string -> list string.

(** The regex-based detectors of [IssueDetector]; each is a function of the
    file content. *)
Variable check_stata_version : string -> bool.
Variable check_stata_raw_data_writes : string -> list Z.
Variable check_hardcoded_paths : string -> list Z.
Variable check_stata_unchecked_merge : string -> list Z.
Variable check_stata_header : string -> bool.
Variable check_latex_syntax : string -> list (Z * string).
Variable check_equation_overflow : string -> list Z.

Definition check_stata_set_more_off (content : string) : bool :=
  str_contains "set more off" content.

Definition check_stata_log (content : string) : bool :=
  str_contains "log using" content.

(** [IssueDetector.check_broken_citations]; [bib] is the content of the
    bibliography file, [None] when the file does not exist. *)
Definition check_broken_citations (content : string) (bib : option string)
  : list string :=
  let cited := cited_keys content in
  match bib with
  | None => match cited with [] => [] | _ => set_order cited end
  | Some bib_content => set_order (set_diff cited (bib_keys bib_content))
  end.

Definition when (b : bool) (f : scorer -> scorer) (s : scorer) : scorer :=
  if b then f s else s.

(** [QualityScorer.score_stata] on an object whose file holds [content]:
    the report and the object afterwards. *)
Definition score_stata (content : string) (s : scorer) : report * scorer :=
  let s := when (negb (check_stata_version content))
             (add_critical (mk_issue "missing_version" "Missing version 19.5 declaration"
                              ("Add " ++ dq ++ "version 19.5" ++ dq
                               ++ " as first line of do-file") 15) 15) s in
  let s := fold_left
             (fun s line =>
                add_critical (mk_issue "overwrites_raw_data"
                                ("Writes to raw data/ directory at line " ++ str_of_Z line)
                                "Save to data_processed/ or results/ instead" 20) 20 s)
             (check_stata_raw_data_writes content) s in
  let s := fold_left
             (fun s line =>
                add_major (mk_issue "hardcoded_path"
                             ("Hardcoded absolute path at line " ++ str_of_Z line)
                             "Use globals for directory structure" 10) 10 s)
             (check_hardcoded_paths content) s in
  let s := when (negb (check_stata_set_more_off content))
             (add_major (mk_issue "missing_set_more_off"
                           ("Missing " ++ dq ++ "set more off" ++ dq)
                           ("Add " ++ dq ++ "set more off" ++ dq
                            ++ " after version declaration") 10) 10) s in
  let s := when (negb (check_stata_log content))
             (add_major (mk_issue "missing_log" "No log file created"
                           ("Add log using " ++ dq ++ "logs/[script_name].log" ++ dq
                            ++ ", replace") 10) 10) s in
  let s := fold_left
             (fun s line =>
                add_major (mk_issue "unchecked_merge"
                             ("Merge without _merge check at line " ++ str_of_Z line)
                             "Add tab _merge and assert after every merge" 10) 10 s)
             (check_stata_unchecked_merge content) s in
  let s := when (negb (check_stata_header content))
             (add_minor (mk_issue "missing_header"
                           "Missing header block (purpose, author, date)"
                           "Add header with title, author, date, purpose, inputs, outputs"
                           3) 3) s in
  let s := set_score (Z.max 0 (score s)) s in
  (generate_report s, s).

(** [QualityScorer.score_manuscript]; [bib_local] and [bib_overleaf] are the
    contents of [references.bib] next to the manuscript and under
    [../Overleaf], when these files exist. *)
Definition score_manuscript (content : string) (bib_local bib_overleaf : option string)
  (s : scorer) : report * scorer :=
  let syntax_issues := check_latex_syntax content in
  match syntax_issues with
  | _ :: _ =>
      let s := fold_left
                 (fun s (iss : Z * string) =>
                    add_critical (mk_issue "compilation_failure"
                                    ("LaTeX syntax issue at line " ++ str_of_Z (fst iss))
                                    (snd iss) 100) 0 s)
                 syntax_issues s in
      let s := set_score 0 (set_auto_fail s) in
      (generate_report s, s)
  | [] =>
      let bib := match bib_local with Some b => Some b | None => bib_overleaf end in
      let s := fold_left
                 (fun s key => add_critical (undefined_citation key) 15 s)
                 (check_broken_citations content bib) s in
      let s := fold_left
                 (fun s line =>
                    add_major (mk_issue "overfull_hbox"
                                 ("Potential equation overflow at line " ++ str_of_Z line)
                                 "Single equation line >120 chars may cause overfull hbox"
                                 5) 5 s)
                 (check_equation_overflow content) s in
      let s := set_score (Z.max 0 (score s)) s in
      (generate_report s, s)
  end.

(** One invocation of the command-line tool on a do-file / a manuscript:
    a fresh scorer, then the scoring method. *)
Definition run_stata (path : string) (verb : bool) (content : string) : report :=
  fst (score_stata content (init path verb)).

Definition run_manuscript (path : string) (verb : bool) (content : string)
  (bib_local bib_overleaf : option string) : report :=
  fst (score_manuscript content bib_local bib_overleaf (init path verb)).

End Scorer.

(** Two scorer objects that differ at most in the path and the verbosity. *)
Definition same_findings (a b : scorer) : Prop :=
  score a = score b /\ critical a = critical b /\ major a = major b /\
  minor a = minor b /\ auto_fail a = auto_fail b.

(** Two reports that agree on everything but the path. *)
Definition same_report (a b : report) : Prop :=
  r_score a = r_score b /\ r_status a = r_status b /\ r_threshold a = r_threshold b /\
  r_auto_fail a = r_auto_fail b /\ r_critical a = r_critical b /\
  r_major a = r_major b /\ r_minor a = r_minor b /\ r_counts a = r_counts b.

(** Two reports that agree on everything but the path and the order of the
    critical issues. *)
Definition same_report_up_to_order (a b : report) : Prop :=
  r_score a = r_score b /\ r_status a = r_status b /\ r_threshold a = r_threshold b /\
  r_auto_fail a = r_auto_fail b /\ Permutation (r_critical a) (r_critical b) /\
  r_major a = r_major b /\ r_minor a = r_minor b /\ r_counts a = r_counts b.

(** *** A manuscript that cites two keys and has no bibliography *)

Definition example_tex : string := "As shown by \citep{smith2020, jones2021}.".

(** Two processes that iterate over the same set in opposite orders. *)
Definition order_a (s : list string) : list string := s.
Definition order_b (s : list string) : list string := rev s.

Definition example_manuscript_run (order : list string -> list string) : report :=
  run_manuscript order (fun _ => []) (fun _ => []) "main.tex" false
    example_tex None None.

End QualityScore.

(** ** Further definitions *)

From Stdlib Require Qabs.

(** ** The panel of 03_table_II_summary_stats.py, specification side *)

Module SummarySpec.
Import SummaryStats.
Local Open Scope string_scope.
Local Open Scope Z_scope.

(** The snippets after [drop_duplicates]: the distinct spans. *)
Definition deduped (cs : list snippet) : list snippet :=
  drop_duplicates dedup_key_eqb dedup_key cs.

(** The number of distinct spans of firm-technology-quarter [k], side
    [side_name] and macro category [c]. *)
Definition span_count (cs : list snippet) (k : key3) (side_name : string) (c : Z) : Z :=
  count_if (fun s => key5_eqb (key5_of s) (k, side_name, c)) (deduped cs).

(** The number of distinct spans of one side over the five categories. *)
Definition side_total (cs : list snippet) (k : key3) (side_name : string) : Z :=
  fold_right Z.add 0 (map (span_count cs k side_name) MACROS).

(** The keys of [counts]: the distinct grouping keys of the snippets. *)
Definition count_keys (cs : list snippet) : list key5 :=
  sort_by key5_leb (drop_duplicates key5_eqb (fun k => k) (map key5_of cs)).

(** The thresholded wide table of [build_panel]. *)
Definition wide_of (cs : list snippet) : list wide_row :=
  apply_threshold (pivot_wide (groupby_size (deduped cs))).

(** The joined pairs of [build_panel]. *)
Definition pairs_of (cs : list snippet) : list (wide_row * wide_row) :=
  flat_map
    (fun c => map (pair c)
                (filter (fun e => key3_eqb (w_key3 c) (w_key3 e))
                        (side_df "effect" (wide_of cs))))
    (side_df "cause" (wide_of cs)).

End SummarySpec.


(** ** 03_table_II_summary_stats.py: the sanity check on the mean shares *)

Module SummaryTable.
Import SummaryStats.
Local Open Scope string_scope.
Local Open Scope Z_scope.

(** [panel[f"share_{side}_{c}"]] at one row. *)
Definition share_of (side_name : string) (c : Z) (p : panel_row) : Q :=
  nth (Z.to_nat (c - 1))
      (if String.eqb side_name "cause" then share_cause (p_joint p)
       else share_effect (p_joint p))
      0%Q.

(** [dist_stats(s)["mean"]], that is [s.mean()]: NaN on an empty column. *)
Definition column_mean (col : panel_row -> Q) (panel : list panel_row) : option Q :=
  match panel with
  | [] => None
  | _ => Some (qmean (map col panel))
  end.

(** [sum(stats[c]["mean"] for c in range(1, 6))]; a NaN term makes the sum
    NaN. *)
Definition mean_sum (side_name : string) (panel : list panel_row) : option Q :=
  fold_left (fun acc c =>
               match acc, column_mean (share_of side_name c) panel with
               | Some a, Some m => Some (a + m)%Q
               | _, _ => None
               end)
            MACROS (Some 0%Q).

(** [SHARE_TOL = 1e-6], taken as the decimal number. *)
Definition SHARE_TOL : Q := 1 # 1000000.

(** [abs(x - 1.0) < SHARE_TOL]; a comparison with NaN is false. *)
Definition near_one (x : option Q) : bool :=
  match x with
  | Some v => negb (Qle_bool SHARE_TOL (Qabs.Qabs (v - 1)))
  | None => false
  end.

(** Lines 300-308: the two assertions, the cause side first.  The messages
    are kept up to the number they end with. *)
Definition shares_sum_check (panel : list panel_row) : result unit :=
  if near_one (mean_sum "cause" panel) then
    if near_one (mean_sum "effect" panel) then Ok tt
    else Raise (AssertionError "Effect shares do not sum to 1")
  else Raise (AssertionError "Cause shares do not sum to 1").

End SummaryTable.

(** ** 07_table_IVC_dynamics.py: initial shares and later observations *)

Module Persistence.
Import Dynamics.
Local Open Scope string_scope.
Local Open Scope Z_scope.

(** [Series.apply(f)] with a function that may raise. *)
Fixpoint traverse {A B : Type} (f : A -> option B) (l : list A) : option (list B) :=
  match l with
  | [] => Some []
  | x :: t =>
      match f x, traverse f t with
      | Some y, Some t' => Some (y :: t')
      | _, _ => None
      end
  end.

(** Lines 84-89: the frame with its [tenure_q] column; [None] when a label
    does not parse and [q_to_num] raises. *)
Definition with_tenure (df : list obs) : option (list (obs * Z)) :=
  traverse (fun r => option_map (pair r) (tenure_q df r)) df.

(** [df[df["tenure_q"] == 0]]: the rows that carry the initial shares. *)
Definition initial_obs (dt : list (obs * Z)) : list obs :=
  map fst (filter (fun rt => snd rt =? 0) dt).

(** [df[df["tenure_q"] >= 1]]. *)
Definition later_rows (dt : list (obs * Z)) : list (obs * Z) :=
  filter (fun rt => 1 <=? snd rt) dt.

(** [df[df["tenure_q"] >= 1].merge(initial_obs, on=["gvkey","technology"])]:
    an inner join in the order of the left rows; a row of the result is a
    later observation together with the initial row whose columns it gets. *)
Definition df_later (dt : list (obs * Z)) : list ((obs * Z) * obs) :=
  flat_map (fun rt => map (pair rt) (filter (same_pair (fst rt)) (initial_obs dt)))
           (later_rows dt).

(** [pd.cut(x, bins=bins, labels=labels, right=True)] on one value: the label
    of the interval (lo, hi] that holds it, missing when there is none. *)
Fixpoint cut (bins : list Z) (labels : list string) (x : Z) : option string :=
  match bins, labels with
  | lo :: ((hi :: _) as rest), l :: ls =>
      if (lo <? x) && (x <=? hi) then Some l else cut rest ls x
  | _, _ => None
  end.

(** The [tenure_bin] column. *)
Definition tenure_bin (t : Z) : option string :=
  cut [0; 4; 12; 200] ["1-4q"; "5-12q"; "13+q"] t.

(** Firm 1001 mentions AI in three quarters and Cloud in one. *)
Definition example_panel : list obs :=
  [ mk_obs 1001 "AI" "2021q3"; mk_obs 1001 "AI" "2020q4";
    mk_obs 1001 "Cloud" "2021q1"; mk_obs 1001 "AI" "2022q1" ].

End Persistence.

(** ** scripts/quality_score.py: the Python scorer, the LaTeX check and the
    command line *)

Module QualityCli.
Import QualityScore.
Local Open Scope string_scope.
Local Open Scope Z_scope.

(** The points listed in a report or held by a scorer. *)
Definition total (l : list issue) : Z := fold_right Z.add 0 (map i_points l).

Definition listed_points (r : report) : Z :=
  total (r_critical r ++ r_major r ++ r_minor r)%list.

(** *** score_python *)

(** [IssueDetector.check_python_docstring]. *)
Definition check_python_docstring (content : string) : bool :=
  let stripped := lstrip content in
  starts_with (dq ++ dq ++ dq) stripped || starts_with "'''" stripped.

(** [any(fn in content for fn in [...])]. *)
Definition has_random (content : string) : bool :=
  existsb (fun fn => str_contains fn content)
          ["random.seed"; "np.random"; "sample("; "shuffle"; "choice("].

Section PythonScorer.
(** [check_python_syntax] runs the compiler in a subprocess; the other
    detectors are regular-expression searches of the content. *)
Variable check_python_syntax : string -> bool * string.
Variable check_hardcoded_paths : string -> list Z.
Variable check_python_raw_data_writes : string -> list Z.
Variable check_python_seed : string -> bool.
Variable check_python_manifest : string -> bool.

(** [QualityScorer.score_python] on an object whose file holds [content]. *)
Definition score_python (content : string) (s : scorer) : report * scorer :=
  let (is_valid, error) := check_python_syntax (filepath s) in
  if negb is_valid then
    let s := set_auto_fail s in
    let s := add_critical (mk_issue "syntax_error" "Python syntax error"
                             (substring 0 200 error) 100) 0 s in
    let s := set_score 0 s in
    (generate_report s, s)
  else
    let s := fold_left
               (fun s line =>
                  add_critical (mk_issue "hardcoded_path"
                                  ("Hardcoded absolute path at line " ++ str_of_Z line)
                                  "Use Path(__file__).resolve().parents[2] for repo root"
                                  20) 20 s)
               (check_hardcoded_paths content) s in
    let s := fold_left
               (fun s line =>
                  add_critical (mk_issue "overwrites_raw_data"
                                  ("Writes to raw data/ directory at line " ++ str_of_Z line)
                                  "Write to data_processed/ or results/ instead" 20) 20 s)
               (check_python_raw_data_writes content) s in
    let s := when (has_random content && negb (check_python_seed content))
               (add_major (mk_issue "missing_seed" "Missing SEED = 42 at module top"
                             "Add SEED = 42 at top and use for all random operations"
                             10) 10) s in
    let s := when (negb (check_python_manifest content))
               (add_major (mk_issue "missing_manifest" "No manifest JSON pattern detected"
                             "Write manifest to results/runs/ on every execution" 10) 10) s in
    let s := when (negb (check_python_docstring content))
               (add_minor (mk_issue "missing_docstring" "Missing module docstring"
                             "Add docstring with title, purpose, inputs, outputs" 2) 2) s in
    let s := set_score (Z.max 0 (score s)) s in
    (generate_report s, s).

Definition run_python (path : string) (verb : bool) (content : string) : report :=
  fst (score_python content (init path verb)).

End PythonScorer.

(** *** check_latex_syntax *)

(** The longest run of [\w] characters at the head of [s], and the rest. *)
Fixpoint span_word (s : string) : string * string :=
  match s with
  | String c s' =>
      if is_word c then let (g, r) := span_word s' in (String c g, r)
      else (EmptyString, s)
  | EmptyString => (EmptyString, EmptyString)
  end.

(** A match of [prefix(\w+)\}] at the head of [s]: group 1 and the text
    after the match. *)
Definition env_at (prefix : string) (s : string) : option (string * string) :=
  if starts_with prefix s then
    match span_word (drop_chars (String.length prefix) s) with
    | (String c g, String "}" r) => Some (String c g, r)
    | _ => None
    end
  else None.

(** Matches of [\\begin\{(\w+)\}] and of [\\end\{(\w+)\}]. *)
Definition begin_at : string -> option (string * string) := env_at "\begin{".
Definition end_at : string -> option (string * string) := env_at "\end{".

(** [line.split('%')[0] if '%' in line else line]. *)
Definition strip_comment (line : string) : string :=
  match split_on "%" line with
  | h :: _ => h
  | [] => line
  end.

(** [enumerate(lines, start)]. *)
Fixpoint enumerate {A : Type} (start : Z) (l : list A) : list (Z * A) :=
  match l with
  | [] => []
  | x :: t => (start, x) :: enumerate (start + 1) t
  end.

(** The environment stack (a Python list: the top is the last element) and
    the issues found so far. *)
Definition latex_state : Type := list (string * Z) * list (Z * string).

(** The body of the loop over the [\end] matches of line [i]. *)
Definition end_step (i : Z) (st : latex_state) (env_name : string) : latex_state :=
  match rev (fst st) with
  | (top, opened) :: _ =>
      if String.eqb top env_name then (removelast (fst st), snd st)
      else (fst st,
            (snd st ++ [(i, ("Mismatched environment: \end{" ++ env_name
                             ++ "} but expected \end{" ++ top
                             ++ "} (opened at line " ++ str_of_Z opened ++ ")")%string)])%list)
  | [] =>
      (fst st,
       (snd st ++ [(i, ("\end{" ++ env_name ++ "} without matching \begin")%string)])%list)
  end.

(** One line: every [\begin] of the line is pushed, then the [\end]s of the
    line are processed. *)
Definition line_step (st : latex_state) (il : Z * string) : latex_state :=
  let stripped := strip_comment (snd il) in
  let pushed := (fst st ++ map (fun g => (g, fst il)) (scan begin_at O stripped))%list in
  fold_left (end_step (fst il)) (scan end_at O stripped) (pushed, snd st).

(** The lines of a text: [content.split('\n')]. *)
Definition lines_of (content : string) : list string := split_on "010" content.

(** [IssueDetector.check_latex_syntax]: (line, description) of every issue. *)
Definition check_latex_syntax (content : string) : list (Z * string) :=
  let st := fold_left line_step (enumerate 1 (lines_of content)) ([], []) in
  (snd st ++ map (fun e => (snd e, ("Unclosed environment: \begin{" ++ fst e
                                    ++ "} never closed")%string)) (fst st))%list.

(** The height of the stack minus the number of issues so far. *)
Definition balance (st : latex_state) : Z :=
  Z.of_nat (length (fst st)) - Z.of_nat (length (snd st)).

(** Specification side: the numbers of [\begin{name}] and of [\end{name}]
    that the check sees: the name is a run of letters, digits and
    underscores, and only the part of a line before its first [%] is
    read. *)
Definition count_begins (content : string) : Z :=
  fold_right Z.add 0
    (map (fun l => Z.of_nat (length (scan begin_at O (strip_comment l))))
         (lines_of content)).

Definition count_ends (content : string) : Z :=
  fold_right Z.add 0
    (map (fun l => Z.of_nat (length (scan end_at O (strip_comment l))))
         (lines_of content)).

(** *** main *)

(** What the loop of [main] meets for one path: the file does not exist, its
    suffix is not supported, it is scored, or an exception is caught. *)
Inductive file_result : Type :=
| Missing
| Unsupported
| Scored (r : report)
| Crashed.

(** The update of [exit_code] in one iteration. *)
Definition exit_step (exit_code : Z) (f : file_result) : Z :=
  match f with
  | Missing => 1
  | Unsupported => exit_code
  | Scored r =>
      if r_auto_fail r then Z.max exit_code 2
      else if r_score r <? THRESHOLD_commit then Z.max exit_code 1
      else exit_code
  | Crashed => 1
  end.

(** The status with which [main] ends, given what the loop meets for the
    paths of the command line.  Without a path the argument parser
    ([nargs='+']) ends the process with status 2 before the loop; otherwise
    the status is the argument of [sys.exit]. *)
Definition main_exit_code (files : list file_result) : Z :=
  match files with
  | [] => 2
  | _ :: _ => fold_left exit_step files 0
  end.

(** Files whose iteration leaves [exit_code] at 0. *)
Definition passes (f : file_result) : Prop :=
  match f with
  | Unsupported => True
  | Scored r => r_auto_fail r = false /\ THRESHOLD_commit <= r_score r
  | Missing | Crashed => False
  end.

(** Iterations that assign [exit_code = 1]. *)
Definition resets (f : file_result) : Prop :=
  match f with
  | Missing | Crashed => True
  | _ => False
  end.

(** Specification side: the score is what the listed points leave of 100,
    a critical issue costs at least 15 points, no issue has negative points,
    and the file has not failed outright. *)
Definition consistent (s : scorer) : Prop :=
  score s = 100 - total (critical s) - total (major s) - total (minor s) /\
  Forall (fun i => 15 <= i_points i) (critical s) /\
  Forall (fun i => 0 <= i_points i) (major s) /\
  Forall (fun i => 0 <= i_points i) (minor s) /\
  auto_fail s = false.

(** Specification side: what every report satisfies. *)
Definition score_explained (r : report) : Prop :=
  r_score r = Z.max 0 (100 - listed_points r) /\ 0 <= r_score r <= 100.

Definition critical_blocks (r : report) : Prop :=
  r_critical r <> [] ->
  r_score r <= 85 /\
  (r_status r = "COMMIT_READY" \/ r_status r = "BLOCKED" \/ r_status r = "FAIL").

(** A document with an environment that is never closed. *)
Definition unclosed_tex : string :=
  "\begin{table} text \cite{smith2020} % \end{table}".

(** A command line with that document, which fails outright, followed by a
    manuscript without any issue. *)
Definition failed_report : report :=
  run_manuscript order_a check_latex_syntax (fun _ => []) "main.tex" false
    unclosed_tex None None.

Definition clean_report : report :=
  run_manuscript order_a check_latex_syntax (fun _ => []) "notes.tex" false
    "Plain text." None None.

Definition failed_then_passed : list file_result :=
  [ Scored failed_report; Scored clean_report ].

End QualityCli.

(** ** 06_table_IVB_spillover.py: first appearances, the long format, the
    fixed-effect keys and the exported table *)

Module SpilloverLong.
Import Spillover.
Local Open Scope string_scope.
Local Open Scope Z_scope.

(** *** 3. First-appearance subsample *)

(** The [first_dateQ] column after the left merge of
    [df.groupby(["gvkey","technology"])["dateQ"].min()]. *)
Definition first_dateQ (df : list row) (r : row) : option string :=
  Dynamics.group_min (map dateQ (filter (same_firm_tech r) df)).

(** [df["is_first"] = df["dateQ"] == df["first_dateQ"]]. *)
Definition is_first (df : list row) (r : row) : bool :=
  match first_dateQ df r with
  | Some f => String.eqb (dateQ r) f
  | None => false
  end.

(** The key of a panel row. *)
Definition key (r : row) : Z * string * string := (gvkey r, technology r, dateQ r).

(** *** 5. Stack to long format *)

(** A row of the long frame: the observation it comes from (with its key
    columns, [is_first] and the other columns that are copied), the category
    and the two shares of that category. *)
Record long_row := mk_long {
  l_obs : row;
  category : Z;
  own_share : option Q;
  peer_share : option Q;
  weight : option Q;
  l_side : string
}.

(** One [chunk] of [stack_to_long]. *)
Definition chunk (data : list row) (c : Z) (own_col peer_col : string)
  (weight_col : option string) (side_label : string) : list long_row :=
  map (fun r => mk_long r c (get r own_col) (get r peer_col)
                  (match weight_col with Some w => get r w | None => None end)
                  side_label)
      data.

(** The loop over [range(len(own_cols))] from category [c] on; [None] is the
    [IndexError] of [peer_cols[c_idx]] when [peer_cols] is the shorter
    list. *)
Fixpoint stack_from (c : Z) (data : list row) (own_cols peer_cols : list string)
  (weight_col : option string) (side_label : string) : option (list long_row) :=
  match own_cols with
  | [] => Some []
  | oc :: own' =>
      match peer_cols with
      | pc :: peer' =>
          option_map (app (chunk data c oc pc weight_col side_label))
                     (stack_from (c + 1) data own' peer' weight_col side_label)
      | [] => None
      end
  end.

(** [stack_to_long(data, own_cols, peer_cols, side_label, weight_col)], for
    at least one own column and a frame that holds the columns read: with no
    own column [pd.concat] has nothing to concatenate and raises
    [ValueError], and a column that the frame does not hold raises
    [KeyError]. *)
Definition stack_to_long (data : list row) (own_cols peer_cols : list string)
  (side_label : string) (weight_col : option string) : option (list long_row) :=
  stack_from 1 data own_cols peer_cols weight_col side_label.

(** *** 6. The keys of the category-interacted fixed effects *)

(** [long_df["technology"].astype(str) + "_" + cat]. *)
Definition tech_cat (l : long_row) : string :=
  technology (l_obs l) ++ "_" ++ QualityScore.str_of_Z (category l).

(** [long_df["dateQ"].astype(str) + "_" + cat]. *)
Definition qtr_cat (l : long_row) : string :=
  dateQ (l_obs l) ++ "_" ++ QualityScore.str_of_Z (category l).

(** [techqtr + "_" + cat] with [techqtr = technology + "_" + dateQ]. *)
Definition techqtr_cat (l : long_row) : string :=
  (technology (l_obs l) ++ "_" ++ dateQ (l_obs l)) ++ "_"
  ++ QualityScore.str_of_Z (category l).

(** The columns one call reads: the own columns, as many peer columns, and
    the weight column. *)
Definition columns_read (own_cols peer_cols : list string) (weight_col : option string)
  : list string :=
  (own_cols ++ firstn (length own_cols) peer_cols
   ++ match weight_col with Some w => [w] | None => [] end)%list.

(** The cause side of the small panel in long format, and two of its rows:
    firm 7's first observation in category 1 and its second one in
    category 2. *)
Definition example_long : list long_row :=
  match stack_to_long example_panel CAUSE_COLS peer_cause_cols "cause" None with
  | Some l => l
  | None => []
  end.

Definition example_long_a : long_row :=
  nth 0 example_long (mk_long (mk_row 0 "" "" []) 0 None None None "").

Definition example_long_b : long_row :=
  nth 5 example_long (mk_long (mk_row 0 "" "" []) 0 None None None "").

End SpilloverLong.

Module MainTableCsv.
Import Regressions.
Local Open Scope string_scope.

Section Rows.
Variable estimate : Type.

(** [main_results.get((side, label))]: [None] for a missing key and for a
    specification that failed. *)
Definition results_get (k : string * string) (d : results estimate) : option estimate :=
  match find (fun kv => String.eqb (fst (fst kv)) (fst k)
                        && String.eqb (snd (fst kv)) (snd k)) d with
  | Some kv => snd kv
  | None => None
  end.

(** A row of [table_IVB_spillover.csv]; the numeric columns are those of the
    estimate. *)
Record csv_row := mk_csv {
  c_side : string;
  c_column : string;
  c_description : string;
  c_sample : string;
  c_fe : string;
  c_res : estimate
}.

(** Section 9: the rows of the main-table CSV. *)
Definition csv_rows (specs : list spec) (main_results : results estimate)
  : list csv_row :=
  flat_map
    (fun side =>
       flat_map
         (fun s =>
            match results_get (side, label s) main_results with
            | Some res => [mk_csv side (label s) (desc s) (sample s)
                                  (String.concat " + " (fe s)) res]
            | None => []
            end)
         specs)
    ["cause"; "effect"].

(** Specification side: the sample of a specification whose sample name is
    known. *)
Definition sample_of {frame : Type} (first_rows : frame -> frame) (long_df : frame)
  (s : spec) : frame :=
  if String.eqb (sample s) "first" then first_rows long_df else long_df.

(** Specification side: the row of a specification, when its regression
    succeeded. *)
Definition row_of (side : string) (s : spec) (res : option estimate) : list csv_row :=
  match res with
  | Some r => [mk_csv side (label s) (desc s) (sample s) (String.concat " + " (fe s)) r]
  | None => []
  end.

End Rows.

End MainTableCsv.
(** * Properties *)

(** ** Counting *)

Lemma count_if_nonneg {A : Type} (p : A -> bool) l : 0 <= count_if p l.
Proof. unfold count_if. lia. Qed.

Lemma count_if_zero_filter {A : Type} (p : A -> bool) l :
  count_if p l = 0 -> filter (fun x => negb (p x)) l = l.
Proof.
  unfold count_if. induction l as [|x l IH]; simpl; [reflexivity|].
  destruct (p x); simpl; intros H; [lia|].
  f_equal. apply IH. exact H.
Qed.

(** ** Sorting is a rearrangement *)

Section SortingFacts.
Context {A : Type} (leb : A -> A -> bool).

Lemma insert_sorted_perm x l : Permutation (insert_sorted leb x l) (x :: l).
Proof.
  induction l as [|y t IH]; simpl.
  - apply Permutation_refl.
  - destruct (leb x y).
    + apply Permutation_refl.
    + eapply perm_trans; [apply perm_skip, IH | apply perm_swap].
Qed.

Lemma sort_by_perm l : Permutation (sort_by leb l) l.
Proof.
  induction l as [|x t IH]; simpl.
  - constructor.
  - eapply perm_trans; [apply insert_sorted_perm | apply perm_skip, IH].
Qed.

Lemma sort_by_In x l : In x (sort_by leb l) <-> In x l.
Proof.
  split; apply Permutation_in; [|apply Permutation_sym]; apply sort_by_perm.
Qed.

Lemma sort_by_NoDup l : NoDup l -> NoDup (sort_by leb l).
Proof.
  intros H. eapply Permutation_NoDup; [apply Permutation_sym, sort_by_perm | exact H].
Qed.
End SortingFacts.

(** ** Keys of a frame *)

Section FrameFacts.
Context {A K : Type} (keqb : K -> K -> bool) (key : A -> K).
Hypothesis keqb_spec : forall a b, keqb a b = true <-> a = b.

Lemma NoDup_map_filter (p : A -> bool) l :
  NoDup (map key l) -> NoDup (map key (filter p l)).
Proof.
  induction l as [|x t IH]; simpl; intros H; [constructor|].
  inversion H as [|? ? Hx Ht]; subst.
  destruct (p x); simpl; [constructor|]; auto.
  intros Hin. apply Hx. apply in_map_iff in Hin. destruct Hin as (y & E & Hy).
  apply filter_In in Hy. apply in_map_iff. exists y. tauto.
Qed.

Lemma drop_duplicates_NoDup l : NoDup (map key (drop_duplicates keqb key l)).
Proof.
  induction l as [|x t IH]; simpl; [constructor|].
  constructor.
  - intros Hin. apply in_map_iff in Hin. destruct Hin as (y & E & Hy).
    apply filter_In in Hy. destruct Hy as [_ Hy].
    apply negb_true_iff in Hy.
    assert (keqb (key x) (key y) = true) by (apply keqb_spec; auto).
    congruence.
  - apply NoDup_map_filter. exact IH.
Qed.

Lemma mem_key_In k l : mem_key keqb k l = true <-> In k l.
Proof.
  unfold mem_key. rewrite existsb_exists. split.
  - intros (y & Hy & E). apply keqb_spec in E. subst. exact Hy.
  - intros H. exists k. split; [exact H | apply keqb_spec; reflexivity].
Qed.

Lemma unique_keys_NoDup l : unique_keys keqb key l = true <-> NoDup (map key l).
Proof.
  induction l as [|x t IH]; simpl.
  - split; [constructor | reflexivity].
  - rewrite andb_true_iff, negb_true_iff, IH. split.
    + intros [H1 H2]. constructor; [|exact H2].
      intros Hin. apply mem_key_In in Hin. congruence.
    + intros H. inversion H as [|? ? Hx Ht]; subst. split; [|exact Ht].
      destruct (mem_key keqb (key x) (map key t)) eqn:E; [|reflexivity].
      apply mem_key_In in E. contradiction.
Qed.

(** A key that occurs once selects at most one row. *)
Lemma filter_key_le1 k l :
  NoDup (map key l) ->
  (length (filter (fun e => keqb k (key e)) l) <= 1)%nat.
Proof.
  induction l as [|x t IH]; simpl; intros H; [lia|].
  inversion H as [|? ? Hx Ht]; subst. specialize (IH Ht).
  destruct (keqb k (key x)) eqn:E; [|exact IH].
  apply keqb_spec in E. subst k.
  assert (filter (fun e => keqb (key x) (key e)) t = []) as ->; [|simpl; lia].
  destruct (filter (fun e => keqb (key x) (key e)) t) as [|y r] eqn:F; [reflexivity|].
  exfalso. apply Hx.
  assert (Hy : In y (filter (fun e => keqb (key x) (key e)) t)) by (rewrite F; left; auto).
  apply filter_In in Hy. destruct Hy as [Hy Ey]. apply keqb_spec in Ey.
  rewrite Ey. apply in_map. exact Hy.
Qed.
End FrameFacts.

(** ** Sums of rationals *)

Lemma fold_Qplus_Qeq l : forall a b, (a == b)%Q ->
  (fold_left Qplus l a == fold_left Qplus l b)%Q.
Proof.
  induction l as [|x t IH]; simpl; intros a b E; [exact E|].
  apply IH. rewrite E. reflexivity.
Qed.

Lemma fold_Qplus_div d l : forall a,
  (fold_left Qplus (map (fun n => n / d) l) (a / d) == fold_left Qplus l a / d)%Q.
Proof.
  induction l as [|x t IH]; simpl; intros a; [reflexivity|].
  rewrite <- IH. apply fold_Qplus_Qeq. unfold Qdiv. ring.
Qed.

(** Dividing every term by the total gives terms that sum to one. *)
Lemma qsum_shares l :
  ~ (qsum l == 0)%Q -> (qsum (map (fun n => n / qsum l) l) == 1)%Q.
Proof.
  intros Hnz. unfold qsum at 1.
  rewrite (fold_Qplus_Qeq _ 0%Q (0 / qsum l)%Q) by (unfold Qdiv; ring).
  rewrite fold_Qplus_div. fold (qsum l). field. exact Hnz.
Qed.

(** ** Run manifests (src/py/manifest.py) *)

Section ManifestFacts.
Import Manifest.
Local Open Scope string_scope.
Local Open Scope Z_scope.

(** C5. The manifest holds exactly the seven fields script, timestamp,
    seed, input_files, output_files, row_counts and parameters; script is the
    final component of the path, parameters is the given dict (the empty dict
    for [None]), the other four are the arguments, and only the timestamp
    field depends on the clock. *)
Theorem create_manifest_fields
  (now_iso : string) (script_path : path) (seed : Z)
  (input_files output_files : list string) (row_counts : list (string * Z))
  (parameters : option dict) :
  let m := create_manifest now_iso script_path seed input_files output_files
             row_counts parameters in
  dict_get "seed" m = Some (JInt seed) /\
  dict_get "input_files" m = Some (JList (map JStr input_files)) /\
  dict_get "output_files" m = Some (JList (map JStr output_files)) /\
  dict_get "row_counts" m = Some (JDict (map (fun kv => (fst kv, JInt (snd kv))) row_counts)) /\
  dict_get "script" m = Some (JStr (last script_path "")) /\
  dict_get "parameters" m =
    Some (JDict (match parameters with Some p => p | None => [] end)) /\
  dict_get "timestamp" m = Some (JStr now_iso) /\
  map fst m = ["script"; "timestamp"; "seed"; "input_files"; "output_files";
               "row_counts"; "parameters"] /\
  (forall other_now k, k <> "timestamp" ->
     dict_get k m =
     dict_get k (create_manifest other_now script_path seed input_files output_files
                   row_counts parameters)).
Proof.
  cbv zeta. repeat split.
  - destruct parameters as [[|kv t]|]; reflexivity.
  - intros other_now k Hk. unfold create_manifest. cbn [dict_get].
    destruct (String.eqb_spec "script" k); [reflexivity|].
    destruct (String.eqb_spec "timestamp" k); [congruence | reflexivity].
Qed.

(** *** Matching the written file *)

Lemma glob_star_unfold p s :
  glob_match (String "*" p) s =
  glob_match p s ||
  match s with
  | EmptyString => false
  | String _ s' => glob_match (String "*" p) s'
  end.
Proof. destruct s; reflexivity. Qed.

Lemma glob_star p s : forall t,
  glob_match p s = true -> glob_match (String "*" p) (t ++ s) = true.
Proof.
  induction t as [|c t IH]; intros H; rewrite glob_star_unfold.
  - cbn [append]. rewrite H. reflexivity.
  - cbn [append]. rewrite (IH H). apply orb_true_r.
Qed.

Lemma glob_cons_literal c p s :
  Ascii.eqb c "*" = false -> glob_match (String c p) (String c s) = glob_match p s.
Proof.
  intros H. cbn [glob_match]. rewrite H, Ascii.eqb_refl, orb_true_r. reflexivity.
Qed.

Lemma glob_literal S : forall p s,
  no_glob_meta S = true -> glob_match (S ++ p) (S ++ s) = glob_match p s.
Proof.
  induction S as [|c S IH]; intros p s H; [reflexivity|].
  cbn [no_glob_meta] in H. apply andb_true_iff in H. destruct H as [Hc HS].
  unfold is_glob_meta in Hc. apply negb_true_iff in Hc.
  apply orb_false_iff in Hc. destruct Hc as [Hc _].
  apply orb_false_iff in Hc. destruct Hc as [Hstar _].
  cbn [append]. rewrite (glob_cons_literal c _ _ Hstar).
  apply IH. exact HS.
Qed.

(** A name matches itself, also where it holds [*] or [?]: a star may stand
    for a star, a question mark for a question mark. *)
Lemma glob_prefix S : forall p s,
  glob_match p s = true -> glob_match (S ++ p) (S ++ s) = true.
Proof.
  induction S as [|c S IH]; intros p s H; [exact H|].
  cbn [append]. destruct (Ascii.eqb c "*") eqn:E.
  - apply Ascii.eqb_eq in E. subst c.
    apply (glob_star (S ++ p) (S ++ s) (String "*" "")). apply IH. exact H.
  - rewrite glob_cons_literal by exact E. apply IH. exact H.
Qed.

(** The pattern built from a stem matches the name [write_manifest] builds
    from it. *)
Lemma written_name_matches S ts :
  glob_match (pattern_of (Some S)) (S ++ "_" ++ ts ++ ".json") = true.
Proof.
  unfold pattern_of. destruct S as [|c S].
  - cbn [append]. apply (glob_star ".json" ".json" (String "_" ts)). reflexivity.
  - apply glob_prefix.
    change ("_" ++ ts ++ ".json") with (String "_" (ts ++ ".json")).
    change "_*.json" with (String "_" (String "*" ".json")).
    rewrite glob_cons_literal by reflexivity.
    apply glob_star. reflexivity.
Qed.

(** *** The most recent file *)

Lemma last_cons_default {A : Type} (t : list A) : forall g f, last (g :: t) f = last t g.
Proof.
  induction t as [|h t IH]; intros g f; [reflexivity|].
  change (last (g :: h :: t) f) with (last (h :: t) f).
  rewrite (IH h f), (IH h g). reflexivity.
Qed.

Section ByKey.
Context {A : Type} (key : A -> Z).
Let leb (a b : A) : bool := key a <=? key b.
Let le (a b : A) : Prop := key a <= key b.

Lemma insert_sorted_strongly x l :
  StronglySorted le l -> StronglySorted le (insert_sorted leb x l).
Proof.
  induction l as [|y t IH]; intros H; cbn [insert_sorted].
  - constructor; constructor.
  - apply StronglySorted_inv in H. destruct H as [Ht Hy].
    unfold leb at 1. destruct (key x <=? key y) eqn:E.
    + apply Z.leb_le in E. constructor; [constructor; assumption|].
      constructor; [exact E|]. rewrite Forall_forall in *. intros z Hz.
      specialize (Hy z Hz). unfold le in *. lia.
    + apply Z.leb_gt in E. constructor; [apply IH; exact Ht|].
      rewrite Forall_forall in *. intros z Hz.
      apply (Permutation_in _ (insert_sorted_perm leb x t)) in Hz.
      destruct Hz as [<-|Hz]; [unfold le; lia | apply Hy; exact Hz].
Qed.

Lemma sort_by_strongly l : StronglySorted le (sort_by leb l).
Proof.
  induction l as [|x t IH]; cbn [sort_by fold_right]; [constructor|].
  apply insert_sorted_strongly. exact IH.
Qed.

(** The last element of a sorted list is in the list and has the largest
    key. *)
Lemma sorted_last_max f t :
  StronglySorted le (f :: t) ->
  In (last t f) (f :: t) /\ forall y, In y (f :: t) -> key y <= key (last t f).
Proof.
  revert f. induction t as [|g t IH]; intros f H.
  - cbn [last]. split; [left; reflexivity|]. intros y [<-|[]]. lia.
  - apply StronglySorted_inv in H. destruct H as [Ht Hf].
    destruct (IH g Ht) as [Hin Hmax].
    rewrite last_cons_default.
    split; [right; exact Hin|].
    intros y [<-|Hy]; [|apply Hmax; exact Hy].
    rewrite Forall_forall in Hf. specialize (Hf (last t g) Hin).
    unfold le in Hf. exact Hf.
Qed.
End ByKey.

(** *** Writing, then reading *)

Lemma write_text_in nm content mt slot d :
  In (mk_file nm mt content) (write_text nm content mt slot d).
Proof.
  unfold write_text. destruct (existsb (fun f => String.eqb (f_name f) nm) d) eqn:E.
  - apply existsb_exists in E. destruct E as (f & Hf & Hn).
    apply in_map_iff. exists f. rewrite Hn. auto.
  - apply in_or_app. right. left. reflexivity.
Qed.

Lemma write_text_inv nm content mt slot d f :
  In f (write_text nm content mt slot d) ->
  f = mk_file nm mt content \/ (In f d /\ f_name f <> nm).
Proof.
  unfold write_text. destruct (existsb (fun f => String.eqb (f_name f) nm) d) eqn:E.
  - intros H. apply in_map_iff in H. destruct H as (g & <- & Hg).
    destruct (String.eqb_spec (f_name g) nm); [left; reflexivity | right; auto].
  - intros H. apply in_app_or in H.
    assert (Hd : forall g, In g d -> f_name g <> nm).
    { intros g Hg Hn.
      assert (existsb (fun f => String.eqb (f_name f) nm) d = true).
      { apply existsb_exists. exists g. split; [exact Hg | apply String.eqb_eq; exact Hn]. }
      congruence. }
    assert (Hsplit : forall g, In g (firstn slot d) \/ In g (skipn slot d) -> In g d).
    { intros g Hg. rewrite <- (firstn_skipn slot d). apply in_or_app. exact Hg. }
    destruct H as [H|[H|H]]; [right | left; symmetry; exact H | right];
      (split; [apply Hsplit; auto | apply Hd, Hsplit; auto]).
Qed.

Section AnyCodec.
Variable json_dumps : json -> string.
Variable json_loads : string -> result json.
Variable glob_accepts : string -> bool.

(** After [write_manifest], the most recent matching file is the written
    one, provided every other matching file is strictly older. *)
Lemma latest_after_write S ts mt slot content d :
  (forall f, In f d -> f_name f <> S ++ "_" ++ ts ++ ".json" ->
     glob_match (pattern_of (Some S)) (f_name f) = true -> f_mtime f < mt) ->
  latest_file (Some (write_text (S ++ "_" ++ ts ++ ".json") content mt slot d)) (Some S)
  = Some (mk_file (S ++ "_" ++ ts ++ ".json") mt content).
Proof.
  intros Hold. unfold latest_file, sorted_manifests.
  set (nm := S ++ "_" ++ ts ++ ".json") in *.
  set (new := mk_file nm mt content).
  set (G := filter (fun f => glob_match (pattern_of (Some S)) (f_name f))
                   (write_text nm content mt slot d)).
  assert (Hnew : In new G).
  { apply filter_In. split; [apply write_text_in | apply written_name_matches]. }
  pose proof (sort_by_strongly f_mtime G) as Hs.
  assert (Hin : In new (sort_by (fun a b => f_mtime a <=? f_mtime b) G))
    by (apply sort_by_In; exact Hnew).
  destruct (sort_by (fun a b => f_mtime a <=? f_mtime b) G) as [|f t] eqn:E; [contradiction|].
  destruct (sorted_last_max f_mtime f t Hs) as [Hl Hmax].
  specialize (Hmax new Hin). cbn [f_mtime new] in Hmax.
  rewrite <- E in Hl. apply sort_by_In in Hl. apply filter_In in Hl.
  destruct Hl as [Hl Hm]. apply write_text_inv in Hl.
  destruct Hl as [->|[Hd Hn]]; [reflexivity|].
  specialize (Hold _ Hd Hn Hm). lia.
Qed.

(** C4, as the code has it.  Let S be the stem of the manifest's script.  If
    S has no bracket, [Path.glob] accepts the pattern of S, and every other
    file of [runs_dir] that matches the pattern is strictly older than the
    written file, then [read_latest_manifest(runs_dir, S)] after
    [write_manifest(m, runs_dir)] returns [json.loads(json.dumps(m))]: the
    manifest itself whenever it survives the JSON round trip.  S may hold
    [*] and [?]. *)
Theorem manifest_round_trip
  (ts : string) (mt : Z) (slot : nat) (m : dict) (script : string)
  (runs_dir : directory) :
  dict_get "script" m = Some (JStr script) ->
  contains_char "[" (stem (name (parse_path script))) = false ->
  glob_accepts (pattern_of (Some (stem (name (parse_path script))))) = true ->
  (forall d f, runs_dir = Some d -> In f d ->
     f_name f <> stem (name (parse_path script)) ++ "_" ++ ts ++ ".json" ->
     glob_match (pattern_of (Some (stem (name (parse_path script))))) (f_name f) = true ->
     f_mtime f < mt) ->
  exists runs_dir',
    write_manifest json_dumps ts mt slot m runs_dir
    = Ok (stem (name (parse_path script)) ++ "_" ++ ts ++ ".json", runs_dir') /\
    read_latest_manifest json_loads glob_accepts runs_dir'
      (Some (stem (name (parse_path script))))
    = json_loads (json_dumps (JDict m)) /\
    (json_loads (json_dumps (JDict m)) = Ok (JDict m) ->
     read_latest_manifest json_loads glob_accepts runs_dir'
       (Some (stem (name (parse_path script))))
     = Ok (JDict m)).
Proof.
  intros Hs _ Hacc Hold. unfold write_manifest. rewrite Hs.
  eexists. split; [reflexivity|].
  assert (R : read_latest_manifest json_loads glob_accepts
                (Some (write_text (stem (name (parse_path script)) ++ "_" ++ ts ++ ".json")
                         (json_dumps (JDict m)) mt slot
                         match runs_dir with Some d => d | None => [] end))
                (Some (stem (name (parse_path script))))
              = json_loads (json_dumps (JDict m))).
  { unfold read_latest_manifest. rewrite Hacc, latest_after_write; [reflexivity|].
    destruct runs_dir as [d|]; [|intros f []].
    intros f Hf. apply (Hold d f eq_refl Hf). }
  split; [exact R|]. intros Hrt. rewrite R, Hrt. reflexivity.
Qed.

End AnyCodec.

(** A round trip into a directory that already holds an earlier manifest of
    the script, a later manifest of another script and a later file of
    another kind. *)
Lemma manifest_round_trip_witness :
  exists runs_dir',
    write_manifest example_dumps "20240101_120000" 1000 0 test_manifest busy_dir
    = Ok ("test_script_20240101_120000.json", runs_dir') /\
    read_latest_manifest example_loads no_double_star runs_dir' (Some "test_script")
    = Ok (JDict test_manifest).
Proof.
  destruct (manifest_round_trip example_dumps example_loads no_double_star
              "20240101_120000" 1000 0 test_manifest "test_script.py" busy_dir
              eq_refl eq_refl eq_refl)
    as (rd & Hw & _ & Hr).
  - intros d f Hd Hf Hn Hm. injection Hd as <-.
    destruct Hf as [<-|[<-|[<-|[]]]].
    + cbn [f_mtime]. lia.
    + vm_compute in Hm. discriminate Hm.
    + vm_compute in Hm. discriminate Hm.
  - exists rd. split; [exact Hw | apply Hr; reflexivity].
Defined.

(** C4, as stated, fails when another matching file carries the same
    modification time: no matching file is later than the written one, yet
    [read_latest_manifest] returns the manifest of the other script, because
    the stable sort keeps the order in which the directory lists the two. *)
Lemma manifest_tie_counterexample :
  example_loads (example_dumps (JDict m_run)) = Ok (JDict m_run) /\
  (forall f, In f [ mk_file "run_extra_20240101_120000.json" 1000 "manifest of run_extra.py" ] ->
     glob_match (pattern_of (Some "run")) (f_name f) = true -> ~ (1000 < f_mtime f)) /\
  exists runs_dir',
    write_manifest example_dumps "20240101_120000" 1000 0 m_run tie_dir
    = Ok ("run_20240101_120000.json", runs_dir') /\
    read_latest_manifest example_loads no_double_star runs_dir' (Some "run")
    = Ok (JDict m_extra) /\
    JDict m_extra <> JDict m_run.
Proof.
  split; [reflexivity|]. split.
  - intros f [<-|[]] _. cbn [f_mtime]. lia.
  - eexists. split; [reflexivity|]. split; [reflexivity|]. discriminate.
Qed.

End ManifestFacts.
(** ** The macro-id assertion (03_table_II_summary_stats.py) *)

Section SummaryFacts.
Import SummaryStats.
Local Open Scope string_scope.
Local Open Scope Z_scope.

Lemma load_rows raw :
  filter (fun r => negb (bad_numeric r)) (map coerce_row (dropna_keys raw))
  = map coerce_row (remaining_rows raw).
Proof.
  unfold dropna_keys, remaining_rows.
  induction raw as [|r raw IH]; [reflexivity|].
  destruct r as [g t d s i m nm sc lc].
  destruct g, m, t, d, s; simpl; try exact IH; simpl in IH; rewrite IH; reflexivity.
Qed.

Lemma cast_coerced l :
  (forall r, In r l -> remains r = true) ->
  cast_rows (map coerce_row l) = cast_rows l.
Proof.
  induction l as [|r l IH]; intros H; [reflexivity|].
  cbn [map cast_rows]. rewrite IH by (intros x Hx; apply H; right; exact Hx).
  assert (Hr : remains r = true) by (apply H; left; reflexivity).
  destruct r as [g t d s i m nm sc lc]. unfold remains in Hr. cbn in Hr.
  destruct g, m; try discriminate Hr; reflexivity.
Qed.

Lemma load_causal_unfold raw :
  load_causal raw =
  match cast_rows (remaining_rows raw) with
  | None => Raise IntCastingNaNError
  | Some cs =>
      if forallb (fun s => in_range_1_6 (macro_id s)) cs
      then Ok cs
      else Raise (AssertionError "Unexpected macro_id values")
  end.
Proof.
  unfold load_causal.
  set (cs := map coerce_row (dropna_keys raw)).
  assert (E : (if 0 <? count_if bad_numeric cs
               then filter (fun r => negb (bad_numeric r)) cs else cs)
              = filter (fun r => negb (bad_numeric r)) cs).
  { destruct (0 <? count_if bad_numeric cs) eqn:Hn; [reflexivity|].
    symmetry. apply count_if_zero_filter.
    pose proof (count_if_nonneg bad_numeric cs). apply Z.ltb_ge in Hn. lia. }
  rewrite E. unfold cs. rewrite load_rows, cast_coerced; [reflexivity|].
  intros r Hr. apply filter_In in Hr. apply Hr.
Qed.

Lemma in_range_1_6_spec m : in_range_1_6 m = true <-> 1 <= m <= 5.
Proof. unfold in_range_1_6. rewrite andb_true_iff, Z.leb_le, Z.ltb_lt. lia. Qed.

(** The integer part of a number is one of 1, ..., 5 exactly when the number
    is at least 1 and below 6. *)
Lemma truncate_in_range q :
  1 <= truncate q <= 5 <-> (1 <= q /\ q < 6)%Q.
Proof.
  destruct q as [n d]. unfold truncate, Qle, Qlt. cbn [Qnum Qden].
  rewrite !Z.mul_1_l, !Z.mul_1_r.
  pose proof (Pos2Z.is_pos d) as Hd.
  destruct (Z.le_gt_cases 0 n) as [Hn|Hn].
  - rewrite Z.quot_div_nonneg by lia.
    pose proof (Z.div_mod n (Z.pos d) ltac:(lia)) as E.
    pose proof (Z.mod_pos_bound n (Z.pos d) Hd) as B.
    split; intros H; nia.
  - assert (Hq : Z.quot n (Z.pos d) <= 0).
    { replace n with (- (- n)) by lia. rewrite Z.quot_opp_l by lia.
      pose proof (Z.quot_pos (- n) (Z.pos d) ltac:(lia) Hd). lia. }
    split; intros H; lia.
Qed.

Lemma float_to_int64_in_range q :
  in_range_1_6 (float_to_int64 q) = in_macro_interval (CNum q).
Proof.
  apply eq_true_iff_eq. rewrite in_range_1_6_spec. cbn [in_macro_interval].
  rewrite andb_true_iff, negb_true_iff, Qle_bool_iff.
  assert (Hlt : Qle_bool 6 q = false <-> (q < 6)%Q).
  { rewrite <- not_true_iff_false, Qle_bool_iff. split; [apply Qnot_le_lt | apply Qlt_not_le]. }
  rewrite Hlt, <- truncate_in_range. unfold float_to_int64, INT64_MIN, INT64_MAX.
  cbv zeta.
  destruct ((- 2 ^ 63 <=? truncate q) && (truncate q <=? 2 ^ 63 - 1)) eqn:E.
  - reflexivity.
  - apply andb_false_iff in E. rewrite Z.leb_gt, Z.leb_gt in E. lia.
Qed.

(** What the cast does to the remaining rows. *)
Lemma cast_rows_spec l :
  (forall r, In r l -> remains r = true) ->
  match cast_rows l with
  | None => exists r, In r l /\ (is_finite (r_gvkey r) = false \/ is_finite (r_macro_id r) = false)
  | Some cs =>
      (forall r, In r l -> is_finite (r_gvkey r) = true /\ is_finite (r_macro_id r) = true) /\
      forallb (fun s => in_range_1_6 (macro_id s)) cs
      = forallb (fun r => in_macro_interval (r_macro_id r)) l
  end.
Proof.
  induction l as [|r l IH]; intros H.
  - cbn. split; [intros r []|reflexivity].
  - assert (Hr : remains r = true) by (apply H; left; reflexivity).
    specialize (IH (fun x Hx => H x (or_intror Hx))).
    cbn [cast_rows].
    destruct r as [g t d s i m nm sc lc]. unfold remains in Hr. cbn in Hr.
    destruct g as [|g|bg|tg], m as [|m|bm|tm]; try discriminate Hr;
      destruct t as [t|], d as [d|], s as [s|]; try discriminate Hr;
      cbn [cast_row astype_int r_gvkey r_macro_id r_technology r_dateQ r_side];
      try (eexists; split; [left; reflexivity | cbn; auto]).
    destruct (cast_rows l) as [cs|].
    + destruct IH as [Hfin Hrange]. split.
      * intros r [<-|Hr']; [cbn; auto | apply Hfin; exact Hr'].
      * cbn [forallb macro_id r_macro_id]. rewrite Hrange, float_to_int64_in_range.
        reflexivity.
    + destruct IH as (r & Hr' & Hbad). exists r. split; [right; exact Hr' | exact Hbad].
Qed.

Lemma remaining_rows_remain raw r : In r (remaining_rows raw) -> remains r = true.
Proof. intros H. apply filter_In in H. apply H. Qed.

Lemma forallb_false_exists {A : Type} (p : A -> bool) l :
  forallb p l = false <-> exists x, In x l /\ p x = false.
Proof.
  induction l as [|x l IH]; cbn.
  - split; [discriminate | intros (x & [] & _)].
  - rewrite andb_false_iff, IH. split.
    + intros [H|(y & Hy & Hp)]; [exists x; auto | exists y; auto].
    + intros (y & [<-|Hy] & Hp); [left; exact Hp | right; exists y; auto].
Qed.

(** The three outcomes of the step, read off the remaining rows. *)
Lemma load_causal_cases raw :
  load_causal raw =
  if forallb (fun r => is_finite (r_gvkey r) && is_finite (r_macro_id r))
             (remaining_rows raw)
  then if forallb (fun r => in_macro_interval (r_macro_id r)) (remaining_rows raw)
       then Ok (remaining raw)
       else Raise (AssertionError "Unexpected macro_id values")
  else Raise IntCastingNaNError.
Proof.
  pose proof (cast_rows_spec (remaining_rows raw) (remaining_rows_remain raw)) as C.
  rewrite load_causal_unfold. unfold remaining.
  destruct (cast_rows (remaining_rows raw)) as [cs|].
  - destruct C as [Hfin Hrange]. rewrite Hrange.
    replace (forallb (fun r => is_finite (r_gvkey r) && is_finite (r_macro_id r))
                     (remaining_rows raw)) with true; [reflexivity|].
    symmetry. apply forallb_forall. intros r Hr. apply andb_true_iff. apply Hfin. exact Hr.
  - destruct C as (r & Hr & Hbad).
    replace (forallb (fun r => is_finite (r_gvkey r) && is_finite (r_macro_id r))
                     (remaining_rows raw)) with false; [reflexivity|].
    symmetry. apply forallb_false_exists. exists r. split; [exact Hr|].
    apply andb_false_iff. exact Hbad.
Qed.

Lemma remaining_in_range raw s :
  forallb (fun r => in_macro_interval (r_macro_id r)) (remaining_rows raw) = true ->
  In s (remaining raw) -> 1 <= macro_id s <= 5.
Proof.
  pose proof (cast_rows_spec (remaining_rows raw) (remaining_rows_remain raw)) as C.
  unfold remaining. destruct (cast_rows (remaining_rows raw)) as [cs|]; [|intros _ []].
  destruct C as [_ Hrange]. rewrite <- Hrange. intros F Hs.
  rewrite forallb_forall in F. apply in_range_1_6_spec, F, Hs.
Qed.

(** C6, as the code has it.  The rows that remain after the coercion have
    every key field and a number in gvkey and in macro_id.  The range
    assertion fails exactly when all these numbers are finite and some
    macro_id is not in the interval from 1 (included) to 6 (excluded), that
    is, when its integer part, to which [astype(int)] has cut it, is none of
    1, ..., 5.  An infinite gvkey or macro_id stops the script before the
    assertion, with [IntCastingNaNError].  In the remaining case, all numbers
    finite and every macro_id in the interval, the step returns the remaining
    rows with their integer parts and the script goes on with them. *)
Theorem macro_id_range_fail_fast (raw : list raw_row) :
  (load_causal raw = Raise (AssertionError "Unexpected macro_id values") <->
   (forall r, In r (remaining_rows raw) ->
      is_finite (r_gvkey r) = true /\ is_finite (r_macro_id r) = true) /\
   (exists r, In r (remaining_rows raw) /\ in_macro_interval (r_macro_id r) = false)) /\
  (load_causal raw = Raise IntCastingNaNError <->
   exists r, In r (remaining_rows raw) /\
     (is_finite (r_gvkey r) = false \/ is_finite (r_macro_id r) = false)) /\
  ((forall r, In r (remaining_rows raw) ->
      is_finite (r_gvkey r) = true /\ in_macro_interval (r_macro_id r) = true) <->
   load_causal raw = Ok (remaining raw)) /\
  (load_causal raw = Ok (remaining raw) ->
   (forall s, In s (remaining raw) -> 1 <= macro_id s <= 5) /\
   panel_ikt raw = (cs <- check_names (remaining raw) ;; build_panel cs)).
Proof.
  unfold panel_ikt. rewrite load_causal_cases.
  destruct (forallb (fun r => is_finite (r_gvkey r) && is_finite (r_macro_id r))
                    (remaining_rows raw)) eqn:Fin.
  - rewrite forallb_forall in Fin.
    assert (Hfin : forall r, In r (remaining_rows raw) ->
              is_finite (r_gvkey r) = true /\ is_finite (r_macro_id r) = true).
    { intros r Hr. apply andb_true_iff. apply Fin. exact Hr. }
    destruct (forallb (fun r => in_macro_interval (r_macro_id r)) (remaining_rows raw)) eqn:F.
    + rewrite forallb_forall in F.
      split; [|split; [|split]].
      * split; [discriminate|]. intros (_ & r & Hr & Hf).
        rewrite (F r Hr) in Hf. discriminate Hf.
      * split; [discriminate|].
        intros (r & Hr & [Hb|Hb]); destruct (Hfin r Hr); congruence.
      * split; [reflexivity|]. intros _ r Hr. split; [apply Hfin | apply F]; exact Hr.
      * intros _. split; [|reflexivity].
        intros s Hs. apply (remaining_in_range raw); [|exact Hs].
        apply forallb_forall. exact F.
    + pose proof (proj1 (forallb_false_exists _ _) F) as (r & Hr & Hf).
      split; [|split; [|split]].
      * split; [|reflexivity]. intros _. split; [exact Hfin | exists r; auto].
      * split; [discriminate|].
        intros (r' & Hr' & [Hb|Hb]); destruct (Hfin r' Hr'); congruence.
      * split; [|discriminate]. intros H. destruct (H r Hr) as [_ Hi]. congruence.
      * discriminate.
  - pose proof (proj1 (forallb_false_exists _ _) Fin) as (r & Hr & Hf).
    apply andb_false_iff in Hf.
    split; [|split; [|split]].
    + split; [discriminate|]. intros (Hfin & _). destruct (Hfin r Hr) as [H1 H2].
      destruct Hf; congruence.
    + split; [|reflexivity]. intros _. exists r. auto.
    + split; [|discriminate]. intros H. destruct (H r Hr) as [H1 H2].
      destruct Hf as [Hb|Hb]; [congruence|].
      destruct (r_macro_id r); cbn in *; congruence.
    + discriminate.
Qed.

(** C6, as stated, fails on a macro_id of 5.7 and on an infinite one.  The
    row with 5.7 remains after the coercion and 5.7 is none of 1, ..., 5,
    yet no assertion fails: the cast has cut the value to 5 and the script
    goes on.  The row with [inf] remains as well and [inf] is none of
    1, ..., 5, yet what is raised is not the [AssertionError]. *)
Lemma macro_id_cast_counterexample :
  (exists r, In r (remaining_rows fractional_raw) /\ r_macro_id r = CNum (57 # 10) /\
             in_macro_set (r_macro_id r) = false) /\
  load_causal fractional_raw
  = Ok [ mk_snippet 1 "AI" "2021q1" "cause" (Some "s1") 5
           (Some "Cost and Economic Viability") None None ] /\
  (exists r, In r (remaining_rows infinite_raw) /\ r_macro_id r = CInf false /\
             in_macro_set (r_macro_id r) = false) /\
  load_causal infinite_raw = Raise IntCastingNaNError.
Proof.
  split; [|split; [|split]].
  - eexists. split; [left; reflexivity|]. split; reflexivity.
  - vm_compute. reflexivity.
  - eexists. split; [left; reflexivity|]. split; reflexivity.
  - vm_compute. reflexivity.
Qed.

(** ** The panel rows (03_table_II_summary_stats.py) *)

Lemma key3_eqb_spec a b : key3_eqb a b = true <-> a = b.
Proof.
  destruct a as [[g t] d], b as [[g' t'] d']. unfold key3_eqb.
  rewrite !andb_true_iff, Z.eqb_eq, !String.eqb_eq.
  split; [intros [[-> ->] ->]; reflexivity | intros E; inversion E; auto].
Qed.

Lemma key4_eqb_spec a b : key4_eqb a b = true <-> a = b.
Proof.
  destruct a as [k s], b as [k' s']. unfold key4_eqb. cbn [fst snd].
  rewrite andb_true_iff, key3_eqb_spec, String.eqb_eq.
  split; [intros [-> ->]; reflexivity | intros E; inversion E; auto].
Qed.

Lemma key5_eqb_spec a b : key5_eqb a b = true <-> a = b.
Proof.
  destruct a as [k m], b as [k' m']. unfold key5_eqb. cbn [fst snd].
  rewrite andb_true_iff, key4_eqb_spec, Z.eqb_eq.
  split; [intros [-> ->]; reflexivity | intros E; inversion E; auto].
Qed.

Lemma side_ok_sum ns shares N : side_ok ns shares N -> (qsum shares == 1)%Q.
Proof.
  intros (_ & -> & -> & H3). apply qsum_shares.
  intros E. rewrite E in H3. revert H3. apply Qlt_not_le. reflexivity.
Qed.

Lemma pivot_wide_keys counts :
  map w_key (pivot_wide counts) =
  sort_by key4_leb (drop_duplicates key4_eqb (fun k => k) (map c_key counts)).
Proof.
  unfold pivot_wide. rewrite map_map. cbn [w_key make_wide_row]. apply map_id.
Qed.

Lemma pivot_wide_NoDup counts : NoDup (map w_key (pivot_wide counts)).
Proof.
  rewrite pivot_wide_keys. apply sort_by_NoDup.
  rewrite <- (map_id (drop_duplicates _ _ _)).
  apply drop_duplicates_NoDup. apply key4_eqb_spec.
Qed.

Lemma threshold_ok counts w :
  In w (apply_threshold (pivot_wide counts)) ->
  side_ok (w_n w) (w_share w) (w_N_side w).
Proof.
  unfold apply_threshold, pivot_wide. intros H. apply filter_In in H.
  destruct H as [H H3]. apply in_map_iff in H. destruct H as (k & <- & _).
  cbn [w_n w_share w_N_side make_wide_row] in *.
  repeat split. apply Qle_bool_iff. exact H3.
Qed.

(** Within one side, the panel key identifies the row. *)
Lemma side_df_NoDup name wide :
  NoDup (map w_key wide) -> NoDup (map w_key3 (side_df name wide)).
Proof.
  intros H. apply (NoDup_map_filter w_key (fun w => String.eqb (w_side w) name)) in H.
  fold (side_df name wide) in H.
  apply (NoDup_map_inv (fun k => (k, name))).
  rewrite map_map.
  erewrite map_ext_in; [exact H|].
  intros w Hw. unfold side_df in Hw. apply filter_In in Hw. destruct Hw as [_ Hw].
  apply String.eqb_eq in Hw. unfold w_side, w_key3 in *. rewrite <- Hw.
  destruct (w_key w); reflexivity.
Qed.

Lemma side_df_incl name wide w : In w (side_df name wide) -> In w wide.
Proof. unfold side_df. intros H. apply filter_In in H. tauto. Qed.

(** The inner join of two frames with unique keys: it does not raise, its
    rows pair a cause row with an effect row, and no key repeats. *)
Lemma merge_inner_ok cause_df effect_df :
  NoDup (map w_key3 cause_df) -> NoDup (map w_key3 effect_df) ->
  exists pairs, merge_inner_1_1 cause_df effect_df = Ok pairs /\
    NoDup (map (fun ce => w_key3 (fst ce)) pairs) /\
    (forall ce, In ce pairs -> In (fst ce) cause_df /\ In (snd ce) effect_df).
Proof.
  intros Hc He. unfold merge_inner_1_1.
  rewrite (proj2 (unique_keys_NoDup key3_eqb w_key3 key3_eqb_spec cause_df) Hc).
  rewrite (proj2 (unique_keys_NoDup key3_eqb w_key3 key3_eqb_spec effect_df) He).
  cbn [andb]. eexists. split; [reflexivity|]. split.
  - induction cause_df as [|c t IH]; cbn [flat_map]; [constructor|].
    inversion Hc as [|? ? Hx Ht]; subst. specialize (IH Ht).
    rewrite map_app, map_map. cbn [fst].
    pose proof (filter_key_le1 key3_eqb w_key3 key3_eqb_spec (w_key3 c) effect_df He) as Hle.
    assert (Hrest : forall k,
      In k (map (fun ce => w_key3 (fst ce))
              (flat_map (fun c0 => map (pair c0)
                 (filter (fun e => key3_eqb (w_key3 c0) (w_key3 e)) effect_df)) t)) ->
      In k (map w_key3 t)).
    { intros k Hk. apply in_map_iff in Hk. destruct Hk as ([c0 e0] & <- & Hin).
      apply in_flat_map in Hin. destruct Hin as (c1 & Hc1 & Hin).
      apply in_map_iff in Hin. destruct Hin as (e1 & E & _). inversion E; subst.
      apply in_map. exact Hc1. }
    destruct (filter (fun e => key3_eqb (w_key3 c) (w_key3 e)) effect_df) as [|e [|e' r]];
      cbn [map app length] in *.
    + exact IH.
    + constructor; [|exact IH]. intros Hin. apply Hx. apply Hrest. exact Hin.
    + lia.
  - intros [c e] Hin. apply in_flat_map in Hin. destruct Hin as (c1 & Hc1 & Hin).
    apply in_map_iff in Hin. destruct Hin as (e1 & E & He1). inversion E; subst.
    apply filter_In in He1. cbn [fst snd]. tauto.
Qed.

Lemma firm_info_NoDup cs : NoDup (map f_gvkey (firm_info cs)).
Proof.
  unfold firm_info. rewrite map_map. cbn [f_gvkey].
  apply drop_duplicates_NoDup. apply Z.eqb_eq.
Qed.

(** The left join on a frame with unique keys: it does not raise and yields
    one row per left row. *)
Lemma merge_left_ok panel info :
  NoDup (map f_gvkey info) ->
  exists merged, merge_left_m_1 panel info = Ok merged /\ map p_joint merged = panel.
Proof.
  intros Hu. unfold merge_left_m_1.
  rewrite (proj2 (unique_keys_NoDup Z.eqb f_gvkey Z.eqb_eq info) Hu).
  eexists. split; [reflexivity|].
  induction panel as [|j t IH]; cbn [flat_map]; [reflexivity|].
  rewrite map_app, IH.
  pose proof (filter_key_le1 Z.eqb f_gvkey Z.eqb_eq (fst (fst (j_key j))) info Hu) as Hle.
  destruct (filter (fun f => fst (fst (j_key j)) =? f_gvkey f) info) as [|f [|f' r]];
    cbn [map app length] in *; try reflexivity. lia.
Qed.

(** The panel construction never raises; its rows are the joined pairs of a
    retained cause row and a retained effect row, one per key. *)
Lemma build_panel_ok cs :
  exists pairs merged,
    build_panel cs = Ok merged /\
    map p_joint merged = map make_joint pairs /\
    NoDup (map (fun ce => w_key3 (fst ce)) pairs) /\
    (forall ce, In ce pairs ->
       side_ok (w_n (fst ce)) (w_share (fst ce)) (w_N_side (fst ce)) /\
       side_ok (w_n (snd ce)) (w_share (snd ce)) (w_N_side (snd ce))).
Proof.
  unfold build_panel.
  set (cs' := drop_duplicates dedup_key_eqb dedup_key cs).
  set (wide := apply_threshold (pivot_wide (groupby_size cs'))).
  assert (Hw : NoDup (map w_key wide)).
  { apply NoDup_map_filter. apply pivot_wide_NoDup. }
  destruct (merge_inner_ok (side_df "cause" wide) (side_df "effect" wide)
              (side_df_NoDup _ _ Hw) (side_df_NoDup _ _ Hw))
    as (pairs & Hm & Hnd & Hin).
  rewrite Hm. cbn [bind].
  assert (Hok : forall ce, In ce pairs ->
       side_ok (w_n (fst ce)) (w_share (fst ce)) (w_N_side (fst ce)) /\
       side_ok (w_n (snd ce)) (w_share (snd ce)) (w_N_side (snd ce))).
  { intros ce Hce. destruct (Hin ce Hce) as [H1 H2].
    apply side_df_incl in H1, H2. split; eapply threshold_ok; eassumption. }
  assert (Hpos : forallb (fun ce => negb (Qle_bool (w_N_side (snd ce)) 0)) pairs = true).
  { apply forallb_forall. intros ce Hce. destruct (Hok ce Hce) as [_ (_ & _ & _ & H3)].
    apply negb_true_iff. destruct (Qle_bool (w_N_side (snd ce)) 0) eqn:E; [|reflexivity].
    apply Qle_bool_iff in E. exfalso.
    apply (Qlt_not_le 0 3); [reflexivity | eapply Qle_trans; eassumption]. }
  rewrite Hpos.
  destruct (merge_left_ok (map make_joint pairs) (firm_info cs') (firm_info_NoDup cs'))
    as (merged & Hl & Hj).
  rewrite Hl. cbn [bind].
  rewrite <- Hj, length_map, Nat.eqb_refl.
  exists pairs, merged. auto.
Qed.

Lemma panel_row_pair pairs merged p :
  map p_joint merged = map make_joint pairs -> In p merged ->
  exists ce, In ce pairs /\ p_joint p = make_joint ce.
Proof.
  intros E Hp. apply (in_map p_joint) in Hp. rewrite E in Hp.
  apply in_map_iff in Hp. destruct Hp as (ce & <- & Hce). eauto.
Qed.

(** C1, in exact arithmetic.  The panel is always produced, and in each of
    its rows both sides hold five counts, their total N_side >= 3 and the
    five quotients n_c / N_side; as exact fractions the five quotients sum
    to 1. *)
Theorem panel_shares_sum_to_one (cs : list snippet) :
  exists panel,
    build_panel cs = Ok panel /\
    forall p, In p panel ->
      side_ok (n_cause (p_joint p)) (share_cause (p_joint p)) (N_cause (p_joint p)) /\
      side_ok (n_effect (p_joint p)) (share_effect (p_joint p)) (N_effect (p_joint p)) /\
      (qsum (share_cause (p_joint p)) == 1)%Q /\
      (qsum (share_effect (p_joint p)) == 1)%Q.
Proof.
  destruct (build_panel_ok cs) as (pairs & merged & Hb & Hj & _ & Hok).
  exists merged. split; [exact Hb|]. intros p Hp.
  destruct (panel_row_pair _ _ _ Hj Hp) as ([c e] & Hce & ->).
  destruct (Hok _ Hce) as [Hc He]. cbn [fst snd] in Hc, He.
  cbn [make_joint n_cause share_cause N_cause n_effect share_effect N_effect].
  repeat split; try apply Hc; try apply He;
    eapply side_ok_sum; eassumption.
Qed.

(** C1, as stated, fails on the values the script stores.  The example has
    one panel row, with the cause counts 0, 8, 9, 9, 9; the float64 quotients
    0/35, 8/35, 9/35, 9/35, 9/35 add up to 0.9999999999999999, not to 1. *)
Lemma share_sum_rounding_counterexample :
  exists p,
    build_panel rounding_cs = Ok [p] /\
    n_cause (p_joint p) = [0; 8; 9; 9; 9]%Q /\
    (3 <= N_cause (p_joint p))%Q /\
    Binary64.sum (shares_f64 (n_cause (p_joint p))) = Binary64.below_one /\
    Binary64.eqb (Binary64.sum (shares_f64 (n_cause (p_joint p)))) (Binary64.of_Z 1)
    = false.
Proof.
  eexists. split; [vm_compute; reflexivity|].
  split; [reflexivity|]. split; [discriminate|].
  split; vm_compute; reflexivity.
Qed.

(** C3. The panel is always produced (neither merge validation fails) and
    no (gvkey, technology, dateQ) triple occurs in two of its rows. *)
Theorem panel_key_unique (cs : list snippet) :
  exists panel, build_panel cs = Ok panel /\ NoDup (map p_key panel).
Proof.
  destruct (build_panel_ok cs) as (pairs & merged & Hb & Hj & Hnd & _).
  exists merged. split; [exact Hb|].
  unfold p_key. rewrite <- (map_map p_joint j_key), Hj, map_map.
  erewrite map_ext; [exact Hnd|]. intros [c e]. reflexivity.
Qed.

(** The example file yields one panel row, for firm 1. *)
Example panel_ikt_example :
  panel_ikt example_raw =
  Ok [ mk_panel
         (mk_joint (1, "AI", "2021q1")
            [2; 1; 1; 1; 1]%Q [2 # 6; 1 # 6; 1 # 6; 1 # 6; 1 # 6]%Q 6%Q
            [1; 1; 1; 1; 1]%Q [1 # 5; 1 # 5; 1 # 5; 1 # 5; 1 # 5]%Q 5%Q
            11%Q (6 # 5)%Q)
         (Some 3571) (Some "USA") ].
Proof. vm_compute. reflexivity. Qed.

(** A macro_id of 7 stops the script at the range assertion. *)
Example load_causal_out_of_range :
  load_causal (example_row 1 "AI" "2021q1" "cause" "s9" 7 "Other" :: example_raw)
  = Raise (AssertionError "Unexpected macro_id values").
Proof. vm_compute. reflexivity. Qed.

End SummaryFacts.
(** ** Leave-one-out peer shares (06_table_IVB_spillover.py) *)

Section SpilloverFacts.
Import Spillover.
Local Open Scope string_scope.
Local Open Scope Z_scope.

Lemma fold_Qplus_acc l : forall a,
  (fold_left Qplus l a == a + fold_left Qplus l 0)%Q.
Proof.
  induction l as [|x t IH]; simpl; intros a.
  - ring.
  - rewrite (IH (a + x)%Q), (IH (0 + x)%Q). ring.
Qed.

Lemma qsum_cons x l : (qsum (x :: l) == x + qsum l)%Q.
Proof.
  unfold qsum. simpl. rewrite fold_Qplus_acc. ring.
Qed.

Lemma present_cons o l :
  present (o :: l) = match o with Some q => q :: present l | None => present l end.
Proof. destruct o; reflexivity. Qed.

Lemma nansum_cons o l : (nansum (o :: l) == cell_or_zero o + nansum l)%Q.
Proof.
  unfold nansum. destruct o as [q|]; simpl.
  - apply qsum_cons.
  - ring.
Qed.

Lemma nancount_cons o l :
  nancount (o :: l) = (if notna o then 1 else 0) + nancount l.
Proof.
  unfold nancount, present. destruct o as [q|]; cbn [flat_map app length notna]; lia.
Qed.

(** The firm's rows split into the rows of the own technology and the rows
    of the other technologies. *)
Lemma firm_split data r c :
  (firm_sum data r c == own_sum data r c + qsum (other_values data r c))%Q /\
  firm_n data r c = own_n data r c + Z.of_nat (length (other_values data r c)).
Proof.
  unfold firm_sum, firm_n, own_sum, own_n, other_values, column.
  induction data as [|x t [IHs IHn]].
  - split; [unfold nansum, qsum; simpl; ring | reflexivity].
  - unfold same_firm_tech, other_tech in *. cbn [filter].
    destruct (same_firm r x); cbn [andb].
    + destruct (String.eqb (technology r) (technology x)); cbn [negb map].
      * rewrite !nansum_cons, !nancount_cons, IHs, IHn. split; [ring | lia].
      * rewrite nansum_cons, nancount_cons, IHs, IHn, present_cons.
        destruct (get x c) as [q|]; cbn [notna cell_or_zero length].
        -- rewrite qsum_cons. split; [ring | lia].
        -- split; [ring | lia].
    + split; assumption.
Qed.

(** The value the code computes is the leave-one-out mean. *)
Lemma peer_value_mean data r c :
  cell_eq (peer_value data r c) (leave_one_out_mean data r c) /\
  (peer_value data r c = None <-> other_values data r c = []).
Proof.
  destruct (firm_split data r c) as [Hs Hn].
  unfold peer_value, leave_one_out_mean.
  assert (Hd : firm_n data r c - own_n data r c
               = Z.of_nat (length (other_values data r c))) by lia.
  rewrite Hd.
  destruct (other_values data r c) as [|q l] eqn:E.
  - simpl. split; [exact I | tauto].
  - replace (Z.of_nat (length (q :: l)) =? 0) with false
      by (symmetry; apply Z.eqb_neq; simpl length; lia).
    split; [|split; discriminate].
    unfold cell_eq, qmean.
    assert (Hnz : ~ (inject_Z (Z.of_nat (length (q :: l))) == 0)%Q).
    { unfold Qeq. simpl. lia. }
    rewrite Hs. field. exact Hnz.
Qed.

Lemma get_set_assoc_same k v l :
  match find (fun kv => String.eqb (fst kv) k) (set_assoc k v l) with
  | Some kv => snd kv
  | None => None
  end = v.
Proof.
  induction l as [|[k' v'] t IH]; simpl.
  - rewrite String.eqb_refl. reflexivity.
  - destruct (String.eqb k' k) eqn:E; simpl.
    + rewrite String.eqb_refl. reflexivity.
    + rewrite E. exact IH.
Qed.

Lemma get_set_col_same k v r : get (set_col k v r) k = v.
Proof. unfold get, set_col. simpl. apply get_set_assoc_same. Qed.

Lemma get_set_col_other k k' v r : k <> k' -> get (set_col k v r) k' = get r k'.
Proof.
  intros Hne. unfold get, set_col. cbn [cols].
  induction (cols r) as [|[k0 v0] t IH]; simpl.
  - destruct (String.eqb_spec k k'); [contradiction | reflexivity].
  - destruct (String.eqb_spec k0 k) as [->|Hk]; simpl.
    + destruct (String.eqb_spec k k'); [contradiction | reflexivity].
    + destruct (String.eqb k0 k'); [reflexivity | exact IH].
Qed.

Lemma string_app_inv_head p a b : p ++ a = p ++ b -> a = b.
Proof.
  induction p as [|ch p IH]; simpl; intros H; [exact H|].
  injection H as H. apply IH. exact H.
Qed.

Lemma peer_name_inj prefix c c' : peer_name prefix c = peer_name prefix c' -> c = c'.
Proof.
  unfold peer_name. intros H. apply string_app_inv_head in H.
  apply (string_app_inv_head "_") in H. exact H.
Qed.

Section PeerColumns.
Variables (data : list row) (prefix : string) (r : row).

Let step (r' : row) (c : string) : row :=
  set_col (peer_name prefix c) (peer_value data r c) r'.

Lemma fold_step_keys l : forall r0,
  gvkey (fold_left step l r0) = gvkey r0 /\
  technology (fold_left step l r0) = technology r0 /\
  dateQ (fold_left step l r0) = dateQ r0.
Proof.
  induction l as [|c t IH]; intros r0; simpl; [auto|].
  destruct (IH (step r0 c)) as (H1 & H2 & H3). rewrite H1, H2, H3. auto.
Qed.

Lemma fold_step_other l k : forall r0,
  (forall c, In c l -> peer_name prefix c <> k) ->
  get (fold_left step l r0) k = get r0 k.
Proof.
  induction l as [|c t IH]; intros r0 H; simpl; [reflexivity|].
  rewrite IH by (intros c' Hc'; apply H; right; exact Hc').
  apply get_set_col_other. apply H. left. reflexivity.
Qed.

(** After the loop every peer column holds the value computed for it. *)
Lemma fold_step_get l c : forall r0,
  In c l -> get (fold_left step l r0) (peer_name prefix c) = peer_value data r c.
Proof.
  induction l as [|c' t IH]; intros r0 Hin; [contradiction|].
  simpl. destruct (in_dec string_dec c t) as [Ht|Ht].
  - apply IH. exact Ht.
  - destruct Hin as [->|Hin]; [|contradiction].
    rewrite fold_step_other.
    + apply get_set_col_same.
    + intros c0 Hc0 E. apply peer_name_inj in E. subst. contradiction.
Qed.
End PeerColumns.

Lemma complete_counts data c (p : row -> bool) :
  (forall x, In x data -> get x c <> None) ->
  nancount (column c (filter p data)) = count_if p data.
Proof.
  unfold column, count_if. induction data as [|x t IH]; intros H; [reflexivity|].
  cbn [filter]. destruct (p x).
  - cbn [map]. rewrite nancount_cons, IH by (intros y Hy; apply H; right; exact Hy).
    destruct (get x c) eqn:E; [|exfalso; apply (H x); [left; reflexivity | exact E]].
    cbn [notna length]. lia.
  - apply IH. intros y Hy. apply H. right. exact Hy.
Qed.

(** C2, in exact arithmetic.  For the observation in row [i] and a share
    column [c], the peer column written by [compute_peer_shares] is (firm
    sum - own-technology sum) / (firm count - own-technology count), sums and
    counts ranging over the non-missing values of the column, and missing
    when that denominator is 0; numerator and denominator are the sum and
    the number of the values of the firm's observations in its other
    technologies, so that, the sums, the difference and the quotient taken
    exactly, the peer share is their mean; it is missing exactly when there
    is none.  When the column has no missing value the counts are the
    numbers of observations. *)
Theorem peer_share_leave_one_out
  (data : list row) (share_cols : list string) (prefix : string)
  (i : nat) (r : row) (c : string) :
  nth_error data i = Some r -> In c share_cols ->
  exists r',
    nth_error (compute_peer_shares data share_cols prefix) i = Some r' /\
    gvkey r' = gvkey r /\ technology r' = technology r /\ dateQ r' = dateQ r /\
    get r' (peer_name prefix c) =
      (if firm_n data r c - own_n data r c =? 0 then None
       else Some ((firm_sum data r c - own_sum data r c)
                  / inject_Z (firm_n data r c - own_n data r c))%Q) /\
    (firm_sum data r c - own_sum data r c == qsum (other_values data r c))%Q /\
    firm_n data r c - own_n data r c = Z.of_nat (length (other_values data r c)) /\
    cell_eq (get r' (peer_name prefix c)) (leave_one_out_mean data r c) /\
    (get r' (peer_name prefix c) = None <-> other_values data r c = []) /\
    ((forall x, In x data -> get x c <> None) ->
     firm_n data r c = count_if (same_firm r) data /\
     own_n data r c = count_if (same_firm_tech r) data /\
     firm_n data r c - own_n data r c = count_if (other_tech r) data).
Proof.
  intros Hi Hc. unfold compute_peer_shares. rewrite nth_error_map, Hi. cbn [option_map].
  eexists. split; [reflexivity|].
  destruct (fold_step_keys data prefix r share_cols r) as (K1 & K2 & K3).
  destruct (firm_split data r c) as [Hs Hn].
  destruct (peer_value_mean data r c) as [Hm Hnone].
  rewrite (fold_step_get data prefix r share_cols c r Hc).
  repeat split; try assumption.
  - rewrite Hs. ring.
  - lia.
  - apply Hnone.
  - apply Hnone.
  - apply complete_counts; assumption.
  - apply complete_counts; assumption.
  - unfold firm_n, own_n. rewrite !complete_counts by assumption.
    unfold count_if, same_firm_tech, other_tech.
    clear. induction data as [|x t IH]; [reflexivity|]. cbn [filter].
    destruct (same_firm r x); cbn [andb]; [|exact IH].
    destruct (String.eqb (technology r) (technology x)); cbn [negb length]; lia.
Qed.


Lemma peer_share_leave_one_out_witness :
  exists r',
    nth_error (compute_peer_shares example_panel CAUSE_COLS "peer") 0 = Some r' /\
    cell_eq (get r' "peer_share_cause_1") (Some (3 # 4)%Q).
Proof.
  destruct (peer_share_leave_one_out example_panel CAUSE_COLS "peer" 0
              (mk_row 7 "AI" "2021q1" (example_cols (1 # 2) (1 # 4)))
              "share_cause_1" eq_refl (or_introl eq_refl))
    as (r' & H1 & _ & _ & _ & H2 & _).
  exists r'. split; [exact H1|].
  change "peer_share_cause_1" with (peer_name "peer" "share_cause_1").
  rewrite H2. vm_compute. reflexivity.
Defined.

(** C2, as stated, fails on float64 values.  Firm 9 has the shares 0.1 and
    0.2 in its two technologies.  For the first row the mean over the other
    technology is 0.2, while the peer share is (0.1 + 0.2 - 0.1) / 1, which
    float64 arithmetic makes 0.20000000000000004. *)
Lemma peer_share_rounding_counterexample :
  In tenth_row tenth_fifth_panel /\
  other_values tenth_fifth_panel tenth_row "share_cause_1" = [2 # 10] /\
  leave_one_out_mean_f64 tenth_fifth_panel tenth_row "share_cause_1"
  = Some (Binary64.of_Q (2 # 10)) /\
  peer_value_f64 tenth_fifth_panel tenth_row "share_cause_1"
  = Some Binary64.above_fifth /\
  Binary64.eqb Binary64.above_fifth (Binary64.of_Q (2 # 10)) = false.
Proof.
  split; [left; reflexivity|]. split; [reflexivity|].
  split; [vm_compute; reflexivity|]. split; vm_compute; reflexivity.
Qed.

(** ** The multi-technology restriction keeps the denominators positive *)

Lemma nunique_two (l : list string) (t : string) :
  (2 <= length (nodup string_dec l))%nat -> exists t', In t' l /\ t' <> t.
Proof.
  intros H. pose proof (NoDup_nodup string_dec l) as Hnd.
  destruct (nodup string_dec l) as [|a [|b rest]] eqn:E; simpl in H; try lia.
  assert (Ha : In a l) by (apply (nodup_In string_dec); rewrite E; simpl; auto).
  assert (Hb : In b l) by (apply (nodup_In string_dec); rewrite E; simpl; auto).
  destruct (string_dec a t) as [->|Hne]; [|eauto].
  exists b. split; [exact Hb|]. intros ->.
  inversion Hnd as [|? ? Hx _]; subst. apply Hx. left. reflexivity.
Qed.

(** A firm of the sample has an observation in another technology. *)
Lemma multi_tech_other panel r :
  In r (multi_tech_sample panel) ->
  exists x, In x (multi_tech_sample panel) /\ other_tech r x = true.
Proof.
  unfold multi_tech_sample. intros H. apply filter_In in H. destruct H as [Hr H2].
  apply Z.leb_le in H2. unfold techs_per_firm in H2.
  destruct (nunique_two (map technology (filter (fun x => gvkey x =? gvkey r) panel))
              (technology r)) as (t' & Ht' & Hne); [lia|].
  apply in_map_iff in Ht'. destruct Ht' as (x & <- & Hx).
  apply filter_In in Hx. destruct Hx as [Hx Hg]. apply Z.eqb_eq in Hg.
  exists x. split.
  - apply filter_In. split; [exact Hx|]. rewrite Hg. apply Z.leb_le. exact H2.
  - unfold other_tech, same_firm. rewrite Hg, Z.eqb_refl. cbn [andb].
    apply negb_true_iff. apply String.eqb_neq. congruence.
Qed.

Lemma denominator_pos data r c x :
  In x data -> other_tech r x = true -> get x c <> None ->
  1 <= firm_n data r c - own_n data r c.
Proof.
  intros Hx Ho Hg. destruct (firm_split data r c) as [_ Hn].
  assert (Hlen : (1 <= length (other_values data r c))%nat); [|lia].
  unfold other_values, column. clear Hn.
  induction data as [|y t IH]; [contradiction|]. cbn [filter].
  destruct Hx as [->|Hx].
  - rewrite Ho. cbn [map]. rewrite present_cons.
    destruct (get x c); [simpl; lia | congruence].
  - specialize (IH Hx). destruct (other_tech r y); [|exact IH].
    cbn [map]. rewrite present_cons. destruct (get y c); simpl; lia.
Qed.

Lemma peer_value_notna data r c :
  1 <= firm_n data r c - own_n data r c -> peer_value data r c <> None.
Proof.
  intros H. unfold peer_value.
  destruct (firm_n data r c - own_n data r c =? 0) eqn:E; [|discriminate].
  apply Z.eqb_eq in E. lia.
Qed.

Lemma in_compute_peer_shares data cols prefix r' :
  In r' (compute_peer_shares data cols prefix) <->
  exists r, In r data /\
    r' = fold_left (fun r0 c => set_col (peer_name prefix c) (peer_value data r c) r0) cols r.
Proof.
  unfold compute_peer_shares. rewrite in_map_iff. split; intros (r & H1 & H2); eauto.
Qed.

Lemma peer_cause_not_effect c c' :
  In c CAUSE_COLS -> In c' EFFECT_COLS -> peer_name "peer" c <> c'.
Proof.
  intros H H'. simpl in H, H'.
  repeat (destruct H as [<-|H]; [|]); try contradiction;
    repeat (destruct H' as [<-|H']; [|]); try contradiction; discriminate.
Qed.

Lemma peer_effect_not_peer_cause c c' :
  In c EFFECT_COLS -> In c' peer_cause_cols -> peer_name "peer" c <> c'.
Proof.
  intros H H'. simpl in H, H'.
  repeat (destruct H as [<-|H]; [|]); try contradiction;
    repeat (destruct H' as [<-|H']; [|]); try contradiction; discriminate.
Qed.

Lemma filter_all {A : Type} (p : A -> bool) l :
  (forall x, In x l -> p x = true) -> filter p l = l.
Proof.
  induction l as [|x t IH]; intros H; [reflexivity|]. simpl.
  rewrite (H x (or_introl eq_refl)). f_equal. apply IH.
  intros y Hy. apply H. right. exact Hy.
Qed.

(** The first call leaves the keys and the effect shares of a row as they
    were. *)
Lemma after_cause_call df r1 :
  In r1 (compute_peer_shares df CAUSE_COLS "peer") ->
  exists r, In r df /\
    gvkey r1 = gvkey r /\ technology r1 = technology r /\
    (forall c, In c EFFECT_COLS -> get r1 c = get r c) /\
    (forall c, In c CAUSE_COLS -> get r1 (peer_name "peer" c) = peer_value df r c).
Proof.
  intros H. apply in_compute_peer_shares in H. destruct H as (r & Hr & ->).
  exists r. split; [exact Hr|].
  destruct (fold_step_keys df "peer" r CAUSE_COLS r) as (K1 & K2 & _).
  repeat split; try assumption.
  - intros c Hc. apply fold_step_other. intros c0 Hc0.
    apply peer_cause_not_effect; assumption.
  - intros c Hc. apply fold_step_get. exact Hc.
Qed.

(** C9. If no share column of the panel has a missing value, then in the
    sample of firms with at least two technologies every leave-one-out
    denominator is at least 1, in the call on the cause shares and in the
    call on the effect shares; so no peer column holds a missing value and
    the [dropna] over the peer columns removes no row. *)
Theorem multi_tech_denominator_positive (panel : list row) :
  shares_complete panel ->
  (forall r c, In r (multi_tech_sample panel) -> In c CAUSE_COLS ->
     1 <= firm_n (multi_tech_sample panel) r c - own_n (multi_tech_sample panel) r c) /\
  (forall r c,
     In r (compute_peer_shares (multi_tech_sample panel) CAUSE_COLS "peer") ->
     In c EFFECT_COLS ->
     1 <= firm_n (compute_peer_shares (multi_tech_sample panel) CAUSE_COLS "peer") r c
          - own_n (compute_peer_shares (multi_tech_sample panel) CAUSE_COLS "peer") r c) /\
  (forall r c, In r (with_peers (multi_tech_sample panel)) ->
     In c (peer_cause_cols ++ peer_effect_cols) -> get r c <> None) /\
  final_sample panel = with_peers (multi_tech_sample panel) /\
  length (final_sample panel) = length (multi_tech_sample panel).
Proof.
  intros Hc.
  set (df := multi_tech_sample panel).
  assert (Hdf : forall r c, In r df -> In c (CAUSE_COLS ++ EFFECT_COLS) -> get r c <> None).
  { intros r c Hr. apply Hc. unfold df, multi_tech_sample in Hr.
    apply filter_In in Hr. tauto. }
  assert (P1 : forall r c, In r df -> In c CAUSE_COLS ->
                 1 <= firm_n df r c - own_n df r c).
  { intros r c Hr Hcc. destruct (multi_tech_other panel r Hr) as (x & Hx & Ho).
    apply (denominator_pos df r c x Hx Ho). apply Hdf; [exact Hx|].
    apply in_or_app. left. exact Hcc. }
  set (df1 := compute_peer_shares df CAUSE_COLS "peer").
  assert (P2 : forall r c, In r df1 -> In c EFFECT_COLS ->
                 1 <= firm_n df1 r c - own_n df1 r c).
  { intros r1 c Hr1 Hce.
    destruct (after_cause_call df r1 Hr1) as (r & Hr & G1 & T1 & _).
    destruct (multi_tech_other panel r Hr) as (x & Hx & Ho).
    pose (x1 := fold_left (fun r0 c0 => set_col (peer_name "peer" c0) (peer_value df x c0) r0)
                  CAUSE_COLS x).
    assert (Hx1 : In x1 df1) by (apply in_compute_peer_shares; exists x; auto).
    destruct (after_cause_call df x1 Hx1) as (x' & Hx' & G2 & T2 & E2 & _).
    destruct (fold_step_keys df "peer" x CAUSE_COLS x) as (K1 & K2 & _).
    apply (denominator_pos df1 r1 c x1 Hx1).
    - unfold other_tech, same_firm in *. fold x1 in K1, K2. rewrite G1, T1, K1, K2. exact Ho.
    - unfold x1. rewrite fold_step_other.
      + apply Hdf; [exact Hx | apply in_or_app; right; exact Hce].
      + intros c0 Hc0. apply peer_cause_not_effect; assumption. }
  assert (P3 : forall r c, In r (with_peers df) ->
                 In c (peer_cause_cols ++ peer_effect_cols) -> get r c <> None).
  { intros r2 c Hr2 Hcc. unfold with_peers in Hr2. fold df1 in Hr2.
    apply in_compute_peer_shares in Hr2. destruct Hr2 as (r1 & Hr1 & ->).
    apply in_app_or in Hcc. destruct Hcc as [Hcc|Hcc].
    - rewrite fold_step_other.
      + destruct (after_cause_call df r1 Hr1) as (r & Hr & _ & _ & _ & E).
        unfold peer_cause_cols in Hcc. apply in_map_iff in Hcc.
        destruct Hcc as (c0 & <- & Hc0). rewrite (E c0 Hc0).
        apply peer_value_notna. apply P1; assumption.
      + intros c0 Hc0. apply peer_effect_not_peer_cause; assumption.
    - unfold peer_effect_cols in Hcc. apply in_map_iff in Hcc.
      destruct Hcc as (c0 & <- & Hc0). rewrite fold_step_get by exact Hc0.
      apply peer_value_notna. apply P2; assumption. }
  assert (P4 : final_sample panel = with_peers df).
  { unfold final_sample, dropna. fold df. apply filter_all.
    intros r Hr. apply forallb_forall. intros c Hcc.
    specialize (P3 r c Hr Hcc). destruct (get r c); [reflexivity | congruence]. }
  repeat split; try assumption.
  rewrite P4. unfold with_peers, compute_peer_shares. rewrite !length_map. reflexivity.
Qed.

Lemma example_panel_complete : shares_complete example_panel.
Proof.
  intros r c Hr Hc. simpl in Hr, Hc.
  repeat (destruct Hr as [<-|Hr]; [|]); try contradiction;
    repeat (destruct Hc as [<-|Hc]; [|]); try contradiction; discriminate.
Qed.

Lemma multi_tech_denominator_positive_witness :
  final_sample example_panel = with_peers (multi_tech_sample example_panel) /\
  length (final_sample example_panel) = 3%nat.
Proof.
  destruct (multi_tech_denominator_positive example_panel example_panel_complete)
    as (_ & _ & _ & H4 & H5).
  split; [exact H4|]. rewrite H5. reflexivity.
Defined.

(** Without the restriction the guard does fire: firm 8 has one technology. *)
Example single_tech_peer_missing :
  peer_value example_panel (mk_row 8 "AI" "2021q1" (example_cols (1 # 3) (2 # 3)))
             "share_cause_1" = None.
Proof. reflexivity. Qed.

End SpilloverFacts.
(** ** Errors inside and outside the table loops *)

Section RegressionFacts.
Import Regressions.
Local Open Scope string_scope.

Section AnyLibrary.
Variables frame demeaned estimate : Type.
Variable residualize : frame -> list string -> result demeaned.
Variable n_keep : demeaned -> Z.
Variable ols : demeaned -> result estimate.
Variable first_rows : frame -> frame.
Variable bin_rows : string -> frame -> frame.

Local Abbreviation run := (run_hdfe_ols frame demeaned estimate residualize n_keep ols).
Local Abbreviation try1 := (try_spec frame demeaned estimate residualize n_keep ols).
Local Abbreviation att := (attempt frame demeaned estimate residualize n_keep ols).
Local Abbreviation out := (outcome frame demeaned estimate residualize n_keep ols).

(** The body of the loops records the outcome and never raises. *)
Lemma try_spec_eq side smp s st :
  try1 side smp s st =
  (dict_set estimate (side, label s) (att smp s) (fst st),
   (snd st ++ [Started side (label s); out side smp s])%list).
Proof.
  unfold try_spec, attempt, outcome.
  destruct (run smp (fe s)); rewrite <- app_assoc; reflexivity.
Qed.

(** An unknown sample name is an error outside the [try]: it ends the loop. *)
Lemma foldM_unknown_sample side long_df specs1 s specs2 : forall st,
  (forall s', In s' specs1 ->
     sample s' = "all" \/ sample s' = "first") ->
  sample s <> "all" -> sample s <> "first" ->
  foldM (fun st' s' =>
           smp <- select_sample_IVB frame first_rows long_df s' ;;
           Ok (try1 side smp s' st'))
        (specs1 ++ s :: specs2) st
  = Raise (ValueError "Unknown sample").
Proof.
  induction specs1 as [|s1 t IH]; intros st Hk Ha Hf.
  - cbn [app foldM]. unfold select_sample_IVB.
    apply String.eqb_neq in Ha, Hf. rewrite Ha, Hf. reflexivity.
  - cbn [app foldM]. unfold select_sample_IVB at 1.
    destruct (Hk s1 (or_introl eq_refl)) as [E|E]; rewrite E; cbn [String.eqb bind].
    + apply IH; auto. intros s' Hs'. apply Hk. right. exact Hs'.
    + change ("first" =? "all") with false. cbv iota.
      change ("first" =? "first") with true. cbv iota. cbn [bind].
      apply IH; auto. intros s' Hs'. apply Hk. right. exact Hs'.
Qed.

(** C7, as the code has it.  Whatever the regressions do, the table loops of
    06 and 07 run every specification of both sides to the end: a regression
    that raises inside [run_hdfe_ols] is caught, its entry of [main_results]
    is [None], and the next specification is started.  An error raised
    outside a [try] does propagate: an unknown sample name stops the loop
    with that error, and a failed assertion of 03_table_II_summary_stats.py
    ends that script before the panel is built. *)
Theorem table_loops_catch_regression_errors (cause_long effect_long : frame) :
  let c1 := cause_long in
  let e1 := effect_long in
  main_table_IVB frame demeaned estimate residualize n_keep ols first_rows
    MAIN_SPECS_IVB cause_long effect_long
  = Ok ( [ ("cause", "(I)", att c1 (mk_spec "(I)" "Baseline" ["tech_cat"; "qtr_cat"] "all"));
           ("cause", "(II)", att c1 (mk_spec "(II)" "Ind x Qtr" ["tech_cat"; "indqtr_cat"] "all"));
           ("cause", "(III)", att c1 (mk_spec "(III)" "Tech x Qtr" ["techqtr_cat"; "indqtr_cat"] "all"));
           ("cause", "(IV)", att (first_rows c1) (mk_spec "(IV)" "First appear." ["tech_cat"; "qtr_cat"] "first"));
           ("effect", "(I)", att e1 (mk_spec "(I)" "Baseline" ["tech_cat"; "qtr_cat"] "all"));
           ("effect", "(II)", att e1 (mk_spec "(II)" "Ind x Qtr" ["tech_cat"; "indqtr_cat"] "all"));
           ("effect", "(III)", att e1 (mk_spec "(III)" "Tech x Qtr" ["techqtr_cat"; "indqtr_cat"] "all"));
           ("effect", "(IV)", att (first_rows e1) (mk_spec "(IV)" "First appear." ["tech_cat"; "qtr_cat"] "first")) ],
         [ Started "cause" "(I)"; out "cause" c1 (mk_spec "(I)" "Baseline" ["tech_cat"; "qtr_cat"] "all");
           Started "cause" "(II)"; out "cause" c1 (mk_spec "(II)" "Ind x Qtr" ["tech_cat"; "indqtr_cat"] "all");
           Started "cause" "(III)"; out "cause" c1 (mk_spec "(III)" "Tech x Qtr" ["techqtr_cat"; "indqtr_cat"] "all");
           Started "cause" "(IV)"; out "cause" (first_rows c1) (mk_spec "(IV)" "First appear." ["tech_cat"; "qtr_cat"] "first");
           Started "effect" "(I)"; out "effect" e1 (mk_spec "(I)" "Baseline" ["tech_cat"; "qtr_cat"] "all");
           Started "effect" "(II)"; out "effect" e1 (mk_spec "(II)" "Ind x Qtr" ["tech_cat"; "indqtr_cat"] "all");
           Started "effect" "(III)"; out "effect" e1 (mk_spec "(III)" "Tech x Qtr" ["techqtr_cat"; "indqtr_cat"] "all");
           Started "effect" "(IV)"; out "effect" (first_rows e1) (mk_spec "(IV)" "First appear." ["tech_cat"; "qtr_cat"] "first") ] )
  /\
  map (fun kv => fst kv)
      (fst (persistence_table frame demeaned estimate residualize n_keep ols bin_rows
              MAIN_SPECS_IVC cause_long effect_long))
  = [ ("cause", "(I)"); ("cause", "(II)"); ("cause", "(III)"); ("cause", "(IV)");
      ("effect", "(I)"); ("effect", "(II)"); ("effect", "(III)"); ("effect", "(IV)") ]
  /\
  (forall side s smp st res,
     run smp (fe s) = Ok res ->
     try1 side smp s st =
     (dict_set estimate (side, label s) (Some res) (fst st),
      (snd st ++ [Started side (label s); Estimated side (label s)])%list))
  /\
  (forall side s smp st e,
     run smp (fe s) = Raise e ->
     try1 side smp s st =
     (dict_set estimate (side, label s) None (fst st),
      (snd st ++ [Started side (label s); Failed side (label s) e])%list))
  /\
  (forall specs1 s specs2,
     (forall s', In s' specs1 -> sample s' = "all" \/ sample s' = "first") ->
     sample s <> "all" -> sample s <> "first" ->
     main_table_IVB frame demeaned estimate residualize n_keep ols first_rows
       (specs1 ++ s :: specs2) cause_long effect_long
     = Raise (ValueError "Unknown sample"))
  /\
  (forall raw e,
     SummaryStats.load_causal raw = Raise e \/
     (exists cs, SummaryStats.load_causal raw = Ok cs /\
                 SummaryStats.check_names cs = Raise e) ->
     SummaryStats.panel_ikt raw = Raise e).
Proof.
  intros c1 e1. subst c1 e1. split; [|split; [|split; [|split; [|split]]]].
  - unfold main_table_IVB, MAIN_SPECS_IVB.
    cbn [foldM bind select_sample_IVB sample fst snd String.eqb Ascii.eqb Bool.eqb andb].
    rewrite !try_spec_eq. reflexivity.
  - unfold persistence_table, MAIN_SPECS_IVC.
    cbn [fold_left select_sample_IVC sample fst snd].
    rewrite !try_spec_eq. reflexivity.
  - intros side s smp st res H. rewrite try_spec_eq. unfold attempt, outcome.
    rewrite H. reflexivity.
  - intros side s smp st e H. rewrite try_spec_eq. unfold attempt, outcome.
    rewrite H. reflexivity.
  - intros specs1 s specs2 Hk Ha Hf. unfold main_table_IVB. cbn [foldM fst snd].
    rewrite foldM_unknown_sample by assumption. reflexivity.
  - intros raw e [H|(cs & H1 & H2)]; unfold SummaryStats.panel_ikt.
    + rewrite H. reflexivity.
    + rewrite H1. cbn [bind]. rewrite H2. reflexivity.
Qed.

End AnyLibrary.

(** C7, as stated, fails on a run of the main table whose first-appearance
    subsample is too small: specification (IV) of the cause side raises in
    [run_hdfe_ols], and the four specifications of the effect side are still
    run after it. *)
Lemma fail_fast_counterexample : ~ fail_fast (snd example_run).
Proof.
  intros H.
  specialize (H [ Started "cause" "(I)"; Estimated "cause" "(I)";
                  Started "cause" "(II)"; Estimated "cause" "(II)";
                  Started "cause" "(III)"; Estimated "cause" "(III)";
                  Started "cause" "(IV)" ]
                "cause" "(IV)" (ValueError "Only a few rows with non-zero demeaned X")
                [ Started "effect" "(I)"; Estimated "effect" "(I)";
                  Started "effect" "(II)"; Estimated "effect" "(II)";
                  Started "effect" "(III)"; Estimated "effect" "(III)";
                  Started "effect" "(IV)";
                  Failed "effect" "(IV)" (ValueError "Only a few rows with non-zero demeaned X") ]
                eq_refl).
  discriminate H.
Qed.

Lemma table_loops_catch_regression_errors_witness :
  fst example_run =
  Ok [ ("cause", "(I)", Some 500%Z); ("cause", "(II)", Some 500%Z);
       ("cause", "(III)", Some 500%Z); ("cause", "(IV)", None);
       ("effect", "(I)", Some 480%Z); ("effect", "(II)", Some 480%Z);
       ("effect", "(III)", Some 480%Z); ("effect", "(IV)", None) ].
Proof.
  unfold example_run.
  destruct (table_loops_catch_regression_errors Z Z Z
              (fun d _ => Ok d) (fun d => d) (fun d => Ok d) (fun _ => 6%Z)
              (fun _ d => d) 500%Z 480%Z) as [H _].
  rewrite H. reflexivity.
Defined.

End RegressionFacts.
(** ** Quarter labels and tenure (07_table_IVC_dynamics.py) *)

Section DynamicsFacts.
Import Dynamics.
Local Open Scope string_scope.
Local Open Scope Z_scope.

Lemma digit_val_dv c d :
  digit_val c = Some d -> d = dv c /\ 0 <= dv c <= 9.
Proof.
  unfold digit_val, dv. intros H.
  destruct (48 <=? Z.of_N (N_of_ascii c)) eqn:E1;
    destruct (Z.of_N (N_of_ascii c) <=? 57) eqn:E2; simpl in H;
    try discriminate.
  injection H as <-. lia.
Qed.

Lemma digit_not_q c d : digit_val c = Some d -> Ascii.eqb c "q" = false.
Proof.
  intros H. destruct (Ascii.eqb_spec c "q") as [->|]; [|reflexivity].
  vm_compute in H. discriminate.
Qed.

Lemma is_digit_inv c : is_digit c = true -> digit_val c = Some (dv c) /\ 0 <= dv c <= 9.
Proof.
  unfold is_digit. destruct (digit_val c) as [d|] eqn:E; [|discriminate].
  intros _. destruct (digit_val_dv _ _ E) as [-> ?]. auto.
Qed.

Lemma is_quarter_digit_inv c :
  is_quarter_digit c = true -> digit_val c = Some (dv c) /\ 1 <= dv c <= 4.
Proof.
  unfold is_quarter_digit. destruct (digit_val c) as [d|] eqn:E; [|discriminate].
  intros H. destruct (digit_val_dv _ _ E) as [-> ?]. split; [reflexivity|lia].
Qed.

(** The shape of a well-formed label. *)
Lemma is_label_inv s :
  is_label s = true ->
  exists a b c d k,
    s = String a (String b (String c (String d (String "q" (String k EmptyString))))) /\
    is_digit a = true /\ is_digit b = true /\ is_digit c = true /\
    is_digit d = true /\ is_quarter_digit k = true.
Proof.
  destruct s as [|a [|b [|c [|d [|q [|k [|? ?]]]]]]]; simpl; try discriminate;
    try (destruct q as [[] [] [] [] [] [] [] []]; discriminate).
  destruct q as [[] [] [] [] [] [] [] []]; try discriminate.
  intros H. repeat (apply andb_true_iff in H; destruct H as [H ?]).
  exists a, b, c, d, k. repeat split; assumption.
Qed.

Lemma digit_plain c d :
  digit_val c = Some d ->
  is_int_space c = false /\ Ascii.eqb c "-" = false /\ Ascii.eqb c "+" = false.
Proof.
  intros H.
  destruct c as [[] [] [] [] [] [] [] []]; vm_compute in H; try discriminate H;
    repeat split.
Qed.

(** [int] on a run of four digits and on a single digit. *)
Lemma py_int_four a b c d :
  digit_val a = Some (dv a) -> digit_val b = Some (dv b) ->
  digit_val c = Some (dv c) -> digit_val d = Some (dv d) ->
  py_int (String a (String b (String c (String d EmptyString))))
  = Some (1000 * dv a + 100 * dv b + 10 * dv c + dv d).
Proof.
  intros Ha Hb Hc Hd.
  destruct (digit_plain _ _ Ha) as (Sa & Ma & Pa).
  destruct (digit_plain _ _ Hb) as (Sb & _ & _).
  destruct (digit_plain _ _ Hc) as (Sc & _ & _).
  destruct (digit_plain _ _ Hd) as (Sd & _ & _).
  unfold py_int. cbn [skip_left]. rewrite Sa. cbn [skip_right]. rewrite Sd.
  rewrite Ma, Pa. cbn [int_literal int_body]. rewrite Ha, Hb, Hc, Hd.
  f_equal. ring.
Qed.

Lemma py_int_one k :
  digit_val k = Some (dv k) -> py_int (String k EmptyString) = Some (dv k).
Proof.
  intros Hk. destruct (digit_plain _ _ Hk) as (Sk & Mk & Pk).
  unfold py_int. cbn [skip_left]. rewrite Sk. cbn [skip_right]. rewrite Sk.
  rewrite Mk, Pk. cbn [int_literal int_body]. rewrite Hk. reflexivity.
Qed.

(** [q_to_num] on a well-formed label is [year * 4 + quarter]. *)
Lemma q_to_num_label s :
  is_label s = true -> q_to_num s = Some (label_num s).
Proof.
  intros H. destruct (is_label_inv _ H) as (a & b & c & d & k & -> & Ha & Hb & Hc & Hd & Hk).
  apply is_digit_inv in Ha, Hb, Hc, Hd. apply is_quarter_digit_inv in Hk.
  destruct Ha as [Ha _], Hb as [Hb _], Hc as [Hc _], Hd as [Hd _], Hk as [Hk _].
  unfold q_to_num. cbn [split_on].
  rewrite (digit_not_q _ _ Ha), (digit_not_q _ _ Hb), (digit_not_q _ _ Hc),
    (digit_not_q _ _ Hd), (digit_not_q _ _ Hk).
  change (Ascii.eqb "q" "q") with true. cbv iota.
  rewrite (py_int_four _ _ _ _ Ha Hb Hc Hd), (py_int_one _ Hk).
  unfold label_num, label_year, label_quarter. reflexivity.
Qed.

Lemma label_bounds s :
  is_label s = true -> 0 <= label_year s <= 9999 /\ 1 <= label_quarter s <= 4.
Proof.
  intros H. destruct (is_label_inv _ H) as (a & b & c & d & k & -> & Ha & Hb & Hc & Hd & Hk).
  apply is_digit_inv in Ha, Hb, Hc, Hd. apply is_quarter_digit_inv in Hk.
  unfold label_year, label_quarter. lia.
Qed.

(** [year*4 + quarter] orders labels chronologically. *)
Lemma chrono_lt_label_num s t :
  is_label s = true -> is_label t = true ->
  (chrono_lt s t <-> label_num s < label_num t).
Proof.
  intros Hs Ht. pose proof (label_bounds _ Hs). pose proof (label_bounds _ Ht).
  unfold chrono_lt, label_num. lia.
Qed.

Lemma ascii_compare_N a b :
  Ascii.compare a b = (N_of_ascii a ?= N_of_ascii b)%N.
Proof. reflexivity. Qed.

(** On well-formed labels the string order Python's [min] uses is the
    order of the label numbers. *)
Lemma label_ltb_num s t :
  is_label s = true -> is_label t = true ->
  (String.ltb s t = true <-> label_num s < label_num t).
Proof.
  intros Hs Ht.
  destruct (is_label_inv _ Hs) as (a & b & c & d & k & -> & Ha & Hb & Hc & Hd & Hk).
  destruct (is_label_inv _ Ht) as (a' & b' & c' & d' & k' & -> & Ha' & Hb' & Hc' & Hd' & Hk').
  apply is_digit_inv in Ha, Hb, Hc, Hd, Ha', Hb', Hc', Hd'.
  apply is_quarter_digit_inv in Hk, Hk'.
  unfold String.ltb, label_num, label_year, label_quarter. cbn [String.compare].
  rewrite !ascii_compare_N. unfold dv in *.
  change (N_of_ascii "q" ?= N_of_ascii "q")%N with Eq.
  destruct (N.compare_spec (N_of_ascii a) (N_of_ascii a'));
    [destruct (N.compare_spec (N_of_ascii b) (N_of_ascii b'));
     [destruct (N.compare_spec (N_of_ascii c) (N_of_ascii c'));
      [destruct (N.compare_spec (N_of_ascii d) (N_of_ascii d'));
       [destruct (N.compare_spec (N_of_ascii k) (N_of_ascii k'))|..]|..]|..]|..];
    (split; [intros E; try discriminate E; lia | intros E; try reflexivity; lia]).
Qed.

Lemma str_min_label a b :
  is_label a = true -> is_label b = true ->
  is_label (str_min a b) = true /\
  label_num (str_min a b) = Z.min (label_num a) (label_num b).
Proof.
  intros Ha Hb. unfold str_min.
  pose proof (label_ltb_num b a Hb Ha) as E.
  destruct (String.ltb b a).
  - split; [assumption|]. destruct E as [E _]. specialize (E eq_refl). lia.
  - split; [assumption|].
    assert (~ label_num b < label_num a) by (intros L; apply E in L; discriminate).
    lia.
Qed.

Lemma fold_str_min_label l : forall x,
  is_label x = true -> Forall (fun y => is_label y = true) l ->
  is_label (fold_left str_min l x) = true /\
  label_num (fold_left str_min l x) <= label_num x /\
  Forall (fun y => label_num (fold_left str_min l x) <= label_num y) l /\
  In (fold_left str_min l x) (x :: l).
Proof.
  induction l as [|y l IH]; intros x Hx Hl.
  - simpl. repeat split; auto; lia.
  - inversion Hl as [|? ? Hy Hl']; subst.
    destruct (str_min_label x y Hx Hy) as [Hm Hn].
    destruct (IH (str_min x y) Hm Hl') as (I1 & I2 & I3 & I4).
    cbn [fold_left]. repeat split.
    + exact I1.
    + lia.
    + constructor; [lia | exact I3].
    + destruct I4 as [I4|I4].
      * rewrite <- I4. unfold str_min. destruct (String.ltb y x); simpl; auto.
      * right; right; exact I4.
Qed.

Lemma same_pair_refl r : same_pair r r = true.
Proof. unfold same_pair. rewrite Z.eqb_refl, String.eqb_refl. reflexivity. Qed.

Lemma build_df_incl panel r : In r (build_df panel) -> In r panel.
Proof. unfold build_df. intros H. apply filter_In in H. tauto. Qed.

(** The group minimum exists for a row of the frame, is a label of the
    group and is the chronologically first one. *)
Lemma first_dateQ_spec df r :
  (forall x, In x df -> same_pair r x = true -> is_label (dateQ x) = true) -> In r df ->
  exists f, first_dateQ df r = Some f /\ is_label f = true /\
    (exists r0, In r0 df /\ same_pair r r0 = true /\ dateQ r0 = f) /\
    (forall r', In r' df -> same_pair r r' = true -> label_num f <= label_num (dateQ r')).
Proof.
  intros Hl Hr. unfold first_dateQ.
  assert (Hg : forall y, In y (map dateQ (filter (same_pair r) df)) ->
                 exists r0, In r0 df /\ same_pair r r0 = true /\ dateQ r0 = y).
  { intros y Hy. apply in_map_iff in Hy. destruct Hy as (r0 & <- & Hin).
    apply filter_In in Hin. exists r0. tauto. }
  assert (Hne : In (dateQ r) (map dateQ (filter (same_pair r) df))).
  { apply in_map. apply filter_In. split; [assumption | apply same_pair_refl]. }
  assert (Hall : forall r', In r' df -> same_pair r r' = true ->
                   In (dateQ r') (map dateQ (filter (same_pair r) df))).
  { intros r' H1 H2. apply in_map. apply filter_In. auto. }
  destruct (map dateQ (filter (same_pair r) df)) as [|x t] eqn:E; [contradiction|].
  assert (Hx : is_label x = true).
  { destruct (Hg x (or_introl eq_refl)) as (r0 & H0 & P0 & <-). auto. }
  assert (Ht : Forall (fun y => is_label y = true) t).
  { apply Forall_forall. intros y Hy.
    destruct (Hg y (or_intror Hy)) as (r0 & H0 & P0 & <-). auto. }
  destruct (fold_str_min_label t x Hx Ht) as (F1 & F2 & F3 & F4).
  exists (fold_left str_min t x). simpl. repeat split; auto.
  intros r' H1 H2. destruct (Hall r' H1 H2) as [<-|Hin]; [exact F2|].
  rewrite Forall_forall in F3. auto.
Qed.

(** A column computed by [apply] holds the value of each of its rows. *)
Lemma traverse_holds {A B : Type} (f : A -> option B) l : forall out x y,
  Persistence.traverse f l = Some out -> In x l -> f x = Some y -> In y out.
Proof.
  induction l as [|h l IH]; intros out x y H Hx Hy; [destruct Hx|].
  cbn [Persistence.traverse] in H.
  destruct (f h) as [w|] eqn:Ef; [|discriminate H].
  destruct (Persistence.traverse f l) as [t'|]; [|discriminate H].
  injection H as <-. destruct Hx as [<-|Hx].
  - left. congruence.
  - right. eapply IH; eauto.
Qed.

(** C10, as the code has it.  [q_to_num] maps a label of the form YYYYqQ
    (four digits, the letter q, a quarter digit 1-4) to [year * 4 + quarter],
    and on such labels that number is strictly increasing in chronological
    order.  For an observation of the multi-observation frame whose
    firm-technology pair carries only labels of that form (its own label
    included), the tenure is defined, non-negative, and zero exactly when no
    observation of the pair precedes it chronologically; it is the value the
    [tenure_q] column holds for the observation whenever the column is
    computed. *)
Theorem tenure_q_first_quarter (panel : list obs) (r : obs) :
  In r (build_df panel) ->
  (forall x, In x (build_df panel) -> same_pair r x = true -> is_label (dateQ x) = true) ->
  q_to_num (dateQ r) = Some (label_year (dateQ r) * 4 + label_quarter (dateQ r)) /\
  (forall a b, is_label a = true -> is_label b = true ->
     q_to_num a = Some (label_year a * 4 + label_quarter a) /\
     (chrono_lt a b <->
      exists na nb, q_to_num a = Some na /\ q_to_num b = Some nb /\ na < nb)) /\
  exists n,
    tenure_q (build_df panel) r = Some n /\ 0 <= n /\
    (n = 0 <->
     forall x, In x (build_df panel) -> same_pair r x = true ->
               ~ chrono_lt (dateQ x) (dateQ r)) /\
    (forall dt, Persistence.with_tenure (build_df panel) = Some dt -> In (r, n) dt).
Proof.
  intros Hr Hl.
  assert (Lr : is_label (dateQ r) = true) by (apply Hl; [exact Hr | apply same_pair_refl]).
  split; [apply (q_to_num_label _ Lr)|]. split.
  - intros a b La Lb. split; [apply (q_to_num_label _ La)|].
    rewrite (chrono_lt_label_num _ _ La Lb).
    rewrite (q_to_num_label _ La), (q_to_num_label _ Lb). split.
    + intros H. eauto.
    + intros (na & nb & Ha & Hb & Hab). injection Ha as <-. injection Hb as <-. exact Hab.
  - destruct (first_dateQ_spec _ r Hl Hr) as (f & Hf & Lf & (r0 & H0 & P0 & E0) & Hmin).
    exists (label_num (dateQ r) - label_num f).
    assert (Ht : tenure_q (build_df panel) r = Some (label_num (dateQ r) - label_num f)).
    { unfold tenure_q. rewrite Hf, (q_to_num_label _ Lr), (q_to_num_label _ Lf).
      reflexivity. }
    split; [exact Ht|].
    pose proof (Hmin r Hr (same_pair_refl r)) as Hge.
    split; [lia|]. split; [split|].
    + intros Hz x H1 H2 Hc.
      apply (chrono_lt_label_num _ _ (Hl x H1 H2) Lr) in Hc.
      specialize (Hmin x H1 H2). lia.
    + intros Hno. specialize (Hno r0 H0 P0).
      rewrite (chrono_lt_label_num _ _ (Hl r0 H0 P0) Lr) in Hno.
      rewrite E0 in Hno. lia.
    + intros dt Hdt. unfold Persistence.with_tenure in Hdt.
      apply (traverse_holds _ _ _ r _ Hdt Hr). rewrite Ht. reflexivity.
Qed.

(** The later of the two rows of the example: its tenure is 3 quarters. *)
Lemma tenure_q_first_quarter_witness :
  exists n,
    tenure_q (build_df tenure_example) (mk_obs 1001 "AI" "2021q3") = Some n /\ 0 <= n /\
    (n = 0 <->
     forall x, In x (build_df tenure_example) ->
               same_pair (mk_obs 1001 "AI" "2021q3") x = true ->
               ~ chrono_lt (dateQ x) "2021q3") /\
    (forall dt, Persistence.with_tenure (build_df tenure_example) = Some dt ->
                In (mk_obs 1001 "AI" "2021q3", n) dt).
Proof.
  apply (tenure_q_first_quarter tenure_example (mk_obs 1001 "AI" "2021q3")).
  - left. reflexivity.
  - intros x [<-|[<-|[]]] _; reflexivity.
Defined.

Example tenure_example_values :
  map (tenure_q (build_df tenure_example)) tenure_example = [Some 3; Some 0].
Proof. reflexivity. Qed.

(** C10, as stated, fails for an observation whose own label has the form
    YYYYqQ while another label of its pair has a five-digit year: every label
    is converted, but the minimum of the two strings is the later quarter
    and the tenure of the observation of 9999q4 is -1. *)
Lemma tenure_negative_counterexample :
  In (mk_obs 1001 "AI" "9999q4") (build_df long_year_example) /\
  is_label "9999q4" = true /\
  tenure_q (build_df long_year_example) (mk_obs 1001 "AI" "9999q4") = Some (-1) /\
  Persistence.with_tenure (build_df long_year_example)
  = Some [ (mk_obs 1001 "AI" "9999q4", -1); (mk_obs 1001 "AI" "10000q1", 0) ].
Proof.
  split; [left; reflexivity|]. split; [reflexivity|]. split; reflexivity.
Qed.

End DynamicsFacts.
(** ** What the quality report depends on (scripts/quality_score.py) *)

Section QualityFacts.
Import QualityScore.
Local Open Scope string_scope.
Local Open Scope Z_scope.

Lemma fold_add_critical {X : Type} (f : X -> issue) (p : Z) (l : list X) : forall s,
  fold_left (fun s x => add_critical (f x) p s) l s =
  mk_scorer (filepath s) (verbose s) (score s - p * Z.of_nat (length l))
            (critical s ++ map f l) (major s) (minor s) (auto_fail s).
Proof.
  induction l as [|x t IH]; intros s.
  - simpl. rewrite app_nil_r, Z.mul_0_r, Z.sub_0_r. destruct s; reflexivity.
  - cbn [fold_left]. rewrite IH. unfold add_critical. cbn [filepath verbose score critical
      major minor auto_fail map length]. rewrite <- app_assoc. cbn [app].
    f_equal. lia.
Qed.

Lemma fold_add_major {X : Type} (f : X -> issue) (p : Z) (l : list X) : forall s,
  fold_left (fun s x => add_major (f x) p s) l s =
  mk_scorer (filepath s) (verbose s) (score s - p * Z.of_nat (length l))
            (critical s) (major s ++ map f l) (minor s) (auto_fail s).
Proof.
  induction l as [|x t IH]; intros s.
  - simpl. rewrite app_nil_r, Z.mul_0_r, Z.sub_0_r. destruct s; reflexivity.
  - cbn [fold_left]. rewrite IH. unfold add_major. cbn [filepath verbose score critical
      major minor auto_fail map length]. rewrite <- app_assoc. cbn [app].
    f_equal. lia.
Qed.

Lemma generate_report_same a b :
  same_findings a b -> same_report (generate_report a) (generate_report b).
Proof.
  intros (H1 & H2 & H3 & H4 & H5). unfold same_report, generate_report.
  cbn [r_score r_status r_threshold r_auto_fail r_critical r_major r_minor r_counts].
  rewrite H1, H2, H3, H4, H5. repeat split; reflexivity.
Qed.

Lemma same_findings_fold {X : Type} (g : scorer -> X -> scorer) (l : list X) :
  (forall a b x, same_findings a b -> same_findings (g a x) (g b x)) ->
  forall a b, same_findings a b -> same_findings (fold_left g l a) (fold_left g l b).
Proof.
  intros Hg. induction l as [|x t IH]; intros a b H; simpl; auto.
Qed.

Lemma same_findings_add_critical i p a b :
  same_findings a b -> same_findings (add_critical i p a) (add_critical i p b).
Proof.
  intros (H1 & H2 & H3 & H4 & H5). unfold same_findings, add_critical. simpl.
  rewrite H1, H2, H3, H4, H5. auto.
Qed.

Lemma same_findings_add_major i p a b :
  same_findings a b -> same_findings (add_major i p a) (add_major i p b).
Proof.
  intros (H1 & H2 & H3 & H4 & H5). unfold same_findings, add_major. simpl.
  rewrite H1, H2, H3, H4, H5. auto.
Qed.

Lemma same_findings_add_minor i p a b :
  same_findings a b -> same_findings (add_minor i p a) (add_minor i p b).
Proof.
  intros (H1 & H2 & H3 & H4 & H5). unfold same_findings, add_minor. simpl.
  rewrite H1, H2, H3, H4, H5. auto.
Qed.

Lemma same_findings_when c f a b :
  (forall a b, same_findings a b -> same_findings (f a) (f b)) ->
  same_findings a b -> same_findings (when c f a) (when c f b).
Proof. intros Hf H. unfold when. destruct c; auto. Qed.

Lemma same_findings_clip a b :
  same_findings a b ->
  same_findings (set_score (Z.max 0 (score a)) a) (set_score (Z.max 0 (score b)) b).
Proof.
  intros (H1 & H2 & H3 & H4 & H5). unfold same_findings, set_score. simpl.
  rewrite H1, H2, H3, H4, H5. auto.
Qed.

Lemma same_findings_init p1 v1 p2 v2 : same_findings (init p1 v1) (init p2 v2).
Proof. unfold same_findings, init. simpl. auto. Qed.

Lemma same_findings_fold_critical {X : Type} (f : X -> issue) p (l : list X) a b :
  same_findings a b ->
  same_findings (fold_left (fun s x => add_critical (f x) p s) l a)
                (fold_left (fun s x => add_critical (f x) p s) l b).
Proof.
  apply same_findings_fold. intros. apply same_findings_add_critical. assumption.
Qed.

Lemma same_findings_fold_major {X : Type} (f : X -> issue) p (l : list X) a b :
  same_findings a b ->
  same_findings (fold_left (fun s x => add_major (f x) p s) l a)
                (fold_left (fun s x => add_major (f x) p s) l b).
Proof.
  apply same_findings_fold. intros. apply same_findings_add_major. assumption.
Qed.

Lemma same_findings_auto_fail v a b :
  same_findings a b ->
  same_findings (set_score v (set_auto_fail a)) (set_score v (set_auto_fail b)).
Proof.
  intros (H1 & H2 & H3 & H4 & H5). unfold same_findings, set_score, set_auto_fail. simpl.
  rewrite H2, H3, H4. auto.
Qed.

Create HintDb findings.
#[local] Hint Resolve same_findings_init same_findings_clip same_findings_when
  same_findings_add_critical same_findings_add_major same_findings_add_minor
  same_findings_fold_critical same_findings_fold_major same_findings_auto_fail
  generate_report_same : findings.

Lemma same_report_up_to_order_of_same a b :
  same_report a b -> same_report_up_to_order a b.
Proof.
  intros (H1 & H2 & H3 & H4 & H5 & H6 & H7 & H8).
  unfold same_report_up_to_order. rewrite H5. repeat split; auto.
Qed.

Section AnyDetectors.
Variable check_stata_version : string -> bool.
Variable check_stata_raw_data_writes : string -> list Z.
Variable check_hardcoded_paths : string -> list Z.
Variable check_stata_unchecked_merge : string -> list Z.
Variable check_stata_header : string -> bool.
Variable check_latex_syntax : string -> list (Z * string).
Variable check_equation_overflow : string -> list Z.

(** The report on a do-file is a function of the content. *)
Lemma run_stata_same p1 v1 p2 v2 content :
  same_report
    (run_stata check_stata_version check_stata_raw_data_writes check_hardcoded_paths
       check_stata_unchecked_merge check_stata_header p1 v1 content)
    (run_stata check_stata_version check_stata_raw_data_writes check_hardcoded_paths
       check_stata_unchecked_merge check_stata_header p2 v2 content).
Proof.
  unfold run_stata, score_stata. cbv zeta. cbn [fst].
  auto 20 with findings.
Qed.

(** The report on a manuscript is a function of the content and of the
    bibliography, except for the order of the undefined-citation issues. *)
Lemma run_manuscript_same order1 order2 p1 v1 p2 v2 content bl bo :
  (forall l, Permutation (order1 l) l) ->
  (forall l, Permutation (order2 l) l) ->
  same_report_up_to_order
    (run_manuscript order1 check_latex_syntax check_equation_overflow
       p1 v1 content bl bo)
    (run_manuscript order2 check_latex_syntax check_equation_overflow
       p2 v2 content bl bo).
Proof.
  intros H1 H2. unfold run_manuscript, score_manuscript.
  destruct (check_latex_syntax content) as [|iss rest].
  - cbv zeta. cbn [fst]. rewrite !fold_add_critical, !fold_add_major.
    set (bib := match bl with Some b => Some b | None => bo end).
    assert (P : Permutation (check_broken_citations order1 content bib)
                            (check_broken_citations order2 content bib)).
    { unfold check_broken_citations. destruct bib as [b|].
      - eapply perm_trans; [apply H1 | apply Permutation_sym, H2].
      - destruct (cited_keys content); [constructor|].
        eapply perm_trans; [apply H1 | apply Permutation_sym, H2]. }
    pose proof (Permutation_length P) as L.
    unfold same_report_up_to_order, generate_report, set_score, init.
    cbn [filepath verbose score critical major minor auto_fail r_score r_status
         r_threshold r_auto_fail r_critical r_major r_minor r_counts fst snd app].
    rewrite !length_map, L. repeat split. apply Permutation_map. exact P.
  - apply same_report_up_to_order_of_same. cbv zeta. cbn [fst].
    apply generate_report_same.
    unfold same_findings, set_score, set_auto_fail.
    cbn [filepath verbose score critical major minor auto_fail].
    rewrite !fold_add_critical. cbn [critical major minor init]. auto.
Qed.

Lemma run_manuscript_same_order order p1 v1 p2 v2 content bl bo :
  same_report
    (run_manuscript order check_latex_syntax check_equation_overflow p1 v1 content bl bo)
    (run_manuscript order check_latex_syntax check_equation_overflow p2 v2 content bl bo).
Proof.
  unfold run_manuscript, score_manuscript.
  destruct (check_latex_syntax content) as [|iss rest]; cbv zeta; cbn [fst];
    auto 20 with findings.
Qed.

(** In the failure branch the two reports list the same critical issues in
    the same order. *)
Lemma run_manuscript_same_failed order1 order2 p1 v1 p2 v2 content bl bo :
  check_latex_syntax content <> [] ->
  same_report
    (run_manuscript order1 check_latex_syntax check_equation_overflow p1 v1 content bl bo)
    (run_manuscript order2 check_latex_syntax check_equation_overflow p2 v2 content bl bo).
Proof.
  intros Hne. unfold run_manuscript, score_manuscript. cbv zeta.
  destruct (check_latex_syntax content) as [|iss rest]; [contradiction|].
  cbn [fst]. auto 20 with findings.
Qed.

(** Without syntax issues the critical issues are the undefined-citation
    entries, one per key, in the order in which the set is iterated. *)
Lemma run_manuscript_critical order p v content bl bo :
  check_latex_syntax content = [] ->
  r_critical (run_manuscript order check_latex_syntax check_equation_overflow
                p v content bl bo)
  = map undefined_citation
      (check_broken_citations order content
         match bl with Some b => Some b | None => bo end).
Proof.
  intros He. unfold run_manuscript, score_manuscript. cbv zeta. rewrite He.
  cbn [fst]. rewrite fold_add_major, fold_add_critical. reflexivity.
Qed.

Lemma check_broken_citations_perm order1 order2 content bib :
  (forall l, Permutation (order1 l) l) ->
  (forall l, Permutation (order2 l) l) ->
  Permutation (check_broken_citations order1 content bib)
              (check_broken_citations order2 content bib).
Proof.
  intros H1 H2. unfold check_broken_citations. destruct bib as [b|].
  - eapply perm_trans; [apply H1 | apply Permutation_sym, H2].
  - destruct (cited_keys content); [constructor|].
    eapply perm_trans; [apply H1 | apply Permutation_sym, H2].
Qed.

(** C8, as the code has it.  Two invocations on the same content (and the
    same bibliography) give the same score, status, threshold, auto_fail
    flag, issue counts and major and minor issue lists.  The report on a
    do-file has the same critical issues as well, and so has the report on a
    manuscript with syntax issues.  On a manuscript without syntax issues the
    critical issues are the undefined-citation entries of the same keys,
    listed in the order in which the process iterates over the set of keys:
    the two lists are the same up to that order, and the same whenever the
    two processes iterate in the same order. *)
Theorem quality_report_determined_up_to_order
  (order1 order2 : list string -> list string)
  (p1 p2 : string) (v1 v2 : bool) (content : string) (bl bo : option string) :
  (forall l, Permutation (order1 l) l) ->
  (forall l, Permutation (order2 l) l) ->
  let r1 := run_manuscript order1 check_latex_syntax check_equation_overflow
              p1 v1 content bl bo in
  let r2 := run_manuscript order2 check_latex_syntax check_equation_overflow
              p2 v2 content bl bo in
  same_report
    (run_stata check_stata_version check_stata_raw_data_writes check_hardcoded_paths
       check_stata_unchecked_merge check_stata_header p1 v1 content)
    (run_stata check_stata_version check_stata_raw_data_writes check_hardcoded_paths
       check_stata_unchecked_merge check_stata_header p2 v2 content) /\
  same_report_up_to_order r1 r2 /\
  (check_latex_syntax content <> [] -> same_report r1 r2) /\
  (check_latex_syntax content = [] ->
   exists keys1 keys2,
     Permutation keys1 keys2 /\
     r_critical r1 = map undefined_citation keys1 /\
     r_critical r2 = map undefined_citation keys2) /\
  same_report
    (run_manuscript order1 check_latex_syntax check_equation_overflow p1 v1 content bl bo)
    (run_manuscript order1 check_latex_syntax check_equation_overflow p2 v2 content bl bo).
Proof.
  intros H1 H2. cbv zeta. split; [|split; [|split; [|split]]].
  - apply run_stata_same.
  - apply run_manuscript_same; assumption.
  - apply run_manuscript_same_failed.
  - intros He.
    exists (check_broken_citations order1 content
              match bl with Some b => Some b | None => bo end),
           (check_broken_citations order2 content
              match bl with Some b => Some b | None => bo end).
    split; [apply check_broken_citations_perm; assumption|].
    split; apply run_manuscript_critical; exact He.
  - apply run_manuscript_same_order.
Qed.

End AnyDetectors.

Lemma order_a_perm l : Permutation (order_a l) l.
Proof. apply Permutation_refl. Qed.

Lemma order_b_perm l : Permutation (order_b l) l.
Proof. apply Permutation_sym, Permutation_rev. Qed.

Lemma quality_report_determined_up_to_order_witness :
  same_report_up_to_order (example_manuscript_run order_a) (example_manuscript_run order_b).
Proof.
  apply (quality_report_determined_up_to_order
           (fun _ => true) (fun _ => []) (fun _ => []) (fun _ => []) (fun _ => true)
           (fun _ => []) (fun _ => [])
           order_a order_b "main.tex" "main.tex" false false example_tex None None
           order_a_perm order_b_perm).
Defined.

(** C8, as stated, fails for a manuscript with two undefined citations: two
    processes that iterate over the set of broken keys in different orders
    report the critical issues in different orders. *)
Lemma report_order_counterexample :
  r_critical (example_manuscript_run order_a) <> r_critical (example_manuscript_run order_b).
Proof. vm_compute. discriminate. Qed.

End QualityFacts.

(** * Further properties of the code *)

(** ** Run manifests: what is read and what is left alone *)

Section ManifestMore.
Import Manifest.
Local Open Scope string_scope.
Local Open Scope Z_scope.

Lemma latest_file_spec d sn :
  match latest_file (Some d) sn with
  | None => forall g, In g d -> glob_match (pattern_of sn) (f_name g) = false
  | Some f =>
      In f d /\ glob_match (pattern_of sn) (f_name f) = true /\
      forall g, In g d -> glob_match (pattern_of sn) (f_name g) = true ->
                f_mtime g <= f_mtime f
  end.
Proof.
  unfold latest_file, sorted_manifests.
  set (G := filter (fun f => glob_match (pattern_of sn) (f_name f)) d).
  pose proof (sort_by_strongly f_mtime G) as Hs.
  pose proof (fun x => sort_by_In (fun a b => f_mtime a <=? f_mtime b) x G) as Hin.
  destruct (sort_by (fun a b => f_mtime a <=? f_mtime b) G) as [|f t].
  - intros g Hg. destruct (glob_match (pattern_of sn) (f_name g)) eqn:E; [|reflexivity].
    exfalso. apply (proj2 (Hin g)). apply filter_In. auto.
  - destruct (sorted_last_max f_mtime f t Hs) as [Hl Hmax].
    apply Hin in Hl. apply filter_In in Hl. destruct Hl as [Hl Hm].
    repeat split; try assumption.
    intros g Hg Hgm. apply Hmax. apply Hin. apply filter_In. auto.
Qed.

(** X1. For a script name without glob characters and without [/] (or
    without a script name), when [Path.glob] accepts the pattern and some
    file of the runs directory matches it, [read_latest_manifest] returns
    what [json.loads] makes of a matching file whose modification time is the
    largest among the matching files. *)
Theorem read_latest_manifest_most_recent
  (json_loads : string -> result json) (glob_accepts : string -> bool)
  (d : list file) (sn : option string) (g : file) :
  plain_name sn = true ->
  glob_accepts (pattern_of sn) = true ->
  In g d -> glob_match (pattern_of sn) (f_name g) = true ->
  exists f,
    In f d /\ glob_match (pattern_of sn) (f_name f) = true /\
    (forall g', In g' d -> glob_match (pattern_of sn) (f_name g') = true ->
                f_mtime g' <= f_mtime f) /\
    read_latest_manifest json_loads glob_accepts (Some d) sn
    = json_loads (f_content f).
Proof.
  intros _ Hacc Hg Hm. pose proof (latest_file_spec d sn) as H.
  unfold read_latest_manifest. rewrite Hacc.
  destruct (latest_file (Some d) sn) as [f|].
  - exists f. destruct H as (H1 & H2 & H3). auto.
  - rewrite (H g Hg) in Hm. discriminate.
Qed.

Lemma read_latest_manifest_most_recent_witness :
  exists f,
    f_name f = "run_20240102_080000.json" /\
    read_latest_manifest example_loads no_double_star busy_dir None
    = example_loads (f_content f).
Proof.
  destruct (read_latest_manifest_most_recent example_loads no_double_star
              [ mk_file "test_script_20231231_235959.json" 900 "manifest of an earlier run";
                mk_file "run_20240102_080000.json" 2000 "manifest of run.py";
                mk_file "test_script_notes.txt" 3000 "not a manifest" ]
              None
              (mk_file "test_script_20231231_235959.json" 900 "manifest of an earlier run")
              eq_refl eq_refl (or_introl eq_refl) eq_refl) as (f & Hf & Hm & Hmax & Hr).
  exists f. split; [|exact Hr].
  destruct Hf as [<-|[<-|[<-|[]]]].
  - specialize (Hmax (mk_file "run_20240102_080000.json" 2000 "manifest of run.py")
                  (or_intror (or_introl eq_refl)) eq_refl).
    cbn [f_mtime] in Hmax. lia.
  - reflexivity.
  - vm_compute in Hm. discriminate Hm.
Defined.

(** X2. For a script name without glob characters and without [/] (or
    without a script name) whose pattern [Path.glob] accepts,
    [read_latest_manifest] returns [None] exactly when the runs directory
    does not exist, when it holds no file matching the pattern, or when the
    most recent matching file, the one that is read, holds the JSON value
    [null]; a matching file is never skipped silently. *)
Theorem read_latest_manifest_none
  (json_loads : string -> result json) (glob_accepts : string -> bool)
  (runs_dir : directory) (sn : option string) :
  plain_name sn = true ->
  glob_accepts (pattern_of sn) = true ->
  (read_latest_manifest json_loads glob_accepts runs_dir sn = Ok JNull <->
   (runs_dir = None \/
    exists d, runs_dir = Some d /\
      ((forall g, In g d -> glob_match (pattern_of sn) (f_name g) = false) \/
       exists f, latest_file (Some d) sn = Some f /\
                 In f d /\ glob_match (pattern_of sn) (f_name f) = true /\
                 (forall g, In g d -> glob_match (pattern_of sn) (f_name g) = true ->
                            f_mtime g <= f_mtime f) /\
                 json_loads (f_content f) = Ok JNull))).
Proof.
  intros _ Hacc. destruct runs_dir as [d|].
  - pose proof (latest_file_spec d sn) as H. unfold read_latest_manifest.
    rewrite Hacc.
    destruct (latest_file (Some d) sn) as [f|] eqn:L.
    + destruct H as (H1 & H2 & H3). split.
      * intros E. right. exists d. split; [reflexivity|]. right. exists f. auto.
      * intros [E|(d' & E & [Hn|(f' & Hf' & _ & _ & _ & Hnull)])].
        -- discriminate E.
        -- injection E as <-. rewrite (Hn f H1) in H2. discriminate.
        -- injection E as <-. rewrite L in Hf'. injection Hf' as <-. exact Hnull.
    + split; [|reflexivity]. intros _. right. exists d. auto.
  - split; [left|]; reflexivity.
Qed.

Lemma read_latest_manifest_none_witness :
  read_latest_manifest example_loads no_double_star busy_dir (Some "missing") = Ok JNull.
Proof.
  apply (read_latest_manifest_none example_loads no_double_star busy_dir (Some "missing")
           eq_refl eq_refl).
  right. eexists. split; [reflexivity|]. left.
  intros g [<-|[<-|[<-|[]]]]; reflexivity.
Defined.

Lemma write_text_other nm content mt slot d f :
  f_name f <> nm -> (In f (write_text nm content mt slot d) <-> In f d).
Proof.
  intros Hn. split.
  - intros H. apply write_text_inv in H. destruct H as [->|[H _]]; [|exact H].
    exfalso. apply Hn. reflexivity.
  - intros H. unfold write_text.
    destruct (existsb (fun f0 => String.eqb (f_name f0) nm) d).
    + apply in_map_iff. exists f. split; [|exact H].
      destruct (String.eqb_spec (f_name f) nm); [contradiction | reflexivity].
    + rewrite <- (firstn_skipn slot d) in H. apply in_app_or in H.
      apply in_or_app. destruct H; [left | right; right]; assumption.
Qed.

(** X3. [write_manifest] creates the directory if needed, leaves every
    file of another name exactly as it was, and afterwards the only file
    that carries the written name is the serialised manifest. *)
Theorem write_manifest_keeps_other_files
  (json_dumps : json -> string) (ts : string) (mt : Z) (slot : nat)
  (m : dict) (runs_dir : directory) (fn : string) (runs_dir' : directory) :
  write_manifest json_dumps ts mt slot m runs_dir = Ok (fn, runs_dir') ->
  exists d',
    runs_dir' = Some d' /\
    In (mk_file fn mt (json_dumps (JDict m))) d' /\
    (forall f, In f d' -> f_name f = fn -> f = mk_file fn mt (json_dumps (JDict m))) /\
    (forall f, f_name f <> fn ->
       (In f d' <-> In f (match runs_dir with Some d => d | None => [] end))).
Proof.
  unfold write_manifest. destruct (dict_get "script" m) as [[| | |script| |]|];
    try discriminate.
  intros H. injection H as <- <-. eexists. split; [reflexivity|]. split; [|split].
  - apply write_text_in.
  - intros f Hf Hn. apply write_text_inv in Hf. destruct Hf as [->|[_ Hne]]; [reflexivity|].
    contradiction.
  - intros f Hn. apply write_text_other. exact Hn.
Qed.

Lemma write_manifest_keeps_other_files_witness :
  exists d',
    In (mk_file "run_20240101_120000.json" 1000 "manifest of run.py") d' /\
    In (mk_file "run_extra_20240101_120000.json" 1000 "manifest of run_extra.py") d'.
Proof.
  destruct (write_manifest_keeps_other_files example_dumps "20240101_120000" 1000 0
              m_run tie_dir "run_20240101_120000.json" _ eq_refl)
    as (d' & _ & H1 & _ & H2).
  exists d'. split; [exact H1|]. apply H2; [discriminate | left; reflexivity].
Defined.

(** *** Which names the pattern of a script selects *)

Lemma string_app_assoc (a b c : string) : (a ++ b) ++ c = a ++ (b ++ c).
Proof. induction a as [|ch a IH]; simpl; [reflexivity | rewrite IH; reflexivity]. Qed.

Lemma glob_empty_iff s : glob_match "" s = true <-> s = "".
Proof. destruct s; simpl; split; intros H; try reflexivity; discriminate. Qed.

Lemma glob_star_iff p s :
  glob_match (String "*" p) s = true <->
  exists t s', s = t ++ s' /\ glob_match p s' = true.
Proof.
  split.
  - induction s as [|c s IH]; rewrite glob_star_unfold; intros H.
    + rewrite orb_false_r in H. exists "", "". auto.
    + apply orb_true_iff in H. destruct H as [H|H].
      * exists "", (String c s). auto.
      * destruct (IH H) as (t & s' & -> & Hs). exists (String c t), s'. auto.
  - intros (t & s' & -> & H). apply glob_star. exact H.
Qed.

Lemma glob_literal_iff S : forall p s,
  no_glob_meta S = true ->
  (glob_match (S ++ p) s = true <-> exists s', s = S ++ s' /\ glob_match p s' = true).
Proof.
  induction S as [|c S IH]; intros p s H.
  - cbn [append]. split; [intros Hm; exists s; auto | intros (s' & -> & Hm); exact Hm].
  - cbn [no_glob_meta] in H. apply andb_true_iff in H. destruct H as [Hc HS].
    unfold is_glob_meta in Hc. apply negb_true_iff in Hc.
    apply orb_false_iff in Hc. destruct Hc as [Hc _].
    apply orb_false_iff in Hc. destruct Hc as [Hstar Hq].
    cbn [append glob_match]. rewrite Hstar. destruct s as [|d s].
    + split; [discriminate | intros (s' & E & _); discriminate E].
    + rewrite Hq. cbn [orb]. rewrite andb_true_iff, (IH p s HS). split.
      * intros [E (s' & -> & Hm)]. apply Ascii.eqb_eq in E. subst d. exists s'. auto.
      * intros (s' & E & Hm). injection E as -> ->.
        split; [apply Ascii.eqb_refl | exists s'; auto].
Qed.

Lemma glob_json_suffix s :
  glob_match "*.json" s = true <-> exists mid, s = mid ++ ".json".
Proof.
  change "*.json" with (String "*" ".json"). rewrite glob_star_iff. split.
  - intros (t & s' & -> & H).
    apply (glob_literal_iff ".json" "" s' eq_refl) in H.
    destruct H as (s'' & -> & H). apply glob_empty_iff in H. subst s''.
    exists t. reflexivity.
  - intros (mid & ->). exists mid, ".json". split; reflexivity.
Qed.

(** X4. The filter by script name is a filter on the file name: for a
    stem [S] without glob characters the manifests considered are exactly
    the files named [S_<anything>.json] (so the manifests of a script whose
    stem starts with [S_] are considered too); without a script name, or
    with the empty one, every [.json] file is considered. *)
Theorem script_pattern_selects (S n : string) :
  no_glob_meta S = true -> S <> "" ->
  (glob_match (pattern_of (Some S)) n = true <->
   exists mid, n = S ++ "_" ++ mid ++ ".json") /\
  (glob_match (pattern_of None) n = true <-> exists mid, n = mid ++ ".json") /\
  (glob_match (pattern_of (Some "")) n = true <-> exists mid, n = mid ++ ".json").
Proof.
  intros Hm Hne. split; [|split; apply glob_json_suffix].
  assert (E : pattern_of (Some S) = S ++ "_*.json")
    by (destruct S; [contradiction | reflexivity]).
  rewrite E, (glob_literal_iff S "_*.json" n Hm). split.
  - intros (s' & -> & H).
    apply (glob_literal_iff "_" "*.json" s' eq_refl) in H.
    destruct H as (s'' & -> & H). apply glob_json_suffix in H.
    destruct H as (mid & ->). exists mid. reflexivity.
  - intros (mid & ->). exists ("_" ++ mid ++ ".json"). split; [reflexivity|].
    apply (glob_literal_iff "_" "*.json" _ eq_refl). exists (mid ++ ".json").
    split; [reflexivity|]. apply glob_json_suffix. exists mid. reflexivity.
Qed.

Lemma script_pattern_selects_witness :
  glob_match (pattern_of (Some "run")) "run_extra_20240101_120000.json" = true.
Proof.
  destruct (script_pattern_selects "run" "run_extra_20240101_120000.json" eq_refl)
    as [H _]; [discriminate|].
  apply H. exists "extra_20240101_120000". reflexivity.
Defined.

(** *** From the script path to the manifest file name *)

Lemma rfind_dot_none s : contains_char "." s = false -> rfind_dot s = None.
Proof.
  induction s as [|c s IH]; [reflexivity|]. cbn [contains_char rfind_dot].
  intros H. apply orb_false_iff in H. destruct H as [Hc Hs].
  rewrite (IH Hs), Hc. reflexivity.
Qed.

Lemma rfind_dot_suffix S ext :
  contains_char "." ext = false ->
  rfind_dot (S ++ String "." ext) = Some (String.length S).
Proof.
  intros H. induction S as [|c S IH]; cbn [append rfind_dot String.length].
  - rewrite (rfind_dot_none ext H). reflexivity.
  - rewrite IH. reflexivity.
Qed.

Lemma string_length_app a b : String.length (a ++ b) = (String.length a + String.length b)%nat.
Proof. induction a as [|c a IH]; simpl; [reflexivity | rewrite IH; reflexivity]. Qed.

Lemma substring_prefix S t : substring 0 (String.length S) (S ++ t) = S.
Proof.
  induction S as [|c S IH]; cbn [append String.length substring].
  - destruct t; reflexivity.
  - rewrite IH. reflexivity.
Qed.

(** [Path.stem] removes the last suffix of a name such as [03_table_II.py]. *)
Lemma stem_suffix S ext :
  S <> "" -> ext <> "" -> contains_char "." ext = false ->
  stem (S ++ String "." ext) = S.
Proof.
  intros HS He Hd. unfold stem. rewrite (rfind_dot_suffix S ext Hd).
  rewrite string_length_app. cbn [String.length].
  assert (H1 : (0 <? String.length S)%nat = true).
  { apply Nat.ltb_lt. destruct S; [contradiction | simpl; lia]. }
  assert (H2 : (String.length S <? String.length S + Datatypes.S (String.length ext) - 1)%nat = true).
  { apply Nat.ltb_lt. destruct ext; [contradiction | simpl; lia]. }
  rewrite H1, H2. apply substring_prefix.
Qed.

Lemma split_on_no_sep sep s :
  contains_char sep s = false -> split_on sep s = [s].
Proof.
  induction s as [|c s IH]; [reflexivity|]. cbn [contains_char split_on].
  intros H. apply orb_false_iff in H. destruct H as [Hc Hs].
  rewrite Hc, (IH Hs). reflexivity.
Qed.

Lemma contains_char_app c a b :
  contains_char c (a ++ b) = contains_char c a || contains_char c b.
Proof.
  induction a as [|d a IH]; [reflexivity|]. cbn [append contains_char].
  rewrite IH, orb_assoc. reflexivity.
Qed.

(** X5. A manifest made by [create_manifest] for a script whose file name
    is [S.ext] (a non-empty [S], one last suffix) is always written by
    [write_manifest], under the name [S_<timestamp>.json]. *)
Theorem created_manifest_file_name
  (json_dumps : json -> string) (now_iso ts : string) (mt : Z) (slot : nat)
  (folder : path) (S ext : string) (seed : Z) (ins outs : list string)
  (row_counts : list (string * Z)) (parameters : option dict) (runs_dir : directory) :
  S <> "" -> ext <> "" ->
  contains_char "." ext = false ->
  contains_char "/" S = false -> contains_char "/" ext = false ->
  exists runs_dir',
    write_manifest json_dumps ts mt slot
      (create_manifest now_iso (folder ++ [(S ++ String "." ext)%string])%list seed ins outs
         row_counts parameters)
      runs_dir
    = Ok (S ++ "_" ++ ts ++ ".json", runs_dir').
Proof.
  intros HS He Hd HsS Hse.
  unfold write_manifest, create_manifest. cbn [dict_get String.eqb Ascii.eqb Bool.eqb].
  unfold name. rewrite last_last.
  assert (Hp : parse_path (S ++ String "." ext) = [S ++ String "." ext]).
  { unfold parse_path. rewrite split_on_no_sep.
    - cbn [filter]. destruct S as [|c S]; [contradiction|].
      destruct S as [|c' S]; destruct ext; try contradiction;
        cbn [append String.eqb]; destruct (Ascii.eqb c "."); reflexivity.
    - rewrite contains_char_app. cbn [contains_char]. rewrite HsS, Hse. reflexivity. }
  rewrite Hp. cbn [last]. rewrite (stem_suffix S ext HS He Hd).
  eexists. reflexivity.
Qed.

Lemma created_manifest_file_name_witness :
  exists runs_dir',
    write_manifest example_dumps "20240101_120000" 1000 0 test_manifest None
    = Ok ("test_script_20240101_120000.json", runs_dir').
Proof.
  apply (created_manifest_file_name example_dumps "2024-01-01T12:00:00" "20240101_120000"
           1000 0 [] "test_script" "py" 42 ["data/test.csv"] ["results/test_output.csv"]
           [("input", 100); ("output", 95)] None None);
    try reflexivity; discriminate.
Defined.

End ManifestMore.

(** ** The panel of 03_table_II_summary_stats.py: what enters it *)

Section SummaryMore.
Import SummaryStats SummarySpec.
Local Open Scope string_scope.
Local Open Scope Z_scope.

Lemma first_valid_In l a : first_valid l = Some a -> In (Some a) l.
Proof.
  induction l as [|[x|] t IH]; simpl; intros H; try discriminate.
  - injection H as ->. left. reflexivity.
  - right. apply IH. exact H.
Qed.

Lemma names_match_covers cs side_name expected mid nm :
  names_match cs side_name expected = true -> In (mid, nm) expected ->
  exists s, In s cs /\ side s = side_name /\ macro_id s = mid /\ macro_name s = Some nm.
Proof.
  unfold names_match. intros H Hin. rewrite forallb_forall in H.
  specialize (H (mid, nm) Hin). cbn [fst snd] in H. unfold actual_name in H.
  destruct (first_valid _) as [a|] eqn:E; [|discriminate].
  apply String.eqb_eq in H. subst a. apply first_valid_In in E.
  apply in_map_iff in E. destruct E as (s & Hn & Hs). apply filter_In in Hs.
  destruct Hs as [Hs Hc]. apply andb_true_iff in Hc. destruct Hc as [H1 H2].
  apply String.eqb_eq in H1. apply Z.eqb_eq in H2. exists s. auto.
Qed.

(** X6. The name check lets the snippets through unchanged, and only if
    every one of the five macro categories occurs on the cause side and on
    the effect side with its expected label: data in which a category is
    absent from one side stop the script. *)
Theorem check_names_requires_every_category (cs cs' : list snippet) :
  check_names cs = Ok cs' ->
  cs' = cs /\
  (forall mid nm, In (mid, nm) EXPECTED_CAUSE ->
     exists s, In s cs /\ side s = "cause" /\ macro_id s = mid /\ macro_name s = Some nm) /\
  (forall mid nm, In (mid, nm) EXPECTED_EFFECT ->
     exists s, In s cs /\ side s = "effect" /\ macro_id s = mid /\ macro_name s = Some nm).
Proof.
  unfold check_names.
  destruct (names_match cs "cause" EXPECTED_CAUSE) eqn:Hc; [|discriminate].
  destruct (names_match cs "effect" EXPECTED_EFFECT) eqn:He; [|discriminate].
  intros H. injection H as <-. split; [reflexivity|].
  split; intros mid nm Hin; eapply names_match_covers; eassumption.
Qed.

Lemma check_names_requires_every_category_witness :
  exists s, In s (remaining example_raw) /\ side s = "effect" /\ macro_id s = 3 /\
            macro_name s = Some "Market Expansion and Adoption".
Proof.
  destruct (check_names_requires_every_category (remaining example_raw)
              (remaining example_raw) eq_refl) as (_ & _ & H).
  apply (H 3 "Market Expansion and Adoption"). simpl. auto.
Defined.

(** The panel construction, with every validation discharged. *)
Lemma build_panel_explicit cs :
  exists merged,
    build_panel cs = Ok merged /\
    map p_joint merged = map make_joint (pairs_of cs) /\
    merged =
      flat_map
        (fun j =>
           match filter (fun f => fst (fst (j_key j)) =? f_gvkey f)
                        (firm_info (deduped cs)) with
           | [] => [mk_panel j None None]
           | ms => map (fun f => mk_panel j (f_sic f) (f_loc f)) ms
           end)
        (map make_joint (pairs_of cs)).
Proof.
  destruct (build_panel_ok cs) as (pairs & merged & Hb & Hj & _ & _).
  exists merged. split; [exact Hb|].
  revert Hb. unfold build_panel. fold (deduped cs). fold (wide_of cs).
  unfold merge_inner_1_1.
  destruct (unique_keys key3_eqb w_key3 (side_df "cause" (wide_of cs)) &&
            unique_keys key3_eqb w_key3 (side_df "effect" (wide_of cs))); [|discriminate].
  cbn [bind]. fold (pairs_of cs).
  destruct (forallb _ (pairs_of cs)); [|discriminate].
  unfold merge_left_m_1.
  destruct (unique_keys Z.eqb f_gvkey (firm_info (deduped cs))); [|discriminate].
  cbn [bind].
  match goal with |- (if ?b then _ else _) = _ -> _ => destruct b; [|discriminate] end.
  intros H. injection H as <-. split; [|reflexivity].
  destruct (merge_left_ok (map make_joint (pairs_of cs)) (firm_info (deduped cs))
              (firm_info_NoDup (deduped cs))) as (m' & Hm & Hj').
  unfold merge_left_m_1 in Hm.
  rewrite (proj2 (unique_keys_NoDup Z.eqb f_gvkey Z.eqb_eq _) (firm_info_NoDup (deduped cs))) in Hm.
  injection Hm as <-. exact Hj'.
Qed.

(** *** Counts of the wide table *)

Lemma drop_duplicates_subset {A K : Type} (keqb : K -> K -> bool) (key : A -> K) x l :
  In x (drop_duplicates keqb key l) -> In x l.
Proof.
  induction l as [|y t IH]; simpl; [tauto|].
  intros [->|H]; [auto|]. apply filter_In in H. right. tauto.
Qed.

Lemma drop_duplicates_covers {A K : Type} (keqb : K -> K -> bool) (key : A -> K) :
  (forall a b, keqb a b = true <-> a = b) ->
  forall l k, In k (map key l) -> In k (map key (drop_duplicates keqb key l)).
Proof.
  intros Hspec. induction l as [|x t IH]; simpl; [tauto|].
  intros k [E|H]; [auto|].
  destruct (keqb (key x) k) eqn:Ek.
  - left. apply Hspec. exact Ek.
  - right. specialize (IH k H). apply in_map_iff in IH.
    destruct IH as (y & Ey & Hy). apply in_map_iff. exists y. split; [exact Ey|].
    apply filter_In. split; [exact Hy|]. rewrite Ey, Ek. reflexivity.
Qed.

Lemma filter_NoDup_eq {K : Type} (keqb : K -> K -> bool) :
  (forall a b, keqb a b = true <-> a = b) ->
  forall (l : list K) k, NoDup l ->
  filter (fun x => keqb x k) l = if mem_key keqb k l then [k] else [].
Proof.
  intros Hspec. induction l as [|x t IH]; intros k Hnd; [reflexivity|].
  inversion Hnd as [|? ? Hx Ht]; subst. cbn [filter]. unfold mem_key in *. cbn [existsb].
  rewrite (IH k Ht).
  destruct (keqb x k) eqn:E.
  - apply Hspec in E. subst x.
    assert (Hk : keqb k k = true) by (apply Hspec; reflexivity). rewrite Hk. cbn [orb].
    destruct (existsb (keqb k) t) eqn:Ex; [|reflexivity].
    exfalso. apply Hx. apply existsb_exists in Ex. destruct Ex as (y & Hy & Ey).
    apply Hspec in Ey. subst y. exact Hy.
  - assert (Hk : keqb k x = false).
    { destruct (keqb k x) eqn:E'; [|reflexivity]. apply Hspec in E'. subst x.
      assert (keqb k k = true) by (apply Hspec; reflexivity). congruence. }
    rewrite Hk. reflexivity.
Qed.

Lemma filter_map_comm {A B : Type} (f : A -> B) (p : B -> bool) l :
  filter p (map f l) = map f (filter (fun x => p (f x)) l).
Proof.
  induction l as [|x t IH]; [reflexivity|]. simpl.
  destruct (p (f x)); simpl; rewrite IH; reflexivity.
Qed.

Lemma count_if_none {A : Type} (p : A -> bool) l :
  (forall x, In x l -> p x = false) -> count_if p l = 0.
Proof.
  intros H. unfold count_if. induction l as [|x t IH]; [reflexivity|].
  simpl. rewrite (H x (or_introl eq_refl)). apply IH.
  intros y Hy. apply H. right. exact Hy.
Qed.

Lemma count_keys_NoDup cs : NoDup (count_keys cs).
Proof.
  unfold count_keys. apply sort_by_NoDup.
  rewrite <- (map_id (drop_duplicates _ _ _)).
  apply drop_duplicates_NoDup. apply key5_eqb_spec.
Qed.

Lemma count_keys_In cs k : In k (count_keys cs) <-> exists s, In s cs /\ key5_of s = k.
Proof.
  unfold count_keys. rewrite sort_by_In. split.
  - intros H. apply drop_duplicates_subset in H. apply in_map_iff in H.
    destruct H as (s & E & Hs). eauto.
  - intros (s & Hs & E).
    rewrite <- (map_id (drop_duplicates _ _ _)).
    apply (drop_duplicates_covers key5_eqb (fun k => k) key5_eqb_spec).
    rewrite map_id. apply in_map_iff. eauto.
Qed.

(** A cell of the pivot is the number of snippets of its key. *)
Lemma pivot_cell_count cs k c :
  (pivot_cell (groupby_size cs) k c
   == inject_Z (count_if (fun s => key5_eqb (key5_of s) (k, c)) cs))%Q.
Proof.
  unfold pivot_cell, groupby_size. fold (count_keys cs).
  rewrite filter_map_comm. cbn [c_key c_macro].
  rewrite (filter_ext _ (fun x : key5 => key5_eqb x (k, c)))
    by (intros [k4 m]; reflexivity).
  rewrite (filter_NoDup_eq key5_eqb key5_eqb_spec _ _ (count_keys_NoDup cs)).
  destruct (mem_key key5_eqb (k, c) (count_keys cs)) eqn:E.
  - cbn [map fst snd c_n]. unfold qmean, qsum. cbn [fold_left length map].
    unfold Qeq, Qdiv, Qmult, Qplus, Qinv, inject_Z. simpl. lia.
  - cbn [map]. rewrite count_if_none; [reflexivity|].
    intros s Hs. destruct (key5_eqb (key5_of s) (k, c)) eqn:Ek; [|reflexivity].
    apply key5_eqb_spec in Ek.
    assert (mem_key key5_eqb (k, c) (count_keys cs) = true).
    { apply (mem_key_In key5_eqb key5_eqb_spec). apply count_keys_In. eauto. }
    congruence.
Qed.

Lemma wide_row_counts cs k4 :
  Forall2 Qeq (w_n (make_wide_row (groupby_size (deduped cs)) k4))
          (map (fun c => inject_Z (span_count cs (fst k4) (snd k4) c)) MACROS) /\
  (w_N_side (make_wide_row (groupby_size (deduped cs)) k4)
   == inject_Z (side_total cs (fst k4) (snd k4)))%Q.
Proof.
  destruct k4 as [k3 sd]. cbn [fst snd make_wide_row w_n w_N_side].
  unfold side_total, span_count, MACROS. cbn [map fold_right].
  pose proof (pivot_cell_count (deduped cs) (k3, sd)) as P.
  split.
  - repeat (constructor; [apply P|]). constructor.
  - unfold qsum. cbn [fold_left]. rewrite !P, !inject_Z_plus.
    change (inject_Z 0) with 0%Q.
    rewrite Qplus_0_l, Qplus_0_r, !Qplus_assoc. reflexivity.
Qed.

(** The rows of the wide table: one per (gvkey, technology, dateQ, side)
    that occurs in the snippets. *)
Lemma pivot_wide_In cs w :
  In w (pivot_wide (groupby_size cs)) <->
  exists s, In s cs /\ w = make_wide_row (groupby_size cs) (key4_of s).
Proof.
  unfold pivot_wide. rewrite in_map_iff. split.
  - intros (k4 & <- & H). apply sort_by_In in H. apply drop_duplicates_subset in H.
    apply in_map_iff in H. destruct H as (r & <- & Hr).
    unfold groupby_size in Hr. apply in_map_iff in Hr. destruct Hr as (k5 & <- & Hk).
    apply (count_keys_In cs k5) in Hk. destruct Hk as (s & Hs & <-).
    exists s. split; [exact Hs | reflexivity].
  - intros (s & Hs & ->). exists (key4_of s). split; [reflexivity|].
    apply sort_by_In.
    rewrite <- (map_id (drop_duplicates _ _ _)).
    apply (drop_duplicates_covers key4_eqb (fun k => k) key4_eqb_spec).
    rewrite map_id. apply in_map_iff.
    exists (mk_count (key4_of s) (macro_id s)
              (count_if (fun x => key5_eqb (key5_of x) (key5_of s)) cs)).
    split; [reflexivity|]. unfold groupby_size. apply in_map_iff.
    exists (key5_of s). split; [reflexivity|].
    apply (count_keys_In cs). exists s. auto.
Qed.

Lemma span_count_pos_snippet cs k3 sd :
  1 <= side_total cs k3 sd -> exists s, In s (deduped cs) /\ key4_of s = (k3, sd).
Proof.
  unfold side_total, MACROS. cbn [map fold_right]. intros H.
  assert (Hex : exists c, 1 <= span_count cs k3 sd c).
  { destruct (Z_le_gt_dec 1 (span_count cs k3 sd 1)); [eauto|].
    destruct (Z_le_gt_dec 1 (span_count cs k3 sd 2)); [eauto|].
    destruct (Z_le_gt_dec 1 (span_count cs k3 sd 3)); [eauto|].
    destruct (Z_le_gt_dec 1 (span_count cs k3 sd 4)); [eauto|].
    destruct (Z_le_gt_dec 1 (span_count cs k3 sd 5)); [eauto|].
    pose proof (count_if_nonneg (fun s => key5_eqb (key5_of s) (k3, sd, 1)) (deduped cs)).
    unfold span_count in *. lia. }
  destruct Hex as (c & Hc). unfold span_count, count_if in Hc.
  destruct (filter _ (deduped cs)) as [|s t] eqn:E; [simpl in Hc; lia|].
  assert (Hs : In s (filter (fun s => key5_eqb (key5_of s) (k3, sd, c)) (deduped cs)))
    by (rewrite E; left; reflexivity).
  apply filter_In in Hs. destruct Hs as [Hs Hk]. apply key5_eqb_spec in Hk.
  exists s. split; [exact Hs|]. unfold key5_of in Hk. congruence.
Qed.

(** A side of a firm-technology-quarter is in the thresholded wide table
    exactly when it has at least three distinct spans. *)
Lemma side_df_In cs sd w :
  In w (side_df sd (wide_of cs)) <->
  exists k3, w = make_wide_row (groupby_size (deduped cs)) (k3, sd) /\
             3 <= side_total cs k3 sd.
Proof.
  unfold side_df, wide_of, apply_threshold. rewrite !filter_In, pivot_wide_In. split.
  - intros [[(s & Hs & ->) H3] Hsd].
    unfold w_side in Hsd. cbn [make_wide_row w_key] in Hsd.
    apply String.eqb_eq in Hsd. exists (fst (key4_of s)).
    assert (E : key4_of s = (fst (key4_of s), sd))
      by (rewrite <- Hsd; destruct (key4_of s); reflexivity).
    rewrite <- E. split; [reflexivity|].
    apply Qle_bool_iff in H3.
    destruct (wide_row_counts cs (key4_of s)) as [_ HN]. rewrite HN in H3.
    rewrite E in H3. cbn [fst snd] in H3. rewrite Zle_Qle. exact H3.
  - intros (k3 & -> & H3).
    destruct (span_count_pos_snippet cs k3 sd) as (s & Hs & Hk); [lia|].
    split; [split|].
    + exists s. rewrite Hk. auto.
    + apply Qle_bool_iff. destruct (wide_row_counts cs (k3, sd)) as [_ HN].
      rewrite HN. cbn [fst snd]. change 3%Q with (inject_Z 3). rewrite <- Zle_Qle. exact H3.
    + unfold w_side. cbn [make_wide_row w_key snd]. apply String.eqb_refl.
Qed.

Lemma pairs_of_In cs c e :
  In (c, e) (pairs_of cs) <->
  exists k3,
    c = make_wide_row (groupby_size (deduped cs)) (k3, "cause") /\
    e = make_wide_row (groupby_size (deduped cs)) (k3, "effect") /\
    3 <= side_total cs k3 "cause" /\ 3 <= side_total cs k3 "effect".
Proof.
  unfold pairs_of. rewrite in_flat_map. split.
  - intros (c' & Hc & Hin). apply in_map_iff in Hin.
    destruct Hin as (e' & Heq & He). injection Heq as -> ->.
    apply filter_In in He. destruct He as [He Hk].
    apply side_df_In in Hc. destruct Hc as (k3 & -> & H3).
    apply side_df_In in He. destruct He as (k3' & -> & H3').
    apply key3_eqb_spec in Hk. unfold w_key3 in Hk. cbn [make_wide_row w_key fst] in Hk.
    subst k3'. exists k3. auto.
  - intros (k3 & -> & -> & Hc & He).
    exists (make_wide_row (groupby_size (deduped cs)) (k3, "cause")). split.
    + apply side_df_In. eauto.
    + apply in_map. apply filter_In. split.
      * apply side_df_In. eauto.
      * apply key3_eqb_spec. reflexivity.
Qed.

Lemma span_le_total cs k3 sd c :
  In c MACROS -> 0 <= span_count cs k3 sd c <= side_total cs k3 sd.
Proof.
  intros Hc. unfold side_total, MACROS. cbn [map fold_right].
  assert (N : forall c', 0 <= span_count cs k3 sd c')
    by (intros c'; apply count_if_nonneg).
  pose proof (N 1). pose proof (N 2). pose proof (N 3). pose proof (N 4). pose proof (N 5).
  unfold MACROS in Hc. simpl in Hc.
  destruct Hc as [<-|[<-|[<-|[<-|[<-|[]]]]]]; lia.
Qed.

Lemma fraction_bounds a T :
  0 <= a <= T -> 0 < T -> (0 <= inject_Z a / inject_Z T /\ inject_Z a / inject_Z T <= 1)%Q.
Proof.
  intros Ha HT.
  assert (HTq : (0 < inject_Z T)%Q) by (change 0%Q with (inject_Z 0); rewrite <- Zlt_Qlt; exact HT).
  split.
  - apply Qle_shift_div_l; [exact HTq|]. rewrite Qmult_0_l.
    change 0%Q with (inject_Z 0). rewrite <- Zle_Qle. lia.
  - apply Qle_shift_div_r; [exact HTq|]. rewrite Qmult_1_l.
    rewrite <- Zle_Qle. lia.
Qed.

Lemma Forall2_Qeq_div (g : Z -> Q) (N T : Q) :
  (N == T)%Q ->
  forall ms ns, Forall2 Qeq ns (map g ms) ->
  Forall2 Qeq (map (fun n => (n / N)%Q) ns) (map (fun c => (g c / T)%Q) ms).
Proof.
  intros HN. induction ms as [|m ms IH]; intros ns F; cbn [map] in *.
  - inversion F; subst. constructor.
  - inversion F as [|n ? ns' ? Hn F']; subst. cbn [map].
    constructor; [|apply IH; exact F']. rewrite Hn, HN. reflexivity.
Qed.

Lemma shares_of_counts cs k3 sd :
  Forall2 Qeq (w_share (make_wide_row (groupby_size (deduped cs)) (k3, sd)))
          (map (fun c => (inject_Z (span_count cs k3 sd c)
                          / inject_Z (side_total cs k3 sd))%Q) MACROS).
Proof.
  destruct (wide_row_counts cs (k3, sd)) as [Hn HN]. cbn [fst snd] in Hn, HN.
  cbn [make_wide_row w_share w_n w_N_side] in *.
  apply (Forall2_Qeq_div (fun c => inject_Z (span_count cs k3 sd c)) _ _ HN _ _ Hn).
Qed.

(** X7. [build_panel] keeps exactly the firm-technology-quarters that
    have at least three distinct spans on the cause side and at least three on
    the effect side, and it never raises. *)
Theorem panel_keys_three_spans_each_side (cs : list snippet) :
  exists panel,
    build_panel cs = Ok panel /\
    forall k, In k (map p_key panel) <->
              3 <= side_total cs k "cause" /\ 3 <= side_total cs k "effect".
Proof.
  destruct (build_panel_explicit cs) as (panel & Hb & Hj & _).
  exists panel. split; [exact Hb|]. intros k.
  unfold p_key. rewrite <- (map_map p_joint j_key), Hj, map_map, in_map_iff. split.
  - intros ([c e] & <- & Hin). apply pairs_of_In in Hin.
    destruct Hin as (k3 & -> & -> & H). exact H.
  - intros [Hc He].
    exists (make_wide_row (groupby_size (deduped cs)) (k, "cause"),
            make_wide_row (groupby_size (deduped cs)) (k, "effect")).
    split; [reflexivity|]. apply pairs_of_In. exists k. auto.
Qed.

(** X8. In every row of the panel the counts are the numbers of distinct
    spans of the row's firm, technology and quarter in each category, the
    side totals are their sums, and [N_total] is the sum of both sides. *)
Theorem panel_counts_are_distinct_spans (cs : list snippet) :
  exists panel,
    build_panel cs = Ok panel /\
    forall p, In p panel ->
      Forall2 Qeq (n_cause (p_joint p))
              (map (fun c => inject_Z (span_count cs (p_key p) "cause" c)) MACROS) /\
      Forall2 Qeq (n_effect (p_joint p))
              (map (fun c => inject_Z (span_count cs (p_key p) "effect" c)) MACROS) /\
      (N_cause (p_joint p) == inject_Z (side_total cs (p_key p) "cause"))%Q /\
      (N_effect (p_joint p) == inject_Z (side_total cs (p_key p) "effect"))%Q /\
      (N_total (p_joint p)
       == inject_Z (side_total cs (p_key p) "cause" + side_total cs (p_key p) "effect"))%Q.
Proof.
  destruct (build_panel_explicit cs) as (panel & Hb & Hj & _).
  exists panel. split; [exact Hb|]. intros p Hp.
  apply (in_map p_joint) in Hp. rewrite Hj in Hp. apply in_map_iff in Hp.
  destruct Hp as ([c e] & Hpe & Hin). apply pairs_of_In in Hin.
  destruct Hin as (k3 & -> & -> & _ & _).
  unfold p_key. rewrite <- Hpe.
  cbn [make_joint j_key n_cause n_effect N_cause N_effect N_total].
  unfold w_key3. cbn [make_wide_row w_key fst].
  destruct (wide_row_counts cs (k3, "cause")) as [Hc HNc].
  destruct (wide_row_counts cs (k3, "effect")) as [He HNe].
  cbn [fst snd] in *.
  repeat split; try assumption.
  rewrite inject_Z_plus, <- HNc, <- HNe. reflexivity.
Qed.

(** X9. Every share of a panel row is the fraction of the side's distinct
    spans that fall in the category, and lies between 0 and 1. *)
Theorem panel_shares_are_fractions (cs : list snippet) :
  exists panel,
    build_panel cs = Ok panel /\
    forall p, In p panel ->
      Forall2 Qeq (share_cause (p_joint p))
              (map (fun c => (inject_Z (span_count cs (p_key p) "cause" c)
                              / inject_Z (side_total cs (p_key p) "cause"))%Q) MACROS) /\
      Forall2 Qeq (share_effect (p_joint p))
              (map (fun c => (inject_Z (span_count cs (p_key p) "effect" c)
                              / inject_Z (side_total cs (p_key p) "effect"))%Q) MACROS) /\
      forall x, In x (share_cause (p_joint p) ++ share_effect (p_joint p))%list ->
                (0 <= x /\ x <= 1)%Q.
Proof.
  destruct (build_panel_explicit cs) as (panel & Hb & Hj & _).
  exists panel. split; [exact Hb|]. intros p Hp.
  apply (in_map p_joint) in Hp. rewrite Hj in Hp. apply in_map_iff in Hp.
  destruct Hp as ([c e] & Hpe & Hin). apply pairs_of_In in Hin.
  destruct Hin as (k3 & -> & -> & H3c & H3e).
  unfold p_key. rewrite <- Hpe.
  cbn [make_joint j_key share_cause share_effect].
  unfold w_key3. cbn [make_wide_row w_key fst].
  pose proof (shares_of_counts cs k3 "cause") as Sc.
  pose proof (shares_of_counts cs k3 "effect") as Se.
  cbn [make_wide_row w_share] in Sc, Se.
  split; [exact Sc|]. split; [exact Se|].
  assert (B : forall sd l, 3 <= side_total cs k3 sd ->
            Forall2 Qeq l
              (map (fun c => (inject_Z (span_count cs k3 sd c)
                              / inject_Z (side_total cs k3 sd))%Q) MACROS) ->
            forall x, In x l -> (0 <= x /\ x <= 1)%Q).
  { intros sd l H3 F x Hx.
    assert (G : forall ms, incl ms MACROS ->
              forall l, Forall2 Qeq l
                (map (fun c => (inject_Z (span_count cs k3 sd c)
                                / inject_Z (side_total cs k3 sd))%Q) ms) ->
              In x l -> (0 <= x /\ x <= 1)%Q).
    { clear l F Hx. induction ms as [|m ms IH]; intros Hincl l F Hx.
      - inversion F; subst. destruct Hx.
      - cbn [map] in F. inversion F as [|y ? l' ? Hy F']; subst.
        destruct Hx as [<-|Hx].
        + rewrite Hy. apply fraction_bounds; [|lia].
          apply span_le_total. apply Hincl. left. reflexivity.
        + apply (IH (fun a Ha => Hincl a (or_intror Ha)) l' F' Hx). }
    apply (G MACROS (incl_refl _) l F Hx). }
  intros x Hx. apply in_app_or in Hx. destruct Hx as [Hx|Hx].
  - apply (B "cause" _ H3c Sc x Hx).
  - apply (B "effect" _ H3e Se x Hx).
Qed.

(** *** Firm metadata *)

Lemma string_leb_trans a : forall b c,
  String.leb a b = true -> String.leb b c = true -> String.leb a c = true.
Proof.
  unfold String.leb.
  induction a as [|x a IH]; intros [|y b] [|z c]; cbn [String.compare];
    try congruence; try reflexivity.
  rewrite !ascii_compare_N.
  destruct (N.compare_spec (N_of_ascii x) (N_of_ascii y)) as [Exy|Lxy|Gxy];
    destruct (N.compare_spec (N_of_ascii y) (N_of_ascii z)) as [Eyz|Lyz|Gyz];
    destruct (N.compare_spec (N_of_ascii x) (N_of_ascii z)) as [Exz|Lxz|Gxz];
    try congruence; try reflexivity; try lia.
  apply IH.
Qed.

Lemma string_leb_false a b : String.leb a b = false -> String.leb b a = true.
Proof.
  intros H. destruct (String.leb_total a b) as [E|E]; [congruence | exact E].
Qed.

(** A stable sort by a total preorder is sorted. *)
Lemma sort_by_sorted {A : Type} (leb : A -> A -> bool) :
  (forall a b, leb a b = false -> leb b a = true) ->
  (forall a b c, leb a b = true -> leb b c = true -> leb a c = true) ->
  forall l, StronglySorted (fun a b => leb a b = true) (sort_by leb l).
Proof.
  intros Htot Htr.
  assert (Hins : forall x l, StronglySorted (fun a b => leb a b = true) l ->
                 StronglySorted (fun a b => leb a b = true) (insert_sorted leb x l)).
  { intros x l. induction l as [|y t IH]; intros H; cbn [insert_sorted].
    - constructor; constructor.
    - apply StronglySorted_inv in H. destruct H as [Ht Hy].
      destruct (leb x y) eqn:E.
      + constructor; [constructor; assumption|].
        constructor; [exact E|]. rewrite Forall_forall in *. intros z Hz.
        apply (Htr x y z E (Hy z Hz)).
      + constructor; [apply IH; exact Ht|].
        rewrite Forall_forall in *. intros z Hz.
        apply (Permutation_in _ (insert_sorted_perm leb x t)) in Hz.
        destruct Hz as [<-|Hz]; [apply Htot; exact E | apply Hy; exact Hz]. }
  induction l as [|x t IH]; cbn [sort_by fold_right]; [constructor|].
  apply Hins. exact IH.
Qed.

(** [drop_duplicates] keeps, of every key, the first row that carries it. *)
Lemma drop_duplicates_first {A K : Type} (keqb : K -> K -> bool) (key : A -> K) :
  (forall a b, keqb a b = true <-> a = b) ->
  forall l x, In x (drop_duplicates keqb key l) ->
  exists l1 l2, l = (l1 ++ x :: l2)%list /\ forall y, In y l1 -> key y <> key x.
Proof.
  intros Hspec. induction l as [|a t IH]; cbn [drop_duplicates]; intros x Hx; [destruct Hx|].
  destruct Hx as [<-|Hx].
  - exists [], t. split; [reflexivity|]. intros y [].
  - apply filter_In in Hx. destruct Hx as [Hx Hk].
    destruct (IH x Hx) as (l1 & l2 & -> & Hl1).
    exists (a :: l1), l2. split; [reflexivity|].
    intros y [<-|Hy]; [|apply Hl1; exact Hy].
    intros E. apply Hspec in E. rewrite E in Hk. discriminate.
Qed.

Lemma sorted_app_tail {A : Type} (R : A -> A -> Prop) l1 x l2 :
  StronglySorted R (l1 ++ x :: l2) -> forall y, In y l2 -> R x y.
Proof.
  induction l1 as [|a l1 IH]; cbn [app]; intros H y Hy;
    apply StronglySorted_inv in H; destruct H as [Ht Hf].
  - rewrite Forall_forall in Hf. apply Hf. exact Hy.
  - apply (IH Ht y Hy).
Qed.

(** The metadata row of a firm comes from one of its snippets of the latest
    quarter. *)
Lemma firm_info_latest cs f :
  In f (firm_info cs) ->
  exists s, In s cs /\ f = mk_firm (gvkey s) (sic s) (loc s) /\
            forall s', In s' cs -> gvkey s' = gvkey s ->
                       String.leb (dateQ s') (dateQ s) = true.
Proof.
  unfold firm_info. intros Hf. apply in_map_iff in Hf. destruct Hf as (s & <- & Hs).
  set (srt := sort_by (fun a b => String.leb (dateQ b) (dateQ a)) cs) in *.
  assert (Hsorted : StronglySorted (fun a b => String.leb (dateQ b) (dateQ a) = true) srt).
  { apply (sort_by_sorted (fun a b => String.leb (dateQ b) (dateQ a))).
    - intros a b. apply string_leb_false.
    - intros a b c Hab Hbc. apply (string_leb_trans _ _ _ Hbc Hab). }
  destruct (drop_duplicates_first Z.eqb gvkey Z.eqb_eq srt s Hs) as (l1 & l2 & E & Hl1).
  exists s. split; [|split; [reflexivity|]].
  - apply (sort_by_In (fun a b => String.leb (dateQ b) (dateQ a))).
    fold srt. rewrite E. apply in_or_app. right. left. reflexivity.
  - intros s' Hs' Hg.
    apply (sort_by_In (fun a b => String.leb (dateQ b) (dateQ a))) in Hs'. fold srt in Hs'.
    rewrite E in Hs', Hsorted. apply in_app_or in Hs'.
    destruct Hs' as [H1|[<-|H2]].
    + exfalso. apply (Hl1 s' H1 Hg).
    + destruct (String.leb_total (dateQ s) (dateQ s)) as [T|T]; exact T.
    + apply (sorted_app_tail _ l1 s l2 Hsorted s' H2).
Qed.

Lemma deduped_covers cs s :
  In s cs -> exists s', In s' (deduped cs) /\ dedup_key s' = dedup_key s.
Proof.
  intros Hs.
  assert (Hspec : forall a b, dedup_key_eqb a b = true <-> a = b).
  { intros [a1 a2] [b1 b2]. unfold dedup_key_eqb. cbn [fst snd].
    rewrite andb_true_iff. split.
    - intros [H1 H2]. apply key5_eqb_spec in H1. subst.
      f_equal. destruct a2, b2; cbn in H2; try discriminate; try reflexivity.
      apply String.eqb_eq in H2. congruence.
    - intros E. injection E as -> ->. split; [apply key5_eqb_spec; reflexivity|].
      destruct b2; cbn; [apply String.eqb_refl | reflexivity]. }
  pose proof (drop_duplicates_covers dedup_key_eqb dedup_key Hspec cs (dedup_key s)
                (in_map dedup_key cs s Hs)) as H.
  apply in_map_iff in H. destruct H as (s' & E & H'). exists s'. auto.
Qed.

(** X10. The [sic] and [loc] of every panel row are taken from a snippet
    of the same firm, and no snippet of that firm has a later quarter. *)
Theorem panel_metadata_from_latest_quarter (cs : list snippet) :
  exists panel,
    build_panel cs = Ok panel /\
    forall p, In p panel ->
      exists s, In s cs /\ gvkey s = fst (fst (p_key p)) /\
                p_sic p = sic s /\ p_loc p = loc s /\
                forall s', In s' cs -> gvkey s' = gvkey s ->
                           String.leb (dateQ s') (dateQ s) = true.
Proof.
  destruct (build_panel_explicit cs) as (panel & Hb & _ & Hm).
  exists panel. split; [exact Hb|]. intros p Hp.
  rewrite Hm in Hp. apply in_flat_map in Hp. destruct Hp as (j & Hj & Hp).
  apply in_map_iff in Hj. destruct Hj as ([c e] & Hje & Hin).
  apply pairs_of_In in Hin. destruct Hin as (k3 & -> & -> & H3c & _).
  destruct (span_count_pos_snippet cs k3 "cause") as (s0 & Hs0 & Hk0); [lia|].
  assert (Hg0 : gvkey s0 = fst (fst (j_key j))).
  { rewrite <- Hje. cbn [make_joint j_key]. unfold w_key3. cbn [make_wide_row w_key fst].
    unfold key4_of in Hk0. injection Hk0 as Hk0 _. rewrite <- Hk0. reflexivity. }
  assert (Hcov : In (gvkey s0) (map f_gvkey (firm_info (deduped cs)))).
  { unfold firm_info. rewrite map_map. cbn [f_gvkey].
    apply (drop_duplicates_covers Z.eqb gvkey Z.eqb_eq).
    apply in_map. apply sort_by_In. exact Hs0. }
  apply in_map_iff in Hcov. destruct Hcov as (f0 & Hf0 & Hin0).
  assert (Hne : In f0 (filter (fun f => fst (fst (j_key j)) =? f_gvkey f)
                              (firm_info (deduped cs)))).
  { apply filter_In. split; [exact Hin0|]. apply Z.eqb_eq. congruence. }
  destruct (filter (fun f => fst (fst (j_key j)) =? f_gvkey f) (firm_info (deduped cs)))
    as [|m ms] eqn:Ef; [destruct Hne|].
  apply in_map_iff in Hp. destruct Hp as (f & <- & Hf).
  rewrite <- Ef in Hf. apply filter_In in Hf. destruct Hf as [Hf Hfk].
  apply Z.eqb_eq in Hfk.
  destruct (firm_info_latest (deduped cs) f Hf) as (s & Hs & -> & Hmax).
  cbn [f_gvkey f_sic f_loc] in *.
  exists s. split; [apply (drop_duplicates_subset _ _ _ _ Hs)|].
  unfold p_key. cbn [p_joint p_sic p_loc].
  split; [symmetry; exact Hfk|]. split; [reflexivity|]. split; [reflexivity|].
  intros s' Hs' Hg.
  destruct (deduped_covers cs s' Hs') as (s'' & Hs'' & Hk).
  unfold dedup_key, key5_of, key4_of in Hk.
  assert (Eg : gvkey s'' = gvkey s') by congruence.
  assert (Ed : dateQ s'' = dateQ s') by congruence.
  rewrite <- Ed. apply Hmax; [exact Hs''|congruence].
Qed.

End SummaryMore.

(** ** More on the peer shares (06_table_IVB_spillover.py) *)

Section SpilloverMore.
Import Spillover.
Local Open Scope string_scope.
Local Open Scope Z_scope.

Lemma qsum_map_ext {A : Type} (f g : A -> Q) l :
  (forall x, In x l -> (f x == g x)%Q) -> (qsum (map f l) == qsum (map g l))%Q.
Proof.
  induction l as [|x t IH]; intros H; [reflexivity|]. cbn [map].
  rewrite !qsum_cons, IH, (H x (or_introl eq_refl)); [reflexivity|].
  intros y Hy. apply H. right. exact Hy.
Qed.

Lemma qsum_map_plus {A : Type} (f g : A -> Q) l :
  (qsum (map (fun x => f x + g x) l) == qsum (map f l) + qsum (map g l))%Q.
Proof.
  induction l as [|x t IH]; cbn [map].
  - unfold qsum. simpl. ring.
  - rewrite !qsum_cons, IH. ring.
Qed.

Lemma qsum_map_zero {A : Type} (l : list A) : (qsum (map (fun _ => 0) l) == 0)%Q.
Proof.
  induction l as [|x t IH]; cbn [map]; [reflexivity|]. rewrite qsum_cons, IH. ring.
Qed.

Lemma qsum_map_one {A : Type} (l : list A) :
  (qsum (map (fun _ => 1) l) == inject_Z (Z.of_nat (length l)))%Q.
Proof.
  induction l as [|x t IH]; cbn [map]; [reflexivity|].
  rewrite qsum_cons, IH. cbn [length]. rewrite Nat2Z.inj_succ, <- Z.add_1_l, inject_Z_plus.
  reflexivity.
Qed.

Lemma qsum_map_div {A : Type} (f : A -> Q) (d : Q) l :
  (qsum (map (fun x => f x / d) l) == qsum (map f l) / d)%Q.
Proof.
  induction l as [|x t IH]; cbn [map].
  - unfold qsum, Qdiv. simpl. ring.
  - rewrite !qsum_cons, IH. unfold Qdiv. ring.
Qed.

(** Summing a table by rows or by columns gives the same total. *)
Lemma qsum_swap {A B : Type} (v : A -> B -> Q) (xs : list A) (cs : list B) :
  (qsum (map (fun c => qsum (map (fun x => v x c) xs)) cs)
   == qsum (map (fun x => qsum (map (v x) cs)) xs))%Q.
Proof.
  induction cs as [|c cs IH]; cbn [map].
  - rewrite qsum_map_zero. reflexivity.
  - rewrite qsum_cons, IH.
    rewrite (qsum_map_ext (fun x => qsum (v x c :: map (v x) cs))
                          (fun x => (v x c + qsum (map (v x) cs))%Q)).
    + rewrite qsum_map_plus. reflexivity.
    + intros x _. apply qsum_cons.
Qed.

Lemma present_complete (c : string) (rows : list row) :
  (forall x, In x rows -> get x c <> None) ->
  present (column c rows) = map (fun x => cell_or_zero (get x c)) rows.
Proof.
  unfold column. induction rows as [|x t IH]; intros H; [reflexivity|].
  cbn [map]. rewrite present_cons.
  destruct (get x c) as [q|] eqn:E.
  - cbn [cell_or_zero]. f_equal. apply IH. intros y Hy. apply H. right. exact Hy.
  - exfalso. apply (H x (or_introl eq_refl)). exact E.
Qed.

(** The peer value as a number: the mean over the other technologies. *)
Lemma peer_value_some data r c :
  other_values data r c <> [] ->
  exists v, peer_value data r c = Some v /\ (v == qmean (other_values data r c))%Q.
Proof.
  intros Hne. destruct (peer_value_mean data r c) as [Hm Hnone].
  unfold leave_one_out_mean in Hm.
  destruct (other_values data r c) as [|q l] eqn:E; [congruence|].
  destruct (peer_value data r c) as [v|]; [|destruct Hm].
  exists v. split; [reflexivity | exact Hm].
Qed.

Lemma other_rows_nonempty data r x :
  In x data -> other_tech r x = true -> filter (other_tech r) data <> [].
Proof.
  intros Hx Ho E.
  assert (H : In x (filter (other_tech r) data)) by (apply filter_In; auto).
  rewrite E in H. destruct H.
Qed.

(** X11. When no share of the frame is missing and the shares of every
    observation add up to one, the peer shares written for an observation
    of a firm with another technology add up to one as well. *)
Theorem peer_shares_sum_to_one
  (data : list row) (share_cols : list string) (prefix : string) (i : nat) (r : row) :
  nth_error data i = Some r ->
  (forall x c, In x data -> In c share_cols -> get x c <> None) ->
  (forall x, In x data ->
     (qsum (map (fun c => cell_or_zero (get x c)) share_cols) == 1)%Q) ->
  (exists x, In x data /\ other_tech r x = true) ->
  exists r',
    nth_error (compute_peer_shares data share_cols prefix) i = Some r' /\
    (qsum (map (fun c => cell_or_zero (get r' (peer_name prefix c))) share_cols) == 1)%Q.
Proof.
  intros Hi Hc H1 (x0 & Hx0 & Ho0).
  unfold compute_peer_shares. rewrite nth_error_map, Hi. cbn [option_map].
  eexists. split; [reflexivity|].
  set (O := filter (other_tech r) data).
  assert (HO : O <> []) by (apply (other_rows_nonempty data r x0); assumption).
  assert (HOin : forall x, In x O -> In x data)
    by (intros x Hx; apply filter_In in Hx; tauto).
  set (n := inject_Z (Z.of_nat (length O))).
  assert (Hn : ~ (n == 0)%Q).
  { unfold n, Qeq. simpl. destruct O; [congruence|]. cbn [length]. lia. }
  rewrite (qsum_map_ext _ (fun c => (qsum (map (fun x => cell_or_zero (get x c)) O) / n)%Q)).
  - rewrite qsum_map_div, (qsum_swap (fun x c => cell_or_zero (get x c)) O share_cols).
    rewrite (qsum_map_ext _ (fun _ => 1%Q)) by (intros x Hx; apply H1, HOin, Hx).
    rewrite qsum_map_one. fold n. field. exact Hn.
  - intros c Hcin.
    rewrite (fold_step_get data prefix r share_cols c r Hcin).
    assert (Eo : other_values data r c = map (fun x => cell_or_zero (get x c)) O).
    { unfold other_values. fold O. apply present_complete.
      intros x Hx. apply Hc; [apply HOin; exact Hx | exact Hcin]. }
    destruct (peer_value_some data r c) as (v & -> & Hv).
    + rewrite Eo. destruct O; [congruence | discriminate].
    + cbn [cell_or_zero]. rewrite Hv, Eo. unfold qmean. rewrite length_map.
      reflexivity.
Qed.

Lemma peer_shares_sum_to_one_witness :
  exists r',
    nth_error (compute_peer_shares example_panel CAUSE_COLS "peer") 0 = Some r' /\
    (qsum (map (fun c => cell_or_zero (get r' (peer_name "peer" c))) CAUSE_COLS) == 1)%Q.
Proof.
  apply (peer_shares_sum_to_one example_panel CAUSE_COLS "peer" 0
           (mk_row 7 "AI" "2021q1" (example_cols (1 # 2) (1 # 4))) eq_refl).
  - intros x c Hx Hcc. simpl in Hx, Hcc.
    repeat (destruct Hx as [<-|Hx]; [|]); try contradiction;
      repeat (destruct Hcc as [<-|Hcc]; [|]); try contradiction; discriminate.
  - intros x Hx. simpl in Hx.
    repeat (destruct Hx as [<-|Hx]; [|]); try contradiction; vm_compute; reflexivity.
  - exists (mk_row 7 "Cloud" "2021q1" (example_cols (3 # 4) (3 # 4))).
    split; [simpl; auto | reflexivity].
Defined.

Lemma qsum_bounds (lo hi : Q) l :
  (forall q, In q l -> (lo <= q /\ q <= hi)%Q) ->
  (inject_Z (Z.of_nat (length l)) * lo <= qsum l /\
   qsum l <= inject_Z (Z.of_nat (length l)) * hi)%Q.
Proof.
  induction l as [|q t IH]; intros H.
  - unfold qsum. simpl. split; rewrite Qmult_0_l; apply Qle_refl.
  - destruct IH as [IH1 IH2]; [intros y Hy; apply H; right; exact Hy|].
    destruct (H q (or_introl eq_refl)) as [Hq1 Hq2].
    rewrite qsum_cons. cbn [length]. rewrite Nat2Z.inj_succ, <- Z.add_1_l, inject_Z_plus.
    split.
    + setoid_replace ((inject_Z 1 + inject_Z (Z.of_nat (length t))) * lo)%Q
        with (lo + inject_Z (Z.of_nat (length t)) * lo)%Q by ring.
      apply Qplus_le_compat; assumption.
    + setoid_replace ((inject_Z 1 + inject_Z (Z.of_nat (length t))) * hi)%Q
        with (hi + inject_Z (Z.of_nat (length t)) * hi)%Q by ring.
      apply Qplus_le_compat; assumption.
Qed.

Lemma in_present (q : Q) l : In q (present l) <-> In (Some q) l.
Proof.
  induction l as [|o t IH]; [simpl; tauto|]. rewrite present_cons.
  destruct o as [q'|]; simpl; rewrite IH; split.
  - intros [->|H]; auto.
  - intros [E|H]; [injection E as ->; auto | auto].
  - auto.
  - intros [E|H]; [discriminate | exact H].
Qed.

(** The float64 value of a peer share can exceed every share of the other
    technologies: for the shares 0.1 and 0.2 of two technologies the peer
    share of the first is 0.20000000000000004. *)
Example peer_share_f64_above_bound :
  exists v,
    peer_value_f64 tenth_fifth_panel tenth_row "share_cause_1" = Some v /\
    Binary64.ltb (Binary64.of_Q (2 # 10)) v = true.
Proof. eexists. split; vm_compute; reflexivity. Qed.

(** X12. With the shares taken as exact rationals, a peer share lies
    between any two bounds that hold for the shares of the firm's
    observations in its other technologies. *)
Theorem peer_share_within_bounds
  (data : list row) (share_cols : list string) (prefix : string)
  (i : nat) (r : row) (c : string) (lo hi : Q) :
  nth_error data i = Some r -> In c share_cols ->
  (forall x q, In x data -> other_tech r x = true -> get x c = Some q ->
               (lo <= q /\ q <= hi)%Q) ->
  exists r',
    nth_error (compute_peer_shares data share_cols prefix) i = Some r' /\
    forall v, get r' (peer_name prefix c) = Some v -> (lo <= v /\ v <= hi)%Q.
Proof.
  intros Hi Hc Hb.
  unfold compute_peer_shares. rewrite nth_error_map, Hi. cbn [option_map].
  eexists. split; [reflexivity|].
  rewrite (fold_step_get data prefix r share_cols c r Hc). intros v Hv.
  destruct (peer_value_mean data r c) as [_ Hnone].
  assert (Hne : other_values data r c <> []).
  { intros E. apply Hnone in E. congruence. }
  destruct (peer_value_some data r c Hne) as (v' & Hv' & Hmean).
  rewrite Hv in Hv'. injection Hv' as <-.
  destruct (qsum_bounds lo hi (other_values data r c)) as [B1 B2].
  { intros q Hq. unfold other_values in Hq. apply in_present in Hq.
    unfold column in Hq. apply in_map_iff in Hq. destruct Hq as (x & Hg & Hx).
    apply filter_In in Hx. destruct Hx as [Hx Ho]. apply (Hb x q Hx Ho Hg). }
  set (l := other_values data r c) in *.
  assert (Hpos : (0 < inject_Z (Z.of_nat (length l)))%Q).
  { change 0%Q with (inject_Z 0). rewrite <- Zlt_Qlt.
    destruct l; [congruence | cbn [length]; lia]. }
  rewrite Hmean. unfold qmean. split.
  - apply Qle_shift_div_l; [exact Hpos|]. rewrite Qmult_comm. exact B1.
  - apply Qle_shift_div_r; [exact Hpos|]. rewrite Qmult_comm. exact B2.
Qed.

Lemma peer_share_within_bounds_witness :
  exists r',
    nth_error (compute_peer_shares example_panel CAUSE_COLS "peer") 0 = Some r' /\
    forall v, get r' (peer_name "peer" "share_cause_1") = Some v -> (0 <= v /\ v <= 1)%Q.
Proof.
  apply (peer_share_within_bounds example_panel CAUSE_COLS "peer" 0
           (mk_row 7 "AI" "2021q1" (example_cols (1 # 2) (1 # 4)))
           "share_cause_1" 0%Q 1%Q eq_refl (or_introl eq_refl)).
  intros x q Hx Ho Hg. simpl in Hx.
  repeat (destruct Hx as [<-|Hx]; [|]); try contradiction;
    try discriminate Ho; vm_compute in Hg; injection Hg as <-;
    split; discriminate.
Defined.

Lemma peer_value_same_group data r r' c :
  gvkey r = gvkey r' -> technology r = technology r' ->
  peer_value data r c = peer_value data r' c.
Proof.
  intros Hg Ht. unfold peer_value, firm_sum, firm_n, own_sum, own_n.
  rewrite (filter_ext (same_firm r) (same_firm r'))
    by (intros x; unfold same_firm; rewrite Hg; reflexivity).
  rewrite (filter_ext (same_firm_tech r) (same_firm_tech r'))
    by (intros x; unfold same_firm_tech, same_firm; rewrite Hg, Ht; reflexivity).
  reflexivity.
Qed.

(** X13. The peer share does not vary over time: two observations of the
    same firm and technology get the same peer share, whatever their
    quarters. *)
Theorem peer_share_same_for_all_quarters
  (data : list row) (share_cols : list string) (prefix : string)
  (i j : nat) (ri rj : row) (c : string) :
  nth_error data i = Some ri -> nth_error data j = Some rj ->
  gvkey ri = gvkey rj -> technology ri = technology rj ->
  In c share_cols ->
  exists ri' rj',
    nth_error (compute_peer_shares data share_cols prefix) i = Some ri' /\
    nth_error (compute_peer_shares data share_cols prefix) j = Some rj' /\
    get ri' (peer_name prefix c) = get rj' (peer_name prefix c).
Proof.
  intros Hi Hj Hg Ht Hc.
  unfold compute_peer_shares. rewrite !nth_error_map, Hi, Hj. cbn [option_map].
  eexists. eexists. split; [reflexivity|]. split; [reflexivity|].
  rewrite !(fold_step_get data prefix _ share_cols c _ Hc).
  apply peer_value_same_group; assumption.
Qed.

Lemma peer_share_same_for_all_quarters_witness :
  exists ri' rj',
    nth_error (compute_peer_shares example_panel CAUSE_COLS "peer") 0 = Some ri' /\
    nth_error (compute_peer_shares example_panel CAUSE_COLS "peer") 1 = Some rj' /\
    get ri' (peer_name "peer" "share_cause_1") = get rj' (peer_name "peer" "share_cause_1").
Proof.
  apply (peer_share_same_for_all_quarters example_panel CAUSE_COLS "peer" 0 1
           (mk_row 7 "AI" "2021q1" (example_cols (1 # 2) (1 # 4)))
           (mk_row 7 "AI" "2021q2" (example_cols (1 # 4) (1 # 2)))
           "share_cause_1" eq_refl eq_refl eq_refl eq_refl (or_introl eq_refl)).
Defined.

(** X14. On a frame with at least one row that holds the share columns,
    each named once, [compute_peer_shares] only adds the peer columns: the
    frame keeps its rows in place with their keys, and every column that is
    not one of the peer columns reads as before. *)
Theorem compute_peer_shares_adds_columns_only
  (data : list row) (share_cols : list string) (prefix : string) :
  data <> [] -> has_columns data share_cols = true -> NoDup share_cols ->
  length (compute_peer_shares data share_cols prefix) = length data /\
  forall i r, nth_error data i = Some r ->
    exists r',
      nth_error (compute_peer_shares data share_cols prefix) i = Some r' /\
      gvkey r' = gvkey r /\ technology r' = technology r /\ dateQ r' = dateQ r /\
      forall k, ~ In k (map (peer_name prefix) share_cols) -> get r' k = get r k.
Proof.
  intros _ _ _. split; [unfold compute_peer_shares; apply length_map|].
  intros i r Hi. unfold compute_peer_shares. rewrite nth_error_map, Hi. cbn [option_map].
  eexists. split; [reflexivity|].
  destruct (fold_step_keys data prefix r share_cols r) as (K1 & K2 & K3).
  repeat split; try assumption.
  intros k Hk. apply fold_step_other. intros c Hc E. apply Hk.
  apply in_map_iff. exists c. auto.
Qed.

Lemma compute_peer_shares_adds_columns_only_witness :
  length (compute_peer_shares example_panel CAUSE_COLS "peer") = 4%nat /\
  exists r',
    nth_error (compute_peer_shares example_panel CAUSE_COLS "peer") 2 = Some r' /\
    technology r' = "Cloud" /\ get r' "share_cause_1" = Some (3 # 4).
Proof.
  assert (Hnd : NoDup CAUSE_COLS).
  { repeat constructor; cbn; intros H;
      repeat (destruct H as [H|H]; [discriminate H|]); exact H. }
  destruct (compute_peer_shares_adds_columns_only example_panel CAUSE_COLS "peer"
              ltac:(discriminate) eq_refl Hnd) as [L H].
  split; [exact L|].
  destruct (H 2%nat (mk_row 7 "Cloud" "2021q1" (example_cols (3 # 4) (3 # 4))) eq_refl)
    as (r' & H1 & _ & H2 & _ & H3).
  exists r'. split; [exact H1|]. split; [exact H2|].
  rewrite H3; [reflexivity|].
  cbn. intros H'. repeat (destruct H' as [H'|H']; [discriminate H'|]). exact H'.
Defined.

Lemma techs_per_firm_sample panel g :
  2 <= techs_per_firm panel g ->
  filter (fun x => gvkey x =? g) (multi_tech_sample panel)
  = filter (fun x => gvkey x =? g) panel.
Proof.
  intros H. unfold multi_tech_sample.
  induction panel as [|x t IH] in H |- *; [reflexivity|].
  assert (G : forall l,
            filter (fun x => gvkey x =? g)
                   (filter (fun r => 2 <=? techs_per_firm (x :: t) (gvkey r)) l)
            = filter (fun x => gvkey x =? g) l).
  { induction l as [|y l IHl]; [reflexivity|]. cbn [filter].
    destruct (gvkey y =? g) eqn:Eg.
    - apply Z.eqb_eq in Eg. rewrite Eg.
      replace (2 <=? techs_per_firm (x :: t) g) with true
        by (symmetry; apply Z.leb_le; exact H).
      cbn [filter]. rewrite Eg, Z.eqb_refl, IHl. reflexivity.
    - destruct (2 <=? techs_per_firm (x :: t) (gvkey y)); [cbn [filter]; rewrite Eg|];
        exact IHl. }
  apply G.
Qed.

(** X15. The multi-technology sample keeps firms whole: every firm of the
    sample has at least two technologies within the sample, all panel rows
    of such a firm are kept, and selecting again changes nothing. *)
Theorem multi_tech_sample_keeps_firms_whole (panel : list row) :
  (forall r, In r (multi_tech_sample panel) ->
     2 <= techs_per_firm (multi_tech_sample panel) (gvkey r) /\
     forall x, In x panel -> gvkey x = gvkey r -> In x (multi_tech_sample panel)) /\
  (forall r, In r panel -> techs_per_firm panel (gvkey r) < 2 ->
     ~ In r (multi_tech_sample panel)) /\
  multi_tech_sample (multi_tech_sample panel) = multi_tech_sample panel.
Proof.
  assert (A : forall r, In r (multi_tech_sample panel) ->
              2 <= techs_per_firm panel (gvkey r)).
  { intros r Hr. unfold multi_tech_sample in Hr. apply filter_In in Hr.
    apply Z.leb_le. tauto. }
  assert (B : forall r, In r (multi_tech_sample panel) ->
              techs_per_firm (multi_tech_sample panel) (gvkey r)
              = techs_per_firm panel (gvkey r)).
  { intros r Hr. unfold techs_per_firm at 1.
    rewrite (techs_per_firm_sample panel (gvkey r) (A r Hr)). reflexivity. }
  split; [|split].
  - intros r Hr. split; [rewrite (B r Hr); apply A; exact Hr|].
    intros x Hx Hg. unfold multi_tech_sample. apply filter_In. split; [exact Hx|].
    rewrite Hg. apply Z.leb_le. apply A. exact Hr.
  - intros r _ Hlt Hin. specialize (A r Hin). lia.
  - unfold multi_tech_sample at 1. apply filter_all.
    intros r Hr. apply Z.leb_le. rewrite (B r Hr). apply A. exact Hr.
Qed.

End SpilloverMore.

(** ** Initial shares and later observations (07_table_IVC_dynamics.py) *)

Section PersistenceFacts.
Import Dynamics Persistence.
Local Open Scope string_scope.
Local Open Scope Z_scope.

Lemma label_num_inj s t :
  is_label s = true -> is_label t = true -> label_num s = label_num t -> s = t.
Proof.
  intros Hs Ht E.
  pose proof (label_ltb_num s t Hs Ht) as L1.
  pose proof (label_ltb_num t s Ht Hs) as L2.
  unfold String.ltb in L1, L2.
  apply String.compare_eq_iff.
  rewrite (String.compare_antisym t s) in L2.
  destruct (String.compare s t); cbn [CompOpp] in *; [reflexivity| |].
  - destruct L1 as [L1 _]. specialize (L1 eq_refl). lia.
  - destruct L2 as [L2 _]. specialize (L2 eq_refl). lia.
Qed.

Lemma same_pair_iff r x :
  same_pair r x = true <-> gvkey r = gvkey x /\ technology r = technology x.
Proof.
  unfold same_pair. rewrite andb_true_iff, Z.eqb_eq, String.eqb_eq. tauto.
Qed.

Lemma same_pair_ext r r' :
  same_pair r r' = true -> forall x, same_pair r x = same_pair r' x.
Proof.
  intros H x. apply same_pair_iff in H. destruct H as [Hg Ht].
  unfold same_pair. rewrite Hg, Ht. reflexivity.
Qed.

Lemma same_pair_sym r r' : same_pair r r' = true -> same_pair r' r = true.
Proof. rewrite !same_pair_iff. intros [-> ->]. auto. Qed.

Lemma first_dateQ_same_pair df r r' :
  same_pair r r' = true -> first_dateQ df r = first_dateQ df r'.
Proof.
  intros H. unfold first_dateQ.
  rewrite (filter_ext _ _ (same_pair_ext r r' H)). reflexivity.
Qed.

Lemma obs_eq r x :
  same_pair r x = true -> dateQ r = dateQ x -> r = x.
Proof.
  intros H Hd. apply same_pair_iff in H. destruct H as [Hg Ht].
  destruct r, x. cbn in *. congruence.
Qed.

Lemma traverse_total {A B : Type} (f : A -> option B) (g : A -> B) l :
  (forall x, In x l -> f x = Some (g x)) -> traverse f l = Some (map g l).
Proof.
  induction l as [|x t IH]; intros H; [reflexivity|]. cbn [traverse map].
  rewrite (H x (or_introl eq_refl)), IH; [reflexivity|].
  intros y Hy. apply H. right. exact Hy.
Qed.

Lemma filter_singleton {A : Type} (p : A -> bool) (a : A) l :
  NoDup l -> In a l -> (forall x, In x l -> (p x = true <-> x = a)) ->
  filter p l = [a].
Proof.
  induction l as [|y t IH]; intros Hnd Hin Hp; [destruct Hin|].
  inversion Hnd as [|? ? Hy Hnd']; subst. cbn [filter].
  destruct (p y) eqn:Ey.
  - apply (Hp y (or_introl eq_refl)) in Ey. subst y. f_equal.
    assert (G : forall l', (forall x, In x l' -> In x t) -> filter p l' = []).
    { induction l' as [|z l' IHl]; intros Hsub; [reflexivity|]. cbn [filter].
      destruct (p z) eqn:Ez.
      - apply (Hp z (or_intror (Hsub z (or_introl eq_refl)))) in Ez. subst z.
        exfalso. apply Hy. apply Hsub. left. reflexivity.
      - apply IHl. intros x Hx. apply Hsub. right. exact Hx. }
    apply G. auto.
  - destruct Hin as [->|Hin].
    + assert (p a = true) by (apply Hp; [left|]; reflexivity). congruence.
    + apply IH; [exact Hnd' | exact Hin |]. intros x Hx. apply Hp. right. exact Hx.
Qed.

Lemma build_df_same_pair panel r x :
  In r (build_df panel) -> In x panel -> same_pair r x = true -> In x (build_df panel).
Proof.
  unfold build_df, pair_count, count_if. intros Hr Hx Hp.
  apply filter_In in Hr. destruct Hr as [_ Hc].
  apply filter_In. split; [exact Hx|].
  rewrite <- (filter_ext _ _ (same_pair_ext r x Hp)). exact Hc.
Qed.

Lemma initial_obs_map (tn : obs -> Z) l :
  initial_obs (map (fun r => (r, tn r)) l) = filter (fun r => tn r =? 0) l.
Proof.
  unfold initial_obs. induction l as [|x t IH]; [reflexivity|].
  cbn [map filter snd]. destruct (tn x =? 0); cbn [map fst]; rewrite IH; reflexivity.
Qed.

(** A pair with two rows in a frame without repeated rows has a second row. *)
Lemma second_row panel r :
  NoDup panel -> In r (build_df panel) ->
  exists x, In x (build_df panel) /\ same_pair r x = true /\ x <> r.
Proof.
  intros Hnd Hr.
  assert (Hc : 2 <= pair_count panel r).
  { unfold build_df in Hr. apply filter_In in Hr. apply Z.leb_le. tauto. }
  unfold pair_count, count_if in Hc.
  assert (Hnd' : NoDup (filter (same_pair r) panel)) by (apply NoDup_filter; exact Hnd).
  destruct (filter (same_pair r) panel) as [|a [|b t]] eqn:E; cbn [length] in Hc; try lia.
  assert (Ha : In a (filter (same_pair r) panel)) by (rewrite E; left; reflexivity).
  assert (Hb : In b (filter (same_pair r) panel)) by (rewrite E; right; left; reflexivity).
  apply filter_In in Ha, Hb. destruct Ha as [Ha Pa], Hb as [Hb Pb].
  assert (Hab : a <> b).
  { inversion Hnd' as [|? ? Hx _]; subst. intros ->. apply Hx. left. reflexivity. }
  destruct (string_dec (dateQ a) (dateQ r)) as [Ea|Na].
  - exists b. split; [apply (build_df_same_pair panel r b Hr Hb Pb)|].
    split; [exact Pb|]. intros ->. apply Hab.
    apply obs_eq; [|exact Ea].
    apply same_pair_sym in Pa. exact Pa.
  - exists a. split; [apply (build_df_same_pair panel r a Hr Ha Pa)|].
    split; [exact Pa|]. intros ->. apply Na. reflexivity.
Qed.

(** X16. On a panel with well-formed quarter labels and one row per firm,
    technology and quarter, the tenure column is computed for every row, and
    the join with the initial observations returns each later observation
    exactly once, in order, paired with the row of its own firm-technology
    pair at the pair's first quarter; every pair of the frame has a later
    observation. *)
Theorem later_rows_get_one_initial_row (panel : list obs) :
  (forall r, In r panel -> is_label (dateQ r) = true) ->
  NoDup panel ->
  exists dt,
    with_tenure (build_df panel) = Some dt /\
    map fst dt = build_df panel /\
    map fst (df_later dt) = later_rows dt /\
    (forall rt i, In (rt, i) (df_later dt) ->
       In i (build_df panel) /\ same_pair (fst rt) i = true /\
       first_dateQ (build_df panel) (fst rt) = Some (dateQ i)) /\
    (forall r, In r (build_df panel) ->
       exists rt i, In (rt, i) (df_later dt) /\ same_pair r (fst rt) = true).
Proof.
  intros Hl Hnd.
  set (df := build_df panel).
  assert (Hdf : forall x, In x df -> is_label (dateQ x) = true).
  { intros x Hx. apply Hl. apply build_df_incl. exact Hx. }
  assert (Hnd_df : NoDup df) by (apply NoDup_filter; exact Hnd).
  set (tn := fun r => match tenure_q df r with Some n => n | None => 0 end).
  (* the tenure of a row, by its first label *)
  assert (T : forall r, In r df ->
            exists f r0, first_dateQ df r = Some f /\ is_label f = true /\
              In r0 df /\ same_pair r r0 = true /\ dateQ r0 = f /\
              tenure_q df r = Some (label_num (dateQ r) - label_num f) /\
              tn r = label_num (dateQ r) - label_num f /\
              (forall r', In r' df -> same_pair r r' = true ->
                          label_num f <= label_num (dateQ r'))).
  { intros r Hr.
    destruct (first_dateQ_spec df r (fun x Hx _ => Hdf x Hx) Hr) as (f & Hf & Lf & (r0 & H0 & P0 & E0) & Hmin).
    exists f, r0.
    assert (E : tenure_q df r = Some (label_num (dateQ r) - label_num f)).
    { unfold tenure_q. rewrite Hf, (q_to_num_label _ (Hdf r Hr)), (q_to_num_label _ Lf).
      reflexivity. }
    repeat split; try assumption. unfold tn. rewrite E. reflexivity. }
  assert (T0 : forall r, In r df ->
            exists r0, In r0 df /\ same_pair r r0 = true /\ tn r0 = 0 /\
              first_dateQ df r = Some (dateQ r0) /\
              forall x, In x df -> same_pair r x = true -> tn x = 0 -> x = r0).
  { intros r Hr. destruct (T r Hr) as (f & r0 & Hf & Lf & H0 & P0 & E0 & _ & _ & Hmin).
    exists r0. split; [exact H0|]. split; [exact P0|].
    assert (F0 : forall x, In x df -> same_pair r x = true ->
                 tn x = label_num (dateQ x) - label_num f).
    { intros x Hx Px. destruct (T x Hx) as (f' & _ & Hf' & _ & _ & _ & _ & _ & Hn & _).
      rewrite <- (first_dateQ_same_pair df r x Px), Hf in Hf'. injection Hf' as <-.
      exact Hn. }
    split; [rewrite (F0 r0 H0 P0), E0; lia|].
    split; [rewrite E0; exact Hf|].
    intros x Hx Px Hz. rewrite (F0 x Hx Px) in Hz.
    assert (Ed : dateQ x = dateQ r0).
    { rewrite E0. apply label_num_inj; [apply Hdf; exact Hx | exact Lf | lia]. }
    apply obs_eq; [|exact Ed].
    rewrite <- (same_pair_ext r x Px). exact P0. }
  exists (map (fun r => (r, tn r)) df).
  assert (Hinit : initial_obs (map (fun r => (r, tn r)) df)
                  = filter (fun r => tn r =? 0) df).
  { apply initial_obs_map. }
  assert (Hmatch : forall r, In r df ->
            exists r0, In r0 df /\ same_pair r r0 = true /\
              first_dateQ df r = Some (dateQ r0) /\
              filter (same_pair r) (initial_obs (map (fun r => (r, tn r)) df)) = [r0]).
  { intros r Hr. destruct (T0 r Hr) as (r0 & H0 & P0 & Z0 & F0 & U0).
    exists r0. repeat split; try assumption.
    rewrite Hinit. apply filter_singleton.
    - apply NoDup_filter. exact Hnd_df.
    - apply filter_In. split; [exact H0 | apply Z.eqb_eq; exact Z0].
    - intros x Hx. apply filter_In in Hx. destruct Hx as [Hx Hz]. apply Z.eqb_eq in Hz.
      split; [intros Px; apply U0; assumption | intros ->; exact P0]. }
  assert (Hlater : forall rt, In rt (later_rows (map (fun r => (r, tn r)) df)) ->
                              In (fst rt) df).
  { intros rt Hrt. unfold later_rows in Hrt. apply filter_In in Hrt.
    destruct Hrt as [Hrt _]. apply in_map_iff in Hrt. destruct Hrt as (r & <- & Hr).
    exact Hr. }
  split; [|split; [|split; [|split]]].
  - unfold with_tenure. fold df. apply traverse_total.
    intros r Hr. destruct (T r Hr) as (f & r0 & _ & _ & _ & _ & _ & E & Hn & _).
    rewrite E, <- Hn. reflexivity.
  - rewrite map_map. cbn [fst]. apply map_id.
  - unfold df_later.
    induction (later_rows (map (fun r => (r, tn r)) df)) as [|rt t IH]; [reflexivity|].
    cbn [flat_map]. rewrite map_app, IH by (intros x Hx; apply Hlater; right; exact Hx).
    destruct (Hmatch (fst rt)) as (r0 & _ & _ & _ & ->);
      [apply Hlater; left; reflexivity|].
    reflexivity.
  - intros rt i Hin. unfold df_later in Hin. apply in_flat_map in Hin.
    destruct Hin as (rt' & Hrt' & Hin). apply in_map_iff in Hin.
    destruct Hin as (i' & Heq & Hi'). injection Heq as <- <-.
    destruct (Hmatch (fst rt') (Hlater rt' Hrt')) as (r0 & H0 & P0 & F0 & E).
    rewrite E in Hi'. destruct Hi' as [<-|[]]. auto.
  - intros r Hr.
    destruct (second_row panel r Hnd Hr) as (x & Hx & Px & Nx).
    fold df in Hx.
    destruct (T r Hr) as (f & r0 & Hf & Lf & _ & _ & _ & _ & Hnr & Hmin).
    destruct (T x Hx) as (f' & _ & Hf' & _ & _ & _ & _ & _ & Hnx & _).
    rewrite <- (first_dateQ_same_pair df r x Px), Hf in Hf'. injection Hf' as <-.
    assert (Hne : label_num (dateQ x) <> label_num (dateQ r)).
    { intros E. apply Nx. symmetry. apply obs_eq; [exact Px|].
      symmetry. apply label_num_inj; [apply Hdf; exact Hx | apply Hdf; exact Hr | exact E]. }
    pose proof (Hmin r Hr (same_pair_refl r)) as Mr.
    pose proof (Hmin x Hx Px) as Mx.
    assert (Hex : exists y, In y df /\ same_pair r y = true /\ 1 <= tn y).
    { destruct (Z_lt_le_dec (label_num (dateQ r)) (label_num (dateQ x))).
      - exists x. repeat split; try assumption. lia.
      - exists r. split; [exact Hr|]. split; [apply same_pair_refl | lia]. }
    destruct Hex as (y & Hy & Py & Hty).
    assert (Hyl : In (y, tn y) (later_rows (map (fun r => (r, tn r)) df))).
    { unfold later_rows. apply filter_In. split.
      - apply in_map_iff. exists y. auto.
      - apply Z.leb_le. exact Hty. }
    destruct (Hmatch y Hy) as (i & _ & _ & _ & E).
    exists (y, tn y), i. split; [|exact Py].
    unfold df_later. apply in_flat_map. exists (y, tn y). split; [exact Hyl|].
    cbn [fst]. rewrite E. left. reflexivity.
Qed.

Lemma later_rows_get_one_initial_row_witness :
  exists dt,
    with_tenure (build_df example_panel) = Some dt /\
    map fst dt = build_df example_panel /\
    map fst (df_later dt) = later_rows dt /\
    (forall rt i, In (rt, i) (df_later dt) ->
       In i (build_df example_panel) /\ same_pair (fst rt) i = true /\
       first_dateQ (build_df example_panel) (fst rt) = Some (dateQ i)) /\
    (forall r, In r (build_df example_panel) ->
       exists rt i, In (rt, i) (df_later dt) /\ same_pair r (fst rt) = true).
Proof.
  apply (later_rows_get_one_initial_row example_panel).
  - intros r Hr. simpl in Hr.
    repeat (destruct Hr as [<-|Hr]; [reflexivity|]). destruct Hr.
  - repeat (constructor; [simpl; intuition discriminate|]). constructor.
Defined.

Lemma tenure_bin_spec t :
  1 <= t ->
  (tenure_bin t = Some "1-4q" <-> t <= 4) /\
  (tenure_bin t = Some "5-12q" <-> 5 <= t <= 12) /\
  (tenure_bin t = Some "13+q" <-> 13 <= t <= 200) /\
  (tenure_bin t = None <-> 200 < t).
Proof.
  intros H. unfold tenure_bin, cut.
  destruct (Z.ltb_spec 0 t); destruct (Z.leb_spec t 4);
    destruct (Z.ltb_spec 4 t); destruct (Z.leb_spec t 12);
    destruct (Z.ltb_spec 12 t); destruct (Z.leb_spec t 200);
    cbn [andb]; try lia;
    repeat split; intros; try discriminate; try lia; try reflexivity.
Qed.

(** X17. On a panel with well-formed quarter labels whose years span less
    than fifty years, every later observation has a tenure between 1 and 200
    quarters and gets exactly one tenure bin: 1-4q up to 4 quarters, 5-12q up
    to 12, 13+q beyond; so the three binned samples partition the
    all-horizons sample. *)
Theorem every_later_row_has_one_bin (panel : list obs) (y0 : Z) :
  (forall r, In r panel -> is_label (dateQ r) = true) ->
  (forall r, In r panel -> y0 <= label_year (dateQ r) <= y0 + 49) ->
  exists dt,
    with_tenure (build_df panel) = Some dt /\
    forall rt, In rt (later_rows dt) ->
      1 <= snd rt <= 200 /\
      exists b, tenure_bin (snd rt) = Some b /\
        (b = "1-4q" <-> snd rt <= 4) /\
        (b = "5-12q" <-> 5 <= snd rt <= 12) /\
        (b = "13+q" <-> 13 <= snd rt).
Proof.
  intros Hl Hy.
  set (df := build_df panel).
  assert (Hdf : forall x, In x df -> is_label (dateQ x) = true).
  { intros x Hx. apply Hl. apply build_df_incl. exact Hx. }
  set (tn := fun r => match tenure_q df r with Some n => n | None => 0 end).
  assert (T : forall r, In r df ->
            tenure_q df r = Some (tn r) /\ tn r <= 200).
  { intros r Hr.
    destruct (first_dateQ_spec df r (fun x Hx _ => Hdf x Hx) Hr) as (f & Hf & Lf & (r0 & H0 & P0 & E0) & Hmin).
    assert (E : tenure_q df r = Some (label_num (dateQ r) - label_num f)).
    { unfold tenure_q. rewrite Hf, (q_to_num_label _ (Hdf r Hr)), (q_to_num_label _ Lf).
      reflexivity. }
    unfold tn. rewrite E. split; [reflexivity|].
    pose proof (Hy r (build_df_incl _ _ Hr)) as Yr.
    pose proof (Hy r0 (build_df_incl _ _ H0)) as Y0. rewrite E0 in Y0.
    pose proof (label_bounds _ (Hdf r Hr)) as Br.
    pose proof (label_bounds _ Lf) as Bf.
    unfold label_num. lia. }
  exists (map (fun r => (r, tn r)) df). split.
  - unfold with_tenure. fold df. apply traverse_total.
    intros r Hr. destruct (T r Hr) as [-> _]. reflexivity.
  - intros rt Hrt. unfold later_rows in Hrt. apply filter_In in Hrt.
    destruct Hrt as [Hin H1]. apply Z.leb_le in H1.
    apply in_map_iff in Hin. destruct Hin as (r & <- & Hr). cbn [snd] in *.
    destruct (T r Hr) as [_ H200]. split; [lia|].
    destruct (tenure_bin_spec (tn r) H1) as (B1 & B2 & B3 & B4).
    destruct (tenure_bin (tn r)) as [b|] eqn:Eb.
    + exists b. split; [reflexivity|].
      split; [|split].
      * split; [intros ->; apply B1; reflexivity|].
        intros H4. apply B1 in H4. congruence.
      * split; [intros ->; apply B2; reflexivity|].
        intros H5. apply B2 in H5. congruence.
      * split; [intros ->; apply B3; reflexivity|].
        intros H13. assert (H' : 13 <= tn r <= 200) by lia. apply B3 in H'. congruence.
    + assert (200 < tn r) by (apply B4; reflexivity). lia.
Qed.

Lemma every_later_row_has_one_bin_witness :
  exists dt,
    with_tenure (build_df example_panel) = Some dt /\
    forall rt, In rt (later_rows dt) ->
      1 <= snd rt <= 200 /\
      exists b, tenure_bin (snd rt) = Some b /\
        (b = "1-4q" <-> snd rt <= 4) /\
        (b = "5-12q" <-> 5 <= snd rt <= 12) /\
        (b = "13+q" <-> 13 <= snd rt).
Proof.
  apply (every_later_row_has_one_bin example_panel 2000).
  - intros r Hr. simpl in Hr.
    repeat (destruct Hr as [<-|Hr]; [reflexivity|]). destruct Hr.
  - intros r Hr. simpl in Hr.
    repeat (destruct Hr as [<-|Hr]; [vm_compute; split; discriminate|]). destruct Hr.
Defined.

End PersistenceFacts.

(** ** Scores, exit codes and the LaTeX check (scripts/quality_score.py) *)

Section QualityMore.
Import QualityScore QualityCli.
Local Open Scope string_scope.
Local Open Scope Z_scope.

Lemma total_app a b : total (a ++ b) = total a + total b.
Proof.
  unfold total. induction a as [|i a IH]; cbn [app map fold_right]; [reflexivity|].
  rewrite IH. lia.
Qed.

Lemma total_nonneg l : Forall (fun i => 0 <= i_points i) l -> 0 <= total l.
Proof.
  unfold total. induction 1 as [|i l Hi _ IH]; cbn [map fold_right]; lia.
Qed.

Lemma total_critical l :
  Forall (fun i => 15 <= i_points i) l -> l <> [] -> 15 <= total l.
Proof.
  intros H Hne. destruct l as [|i l]; [congruence|].
  inversion H as [|? ? Hi Hl]; subst.
  assert (0 <= total l).
  { apply total_nonneg. eapply Forall_impl; [|exact Hl]. cbn. intros; lia. }
  unfold total in *. cbn [map fold_right]. lia.
Qed.

Lemma consistent_init path verb : consistent (init path verb).
Proof. unfold consistent, init. cbn. repeat split; constructor. Qed.

Lemma consistent_add_critical i p s :
  i_points i = p -> 15 <= p -> consistent s -> consistent (add_critical i p s).
Proof.
  intros Hi Hp (H1 & H2 & H3 & H4 & H5). unfold consistent, add_critical.
  cbn [score critical major minor auto_fail]. rewrite total_app.
  unfold total at 2. cbn [map fold_right]. repeat split; try assumption; [lia|].
  apply Forall_app. split; [exact H2|]. constructor; [lia | constructor].
Qed.

Lemma consistent_add_major i p s :
  i_points i = p -> 0 <= p -> consistent s -> consistent (add_major i p s).
Proof.
  intros Hi Hp (H1 & H2 & H3 & H4 & H5). unfold consistent, add_major.
  cbn [score critical major minor auto_fail]. rewrite total_app.
  unfold total at 3. cbn [map fold_right]. repeat split; try assumption; [lia|].
  apply Forall_app. split; [exact H3|]. constructor; [lia | constructor].
Qed.

Lemma consistent_add_minor i p s :
  i_points i = p -> 0 <= p -> consistent s -> consistent (add_minor i p s).
Proof.
  intros Hi Hp (H1 & H2 & H3 & H4 & H5). unfold consistent, add_minor.
  cbn [score critical major minor auto_fail]. rewrite total_app.
  unfold total at 4. cbn [map fold_right]. repeat split; try assumption; [lia|].
  apply Forall_app. split; [exact H4|]. constructor; [lia | constructor].
Qed.

Lemma consistent_when b f s :
  (consistent s -> consistent (f s)) -> consistent s -> consistent (when b f s).
Proof. intros Hf H. unfold when. destruct b; auto. Qed.

Lemma consistent_fold {X : Type} (g : scorer -> X -> scorer) (l : list X) :
  (forall s x, consistent s -> consistent (g s x)) ->
  forall s, consistent s -> consistent (fold_left g l s).
Proof.
  intros Hg. induction l as [|x t IH]; intros s H; cbn [fold_left]; auto.
Qed.

(** The report of a scorer whose score is clipped at the end. *)
Lemma report_of_consistent s :
  consistent s ->
  score_explained (generate_report (set_score (Z.max 0 (score s)) s)) /\
  critical_blocks (generate_report (set_score (Z.max 0 (score s)) s)).
Proof.
  intros (H1 & H2 & H3 & H4 & H5).
  pose proof (total_nonneg _ H3) as N3. pose proof (total_nonneg _ H4) as N4.
  assert (N2 : 0 <= total (critical s)).
  { apply total_nonneg. eapply Forall_impl; [|exact H2]. cbn. intros; lia. }
  unfold score_explained, critical_blocks, listed_points, generate_report, set_score.
  cbn [filepath verbose score critical major minor auto_fail r_score r_status
       r_critical r_major r_minor].
  rewrite !total_app, H5. split; [split; lia|].
  intros Hne. pose proof (total_critical _ H2 Hne) as C.
  split; [lia|].
  unfold THRESHOLD_excellence, THRESHOLD_pr, THRESHOLD_commit.
  destruct (Z.leb_spec 95 (Z.max 0 (score s))); [lia|].
  destruct (Z.leb_spec 90 (Z.max 0 (score s))); [lia|].
  destruct (Z.leb_spec 80 (Z.max 0 (score s))); cbn [fst]; auto.
Qed.

(** The report of a scorer that failed outright. *)
Lemma report_of_failed s :
  auto_fail s = true -> score s = 0 -> critical s <> [] ->
  Forall (fun i => i_points i = 100) (critical s) -> major s = [] -> minor s = [] ->
  score_explained (generate_report s) /\ critical_blocks (generate_report s).
Proof.
  intros Ha Hs Hne Hc Hm Hn.
  assert (C : 100 <= total (critical s)).
  { destruct (critical s) as [|i l]; [congruence|].
    inversion Hc as [|? ? Hi Hl]; subst.
    assert (0 <= total l).
    { apply total_nonneg. eapply Forall_impl; [|exact Hl]. cbn. intros; lia. }
    unfold total in *. cbn [map fold_right]. lia. }
  unfold score_explained, critical_blocks, listed_points, generate_report.
  cbn [r_score r_status r_critical r_major r_minor].
  rewrite Ha, Hs, Hm, Hn, !total_app. unfold total at 2 3. cbn [map fold_right fst].
  split; [split; lia|]. intros _. split; [lia | auto].
Qed.

Section AnyTool.
Variable set_order : list string -> list string.
Variable check_stata_version : string -> bool.
Variable check_stata_raw_data_writes : string -> list Z.
Variable check_hardcoded_paths : string -> list Z.
Variable check_stata_unchecked_merge : string -> list Z.
Variable check_stata_header : string -> bool.
Variable latex_syntax : string -> list (Z * string).
Variable check_equation_overflow : string -> list Z.
Variable check_python_syntax : string -> bool * string.
Variable check_python_raw_data_writes : string -> list Z.
Variable check_python_seed : string -> bool.
Variable check_python_manifest : string -> bool.

Local Abbreviation stata_report :=
  (run_stata check_stata_version check_stata_raw_data_writes check_hardcoded_paths
     check_stata_unchecked_merge check_stata_header).
Local Abbreviation manuscript_report :=
  (QualityScore.run_manuscript set_order latex_syntax check_equation_overflow).
Local Abbreviation python_report :=
  (run_python check_python_syntax check_hardcoded_paths check_python_raw_data_writes
     check_python_seed check_python_manifest).

Lemma stata_report_ok path verb content :
  score_explained (stata_report path verb content) /\
  critical_blocks (stata_report path verb content).
Proof.
  unfold run_stata, score_stata. cbv zeta. cbn [fst].
  apply report_of_consistent.
  repeat first
    [ apply consistent_init
    | apply consistent_when; [intros ?|]
    | apply consistent_fold; [intros ? ? ?|]
    | apply consistent_add_critical; [reflexivity | lia |]
    | apply consistent_add_major; [reflexivity | lia |]
    | apply consistent_add_minor; [reflexivity | lia |]
    | assumption ].
Qed.

Lemma manuscript_report_ok path verb content bl bo :
  score_explained (manuscript_report path verb content bl bo) /\
  critical_blocks (manuscript_report path verb content bl bo).
Proof.
  unfold QualityScore.run_manuscript, QualityScore.score_manuscript. cbv zeta.
  destruct (latex_syntax content) as [|iss rest] eqn:E.
  - cbn [fst]. apply report_of_consistent.
    repeat first
      [ apply consistent_init
      | apply consistent_fold; [intros ? ? ?|]
      | apply consistent_add_critical; [reflexivity | lia |]
      | apply consistent_add_major; [reflexivity | lia |]
      | assumption ].
  - cbn [fst]. rewrite fold_add_critical.
    apply report_of_failed;
      unfold set_score, set_auto_fail, init;
      cbn [filepath verbose score critical major minor auto_fail app map];
      try reflexivity; try discriminate.
    constructor; [reflexivity|]. apply Forall_forall. intros i Hi.
    apply in_map_iff in Hi. destruct Hi as (x & <- & _). reflexivity.
Qed.

Lemma python_report_ok path verb content :
  score_explained (python_report path verb content) /\
  critical_blocks (python_report path verb content).
Proof.
  unfold run_python, score_python.
  destruct (check_python_syntax (filepath (init path verb))) as [is_valid error].
  destruct is_valid; cbn [negb]; cbv zeta; cbn [fst].
  - apply report_of_consistent.
    repeat first
      [ apply consistent_init
      | apply consistent_when; [intros ?|]
      | apply consistent_fold; [intros ? ? ?|]
      | apply consistent_add_critical; [reflexivity | lia |]
      | apply consistent_add_major; [reflexivity | lia |]
      | apply consistent_add_minor; [reflexivity | lia |]
      | assumption ].
  - apply report_of_failed;
      unfold set_score, set_auto_fail, add_critical, init;
      cbn [filepath verbose score critical major minor auto_fail app];
      try reflexivity; try discriminate.
    constructor; [reflexivity | constructor].
Qed.

(** X18. Whatever the detectors find, the score of a report on a do-file,
    a manuscript or a Python script is 100 minus the points of the issues it
    lists, floored at 0, and lies between 0 and 100. *)
Theorem score_is_100_minus_listed_points
  (path : string) (verb : bool) (content : string) (bl bo : option string) :
  score_explained (stata_report path verb content) /\
  score_explained (manuscript_report path verb content bl bo) /\
  score_explained (python_report path verb content).
Proof.
  split; [apply stata_report_ok|]. split; [apply manuscript_report_ok|].
  apply python_report_ok.
Qed.

(** X19. A report that lists a critical issue has a score of at most 85:
    its status is COMMIT_READY, BLOCKED or FAIL, never PR_READY or
    EXCELLENCE. *)
Theorem critical_issue_blocks_pr
  (path : string) (verb : bool) (content : string) (bl bo : option string) :
  critical_blocks (stata_report path verb content) /\
  critical_blocks (manuscript_report path verb content bl bo) /\
  critical_blocks (python_report path verb content).
Proof.
  split; [apply stata_report_ok|]. split; [apply manuscript_report_ok|].
  apply python_report_ok.
Qed.

End AnyTool.

(** *** The exit code of [main] *)

Lemma exit_step_range ec f : 0 <= ec <= 2 -> 0 <= exit_step ec f <= 2.
Proof.
  intros H. unfold exit_step. destruct f as [| |r|]; try lia.
  destruct (r_auto_fail r); [lia|]. destruct (r_score r <? THRESHOLD_commit); lia.
Qed.

Lemma exit_step_zero ec f :
  0 <= ec -> (exit_step ec f = 0 <-> ec = 0 /\ passes f).
Proof.
  intros H. unfold exit_step, passes. destruct f as [| |r|].
  - split; [discriminate | intros [_ []]].
  - split; [intros ->; auto | intros [-> _]; reflexivity].
  - destruct (r_auto_fail r).
    + split; [lia | intros (_ & E & _); discriminate].
    + destruct (Z.ltb_spec (r_score r) THRESHOLD_commit); split.
      * lia.
      * intros (-> & _ & L). lia.
      * intros ->. auto.
      * intros (-> & _). reflexivity.
  - split; [discriminate | intros [_ []]].
Qed.

Lemma exit_fold_range l : forall ec,
  0 <= ec <= 2 -> 0 <= fold_left exit_step l ec <= 2.
Proof.
  induction l as [|f t IH]; intros ec H; cbn [fold_left]; [exact H|].
  apply IH. apply exit_step_range. exact H.
Qed.

Lemma exit_fold_zero l : forall ec,
  0 <= ec <= 2 -> (fold_left exit_step l ec = 0 <-> ec = 0 /\ Forall passes l).
Proof.
  induction l as [|f t IH]; intros ec H; cbn [fold_left].
  - split; [intros ->; split; [reflexivity | constructor] | tauto].
  - rewrite (IH _ (exit_step_range ec f H)), exit_step_zero by lia. split.
    + intros ((-> & Hf) & Ht). split; [reflexivity | constructor; assumption].
    + intros (-> & Hall). inversion Hall; subst. tauto.
Qed.

Lemma exit_fold_two l : forall ec,
  0 <= ec <= 2 ->
  (fold_left exit_step l ec = 2 <->
   (ec = 2 /\ Forall (fun f => ~ resets f) l) \/
   exists before r after,
     l = (before ++ Scored r :: after)%list /\ r_auto_fail r = true /\
     Forall (fun f => ~ resets f) after).
Proof.
  induction l as [|f t IH]; intros ec H; cbn [fold_left].
  - split.
    + intros ->. left. split; [reflexivity | constructor].
    + intros [[-> _]|(b & r & a & E & _)]; [reflexivity|].
      destruct b; discriminate E.
  - rewrite (IH _ (exit_step_range ec f H)). split.
    + intros [[E Ht]|(b & r & a & -> & Hr & Ha)].
      * destruct f as [| |r|]; cbn [exit_step] in E; try lia.
        -- left. split; [exact E|]. constructor; [cbn; tauto | exact Ht].
        -- destruct (r_auto_fail r) eqn:Ef.
           ++ right. exists [], r, t. auto.
           ++ left. split.
              ** destruct (r_score r <? THRESHOLD_commit); lia.
              ** constructor; [cbn; tauto | exact Ht].
      * right. exists (f :: b), r, a. auto.
    + intros [[-> Hall]|(b & r & a & E & Hr & Ha)].
      * inversion Hall as [|? ? Hf Ht]; subst. left. split; [|exact Ht].
        destruct f as [| |r|]; cbn in Hf; try tauto; cbn [exit_step];
          try reflexivity.
        destruct (r_auto_fail r); [lia|].
        destruct (r_score r <? THRESHOLD_commit); lia.
      * destruct b as [|f' b]; cbn [app] in E; injection E as -> ->.
        -- left. cbn [exit_step]. rewrite Hr. split; [lia | exact Ha].
        -- right. exists b, r, a. auto.
Qed.

(** X20. Without a path on the command line the argument parser ends
    [main] with status 2.  With at least one path the exit code is 0, 1 or
    2.  It is 0 exactly when every path is either of an unsupported type or
    scored at 80 or more without failing outright.  It is 2 exactly when some
    file fails outright and no later path is missing or makes the scoring
    raise: such a later path sets the code back to 1. *)
Theorem main_exit_code_cases (files : list file_result) :
  main_exit_code [] = 2 /\
  (files <> [] ->
   (main_exit_code files = 0 \/ main_exit_code files = 1 \/ main_exit_code files = 2) /\
   (main_exit_code files = 0 <-> Forall passes files) /\
   (main_exit_code files = 2 <->
    exists before r after,
      files = (before ++ Scored r :: after)%list /\ r_auto_fail r = true /\
      Forall (fun f => ~ resets f) after)).
Proof.
  split; [reflexivity|]. intros Hne.
  assert (E : main_exit_code files = fold_left exit_step files 0)
    by (destruct files; [contradiction | reflexivity]).
  rewrite E. split; [|split].
  - pose proof (exit_fold_range files 0). lia.
  - rewrite exit_fold_zero by lia. tauto.
  - rewrite exit_fold_two by lia. split; [|tauto].
    intros [[E' _]|H]; [discriminate E' | exact H].
Qed.

Lemma main_exit_code_cases_witness :
  main_exit_code failed_then_passed = 2.
Proof.
  destruct (main_exit_code_cases failed_then_passed) as [_ H].
  destruct (H ltac:(discriminate)) as (_ & _ & H2).
  apply H2.
  exists [], failed_report, [ Scored clean_report ].
  split; [reflexivity|]. split; [reflexivity|].
  constructor; [|constructor]. intros H'. exact H'.
Defined.

(** *** Undefined citations *)

Lemma set_mem_In x s : set_mem x s = true <-> In x s.
Proof.
  unfold set_mem. rewrite existsb_exists. split.
  - intros (y & Hy & E). apply String.eqb_eq in E. subst. exact Hy.
  - intros H. exists x. split; [exact H | apply String.eqb_refl].
Qed.

Lemma set_add_NoDup s x : NoDup s -> NoDup (set_add s x).
Proof.
  intros H. unfold set_add. destruct (set_mem x s) eqn:E; [exact H|].
  apply NoDup_app; [exact H | constructor; [intros [] | constructor] |].
  intros y Hy [<-|[]]. apply set_mem_In in Hy. congruence.
Qed.

Lemma fold_set_add_NoDup l : forall s, NoDup s -> NoDup (fold_left set_add l s).
Proof.
  induction l as [|x t IH]; intros s H; cbn [fold_left]; [exact H|].
  apply IH. apply set_add_NoDup. exact H.
Qed.

Lemma cited_keys_NoDup content : NoDup (cited_keys content).
Proof.
  unfold cited_keys.
  assert (G : forall gs acc, NoDup acc ->
            NoDup (fold_left (fun acc g => fold_left set_add (map strip (split_on "," g)) acc)
                             gs acc)).
  { induction gs as [|g gs IH]; intros acc H; cbn [fold_left]; [exact H|].
    apply IH. apply fold_set_add_NoDup. exact H. }
  apply G. constructor.
Qed.

(** X21. Whatever the iteration order of the set, [check_broken_citations]
    returns every cited key that the bibliography does not define exactly
    once (every cited key when there is no bibliography file), however
    often it is cited. *)
Theorem broken_citations_listed_once
  (set_order : list string -> list string) (content : string) (bib : option string) :
  (forall l, Permutation (set_order l) l) ->
  NoDup (check_broken_citations set_order content bib) /\
  forall k,
    In k (check_broken_citations set_order content bib) <->
    In k (cited_keys content) /\
    match bib with
    | Some bib_content => ~ In k (bib_keys bib_content)
    | None => True
    end.
Proof.
  intros Hp. pose proof (cited_keys_NoDup content) as Hnd.
  unfold check_broken_citations. destruct bib as [b|].
  - split.
    + eapply Permutation_NoDup; [apply Permutation_sym, Hp|].
      unfold set_diff. apply NoDup_filter. exact Hnd.
    + intros k. split.
      * intros H. apply (Permutation_in _ (Hp _)) in H. unfold set_diff in H.
        apply filter_In in H. destruct H as [H1 H2]. split; [exact H1|].
        intros Hin. apply set_mem_In in Hin. rewrite Hin in H2. discriminate.
      * intros [H1 H2]. apply (Permutation_in _ (Permutation_sym (Hp _))).
        unfold set_diff. apply filter_In. split; [exact H1|].
        destruct (set_mem k (bib_keys b)) eqn:E; [|reflexivity].
        apply set_mem_In in E. contradiction.
  - destruct (cited_keys content) as [|c cs] eqn:E.
    + split; [constructor | intros k; simpl; tauto].
    + split.
      * eapply Permutation_NoDup; [apply Permutation_sym, Hp | exact Hnd].
      * intros k. split.
        -- intros H. split; [|exact I]. apply (Permutation_in _ (Hp _)). exact H.
        -- intros [H _]. apply (Permutation_in _ (Permutation_sym (Hp _))). exact H.
Qed.

Lemma broken_citations_listed_once_witness :
  NoDup (check_broken_citations order_a example_tex None) /\
  forall k,
    In k (check_broken_citations order_a example_tex None) <->
    In k (cited_keys example_tex) /\ True.
Proof.
  apply (broken_citations_listed_once order_a example_tex None).
  intros l. apply Permutation_refl.
Defined.

(** *** Unbalanced environments *)

Lemma removelast_rev_cons {A : Type} (l : list A) x r :
  rev l = x :: r -> length l = Datatypes.S (length (removelast l)).
Proof.
  intros E. assert (L : l = (rev r ++ [x])%list).
  { rewrite <- (rev_involutive l), E. reflexivity. }
  rewrite L, removelast_last, length_app. cbn [length]. lia.
Qed.

(** Every [\end] lowers the balance by one. *)
Lemma end_step_balance i st e : balance (end_step i st e) = balance st - 1.
Proof.
  unfold end_step, balance. destruct (rev (fst st)) as [|[top opened] r] eqn:E.
  - cbn [fst snd]. rewrite length_app. cbn [length]. lia.
  - destruct (String.eqb top e); cbn [fst snd].
    + rewrite (removelast_rev_cons _ _ _ E). lia.
    + rewrite length_app. cbn [length]. lia.
Qed.

Lemma fold_end_step_balance i es : forall st,
  balance (fold_left (end_step i) es st) = balance st - Z.of_nat (length es).
Proof.
  induction es as [|e es IH]; intros st; cbn [fold_left length]; [lia|].
  rewrite IH, end_step_balance. lia.
Qed.

Lemma line_step_balance st il :
  balance (line_step st il)
  = balance st + Z.of_nat (length (scan begin_at O (strip_comment (snd il))))
    - Z.of_nat (length (scan end_at O (strip_comment (snd il)))).
Proof.
  unfold line_step. rewrite fold_end_step_balance. unfold balance. cbn [fst snd].
  rewrite length_app, length_map. lia.
Qed.

Lemma fold_line_step_balance ls : forall start st,
  balance (fold_left line_step (enumerate start ls) st)
  = balance st
    + fold_right Z.add 0
        (map (fun l => Z.of_nat (length (scan begin_at O (strip_comment l)))) ls)
    - fold_right Z.add 0
        (map (fun l => Z.of_nat (length (scan end_at O (strip_comment l)))) ls).
Proof.
  induction ls as [|l ls IH]; intros start st; cbn [enumerate fold_left map fold_right];
    [lia|].
  rewrite IH, line_step_balance. cbn [snd]. lia.
Qed.

(** The check reports at least as many issues as the numbers of [\begin]
    and [\end] differ. *)
Lemma latex_issues_bound content :
  Z.abs (count_begins content - count_ends content)
  <= Z.of_nat (length (check_latex_syntax content)).
Proof.
  unfold check_latex_syntax, count_begins, count_ends. cbv zeta.
  pose proof (fold_line_step_balance (lines_of content) 1 ([], [])) as B.
  unfold balance in B. cbn [fst snd length] in B.
  rewrite length_app, length_map. lia.
Qed.

(** X22. The check counts the [\begin{name}] and the [\end{name}] whose
    name is a run of letters, digits and underscores, in the part of each
    line before its first [%].  A manuscript in which these two counts
    differ fails outright: the status is FAIL, the score 0, and the report
    lists the syntax issues only; citations and equations are not looked
    at.  An environment with a starred name and whatever follows a [%], an
    escaped one included, do not enter the counts. *)
Theorem unbalanced_manuscript_fails
  (set_order : list string -> list string) (check_equation_overflow : string -> list Z)
  (path : string) (verb : bool) (content : string) (bl bo : option string) :
  count_begins content <> count_ends content ->
  let r := QualityScore.run_manuscript set_order check_latex_syntax check_equation_overflow
             path verb content bl bo in
  r_status r = "FAIL" /\ r_score r = 0 /\ r_auto_fail r = true /\
  map i_details (r_critical r) = map snd (check_latex_syntax content) /\
  Forall (fun i => i_type i = "compilation_failure") (r_critical r) /\
  r_major r = [] /\ r_minor r = [].
Proof.
  intros Hne. pose proof (latex_issues_bound content) as B.
  unfold QualityScore.run_manuscript, QualityScore.score_manuscript. cbv zeta.
  destruct (check_latex_syntax content) as [|iss rest] eqn:E.
  - cbn [length] in B. lia.
  - cbn [fst]. rewrite fold_add_critical.
    unfold generate_report, set_score, set_auto_fail, init.
    cbn [filepath verbose score critical major minor auto_fail r_status r_score
         r_auto_fail r_critical r_major r_minor fst app].
    repeat split.
    + rewrite map_map. reflexivity.
    + apply Forall_forall. intros i Hi. apply in_map_iff in Hi.
      destruct Hi as (x & <- & _). reflexivity.
Qed.

Lemma unbalanced_manuscript_fails_witness :
  r_status (QualityScore.run_manuscript order_a check_latex_syntax (fun _ => [])
              "main.tex" false unclosed_tex None None) = "FAIL".
Proof.
  assert (H : count_begins unclosed_tex <> count_ends unclosed_tex)
    by (vm_compute; discriminate).
  exact (proj1 (unbalanced_manuscript_fails order_a (fun _ => []) "main.tex" false
                  unclosed_tex None None H)).
Defined.

(** What the check does not see: an environment with a starred name, and a
    [\begin] that follows a percent sign, escaped or not. *)
Example starred_environment_not_seen :
  check_latex_syntax "\begin{align*} x = 1" = [].
Proof. reflexivity. Qed.

Example text_after_percent_not_seen :
  check_latex_syntax "a share of 50\% \begin{table}" = [].
Proof. reflexivity. Qed.

(** *** What the reports depend on *)

Section Determined.
Variable latex_syntax : string -> list (Z * string).
Variable check_equation_overflow : string -> list Z.
Variable check_python_syntax : string -> bool * string.
Variable check_hardcoded_paths : string -> list Z.
Variable check_python_raw_data_writes : string -> list Z.
Variable check_python_seed : string -> bool.
Variable check_python_manifest : string -> bool.

Create HintDb determined.
#[local] Hint Resolve same_findings_init same_findings_clip same_findings_when
  same_findings_add_critical same_findings_add_major same_findings_add_minor
  same_findings_fold_critical same_findings_fold_major same_findings_auto_fail
  generate_report_same : determined.

Lemma manuscript_report_same order1 order2 p1 v1 p2 v2 content bl bo :
  (forall l, Permutation (order1 l) l) ->
  (forall l, Permutation (order2 l) l) ->
  same_report_up_to_order
    (QualityScore.run_manuscript order1 latex_syntax check_equation_overflow
       p1 v1 content bl bo)
    (QualityScore.run_manuscript order2 latex_syntax check_equation_overflow
       p2 v2 content bl bo).
Proof.
  intros H1 H2. unfold QualityScore.run_manuscript, QualityScore.score_manuscript. cbv zeta.
  destruct (latex_syntax content) as [|iss rest].
  - cbn [fst]. rewrite !fold_add_critical, !fold_add_major.
    set (bib := match bl with Some b => Some b | None => bo end).
    assert (P : Permutation (check_broken_citations order1 content bib)
                            (check_broken_citations order2 content bib)).
    { unfold check_broken_citations. destruct bib as [b|].
      - eapply perm_trans; [apply H1 | apply Permutation_sym, H2].
      - destruct (cited_keys content); [constructor|].
        eapply perm_trans; [apply H1 | apply Permutation_sym, H2]. }
    pose proof (Permutation_length P) as L.
    unfold same_report_up_to_order, generate_report, set_score, init.
    cbn [filepath verbose score critical major minor auto_fail r_score r_status
         r_threshold r_auto_fail r_critical r_major r_minor r_counts fst snd app].
    rewrite !length_map, L. repeat split. apply Permutation_map. exact P.
  - apply same_report_up_to_order_of_same. cbn [fst].
    apply generate_report_same.
    unfold same_findings, set_score, set_auto_fail.
    cbn [filepath verbose score critical major minor auto_fail].
    rewrite !fold_add_critical. cbn [critical major minor init]. auto.
Qed.

Lemma python_report_same p1 v1 p2 v2 content :
  check_python_syntax p1 = check_python_syntax p2 ->
  same_report
    (run_python check_python_syntax check_hardcoded_paths check_python_raw_data_writes
       check_python_seed check_python_manifest p1 v1 content)
    (run_python check_python_syntax check_hardcoded_paths check_python_raw_data_writes
       check_python_seed check_python_manifest p2 v2 content).
Proof.
  intros H. unfold run_python, score_python. cbn [filepath init]. rewrite H.
  destruct (check_python_syntax p2) as [is_valid error].
  destruct is_valid; cbn [negb]; cbv zeta; cbn [fst].
  - auto 20 with determined.
  - apply generate_report_same.
    unfold same_findings, set_score, add_critical, set_auto_fail.
    cbn [filepath verbose score critical major minor auto_fail]. auto.
Qed.

(** X23. With every syntax issue listed, the report on a manuscript is
    determined by the content and the bibliography up to the order of its
    critical issues, whatever the path, the verbosity and the iteration order
    of the set of keys; the report on a Python script is determined by the
    content and by what the syntax check returns for the path. *)
Theorem manuscript_and_python_reports_determined
  (order1 order2 : list string -> list string)
  (p1 p2 : string) (v1 v2 : bool) (content : string) (bl bo : option string) :
  (forall l, Permutation (order1 l) l) ->
  (forall l, Permutation (order2 l) l) ->
  same_report_up_to_order
    (QualityScore.run_manuscript order1 latex_syntax check_equation_overflow
       p1 v1 content bl bo)
    (QualityScore.run_manuscript order2 latex_syntax check_equation_overflow
       p2 v2 content bl bo) /\
  (check_python_syntax p1 = check_python_syntax p2 ->
   same_report
     (run_python check_python_syntax check_hardcoded_paths check_python_raw_data_writes
        check_python_seed check_python_manifest p1 v1 content)
     (run_python check_python_syntax check_hardcoded_paths check_python_raw_data_writes
        check_python_seed check_python_manifest p2 v2 content)).
Proof.
  intros H1 H2. split.
  - apply manuscript_report_same; assumption.
  - apply python_report_same.
Qed.

End Determined.

Lemma manuscript_and_python_reports_determined_witness :
  same_report_up_to_order
    (QualityScore.run_manuscript order_a check_latex_syntax (fun _ => [])
       "a/main.tex" false unclosed_tex None None)
    (QualityScore.run_manuscript order_b check_latex_syntax (fun _ => [])
       "b/main.tex" true unclosed_tex None None).
Proof.
  apply (manuscript_and_python_reports_determined
           check_latex_syntax (fun _ => []) (fun _ => (true, "")) (fun _ => [])
           (fun _ => []) (fun _ => true) (fun _ => true)
           order_a order_b "a/main.tex" "b/main.tex" false true unclosed_tex None None).
  - intros l. apply Permutation_refl.
  - intros l. apply Permutation_sym, Permutation_rev.
Defined.

End QualityMore.

(** ** The sanity check on the mean shares (03_table_II_summary_stats.py) *)

Section SummaryTableFacts.
Import SummaryStats SummaryTable.
Local Open Scope string_scope.
Local Open Scope Z_scope.

Lemma near_one_of_one v : (v == 1)%Q -> near_one (Some v) = true.
Proof.
  intros H. unfold near_one. apply negb_true_iff.
  destruct (Qle_bool SHARE_TOL (Qabs.Qabs (v - 1))) eqn:E; [|reflexivity].
  apply Qle_bool_iff in E. rewrite H in E.
  unfold Qle, SHARE_TOL in E. simpl in E. lia.
Qed.

Lemma five_shares (l : list Q) :
  length l = 5%nat -> map (fun c => nth (Z.to_nat (c - 1)) l 0%Q) MACROS = l.
Proof.
  destruct l as [|a [|b [|c [|d [|e [|f l]]]]]]; try discriminate. reflexivity.
Qed.

(** On a non-empty panel whose rows hold five shares that add up to one,
    the means of the five share columns add up to one. *)
Lemma mean_sum_one side_name (panel : list panel_row) :
  panel <> [] ->
  (forall p, In p panel ->
     length (share_cause (p_joint p)) = 5%nat /\
     length (share_effect (p_joint p)) = 5%nat /\
     (qsum (share_cause (p_joint p)) == 1)%Q /\
     (qsum (share_effect (p_joint p)) == 1)%Q) ->
  exists v, mean_sum side_name panel = Some v /\ (v == 1)%Q.
Proof.
  intros Hne Hrows.
  assert (Hm : forall c, column_mean (share_of side_name c) panel
                         = Some (qmean (map (share_of side_name c) panel))).
  { intros c. unfold column_mean. destruct panel; [congruence | reflexivity]. }
  unfold mean_sum, MACROS. cbn [fold_left]. rewrite !Hm.
  eexists. split; [reflexivity|].
  change (qsum (map (fun c => qmean (map (share_of side_name c) panel)) MACROS) == 1)%Q.
  unfold qmean.
  rewrite (qsum_map_ext _ (fun c => (qsum (map (fun p => share_of side_name c p) panel)
                                      / inject_Z (Z.of_nat (length panel)))%Q))
    by (intros c _; rewrite length_map; reflexivity).
  rewrite qsum_map_div, (qsum_swap (fun p c => share_of side_name c p) panel MACROS).
  rewrite (qsum_map_ext _ (fun _ => 1%Q)).
  - rewrite qsum_map_one. field. unfold Qeq. simpl.
    destruct panel; [congruence | cbn [length]; lia].
  - intros p Hp. destruct (Hrows p Hp) as (L1 & L2 & S1 & S2).
    unfold share_of. destruct (String.eqb side_name "cause").
    + rewrite (five_shares _ L1). exact S1.
    + rewrite (five_shares _ L2). exact S2.
Qed.

(** X24. With the shares taken as exact rationals, the assertion that the
    mean shares of each side add up to one holds on every panel the script
    builds, provided the panel has a row; on an empty panel the means are
    NaN and the assertion on the cause side fails. *)
Theorem mean_shares_check_passes_unless_empty (cs : list snippet) :
  exists panel,
    build_panel cs = Ok panel /\
    (panel <> [] -> shares_sum_check panel = Ok tt) /\
    (panel = [] ->
     shares_sum_check panel = Raise (AssertionError "Cause shares do not sum to 1")).
Proof.
  destruct (build_panel_ok cs) as (pairs & panel & Hb & Hj & _ & Hok).
  exists panel. split; [exact Hb|]. split.
  - intros Hne.
    assert (Hrows : forall p, In p panel ->
              length (share_cause (p_joint p)) = 5%nat /\
              length (share_effect (p_joint p)) = 5%nat /\
              (qsum (share_cause (p_joint p)) == 1)%Q /\
              (qsum (share_effect (p_joint p)) == 1)%Q).
    { intros p Hp. destruct (panel_row_pair _ _ _ Hj Hp) as ([c e] & Hce & ->).
      destruct (Hok _ Hce) as [Hc He]. cbn [fst snd] in Hc, He.
      cbn [make_joint share_cause share_effect].
      pose proof (side_ok_sum _ _ _ Hc) as S1. pose proof (side_ok_sum _ _ _ He) as S2.
      destruct Hc as (L1 & _ & E1 & _). destruct He as (L2 & _ & E2 & _).
      repeat split; try assumption.
      - rewrite E1, length_map. exact L1.
      - rewrite E2, length_map. exact L2. }
    destruct (mean_sum_one "cause" panel Hne Hrows) as (vc & Ec & Hc).
    destruct (mean_sum_one "effect" panel Hne Hrows) as (ve & Ee & He).
    unfold shares_sum_check. rewrite Ec, Ee, (near_one_of_one _ Hc), (near_one_of_one _ He).
    reflexivity.
  - intros ->. reflexivity.
Qed.

End SummaryTableFacts.

(** ** First appearances, the long format and the fixed-effect keys
    (06_table_IVB_spillover.py) *)

Section SpilloverLongFacts.
Import Spillover SpilloverLong.
Local Open Scope string_scope.
Local Open Scope Z_scope.

Lemma string_leb_refl s : String.leb s s = true.
Proof. destruct (String.leb_total s s); assumption. Qed.

Lemma str_min_le a b :
  String.leb (Dynamics.str_min a b) a = true /\
  String.leb (Dynamics.str_min a b) b = true /\
  (Dynamics.str_min a b = a \/ Dynamics.str_min a b = b).
Proof.
  unfold Dynamics.str_min, String.ltb.
  destruct (String.compare b a) eqn:E.
  - split; [apply string_leb_refl|]. split; [|auto].
    unfold String.leb. rewrite (String.compare_antisym a b), E. reflexivity.
  - split; [unfold String.leb; rewrite E; reflexivity|].
    split; [apply string_leb_refl | auto].
  - split; [apply string_leb_refl|]. split; [|auto].
    unfold String.leb. rewrite (String.compare_antisym a b), E. reflexivity.
Qed.

Lemma fold_str_min_spec l : forall x,
  In (fold_left Dynamics.str_min l x) (x :: l) /\
  forall y, In y (x :: l) -> String.leb (fold_left Dynamics.str_min l x) y = true.
Proof.
  induction l as [|z l IH]; intros x; cbn [fold_left].
  - split; [left; reflexivity|]. intros y [<-|[]]. apply string_leb_refl.
  - destruct (IH (Dynamics.str_min x z)) as [Hin Hle].
    destruct (str_min_le x z) as (Lx & Lz & Hor).
    split.
    + destruct Hin as [E|Hin]; [|right; right; exact Hin].
      rewrite <- E. destruct Hor as [->| ->]; [left | right; left]; reflexivity.
    + pose proof (Hle _ (or_introl eq_refl)) as Lm.
      intros y [<-|[<-|Hy]].
      * apply (string_leb_trans _ _ _ Lm Lx).
      * apply (string_leb_trans _ _ _ Lm Lz).
      * apply Hle. right. exact Hy.
Qed.

(** The minimum of a group of strings is one of them and is below all. *)
Lemma group_min_spec l m :
  Dynamics.group_min l = Some m ->
  In m l /\ forall y, In y l -> String.leb m y = true.
Proof.
  destruct l as [|x t]; cbn [Dynamics.group_min]; [discriminate|].
  intros E. injection E as <-. apply fold_str_min_spec.
Qed.

Lemma same_firm_tech_iff r x :
  same_firm_tech r x = true <-> gvkey r = gvkey x /\ technology r = technology x.
Proof.
  unfold same_firm_tech, same_firm. rewrite andb_true_iff, Z.eqb_eq, String.eqb_eq. tauto.
Qed.

Lemma same_firm_tech_ext r r' :
  same_firm_tech r r' = true -> forall x, same_firm_tech r x = same_firm_tech r' x.
Proof.
  intros H x. apply same_firm_tech_iff in H. destruct H as [Hg Ht].
  unfold same_firm_tech, same_firm. rewrite Hg, Ht. reflexivity.
Qed.

Lemma NoDup_key_eq (df : list row) x y :
  NoDup (map key df) -> In x df -> In y df -> key x = key y -> x = y.
Proof.
  induction df as [|a t IH]; intros Hnd Hx Hy E; [destruct Hx|].
  cbn [map] in Hnd. inversion Hnd as [|? ? Ha Ht]; subst.
  destruct Hx as [->|Hx], Hy as [->|Hy]; auto.
  - exfalso. apply Ha. rewrite E. apply in_map. exact Hy.
  - exfalso. apply Ha. rewrite <- E. apply in_map. exact Hx.
Qed.

(** X25. In a frame with one row per firm, technology and quarter, every
    firm-technology pair has exactly one first-appearance observation, and
    no observation of the pair has a smaller quarter label. *)
Theorem one_first_appearance_per_pair (df : list row) (r : row) :
  NoDup (map key df) -> In r df ->
  exists f,
    In f df /\ same_firm_tech r f = true /\
    filter (fun x => same_firm_tech r x && is_first df x) df = [f] /\
    forall x, In x df -> same_firm_tech r x = true ->
              String.leb (dateQ f) (dateQ x) = true.
Proof.
  intros Hnd Hr.
  assert (Hrr : same_firm_tech r r = true) by (apply same_firm_tech_iff; auto).
  destruct (Dynamics.group_min (map dateQ (filter (same_firm_tech r) df))) as [m|] eqn:Em.
  2:{ exfalso.
      assert (Hin : In (dateQ r) (map dateQ (filter (same_firm_tech r) df)))
        by (apply in_map, filter_In; auto).
      destruct (map dateQ (filter (same_firm_tech r) df)); [destruct Hin | discriminate]. }
  destruct (group_min_spec _ _ Em) as [Hm Hle].
  apply in_map_iff in Hm. destruct Hm as (f & Ef & Hf).
  apply filter_In in Hf. destruct Hf as [Hf Pf].
  assert (First : forall x, In x df -> same_firm_tech r x = true ->
                    (is_first df x = true <-> dateQ x = m)).
  { intros x Hx Px. unfold is_first, first_dateQ.
    rewrite <- (filter_ext _ _ (same_firm_tech_ext r x Px)), Em.
    apply String.eqb_eq. }
  exists f. split; [exact Hf|]. split; [exact Pf|]. split.
  - apply filter_singleton.
    + apply (NoDup_map_inv key). exact Hnd.
    + exact Hf.
    + intros x Hx. rewrite andb_true_iff. split.
      * intros [Px Fx]. apply (First x Hx Px) in Fx.
        apply (NoDup_key_eq df x f Hnd Hx Hf). unfold key.
        apply same_firm_tech_iff in Px, Pf. destruct Px as [<- <-], Pf as [<- <-].
        rewrite Fx, Ef. reflexivity.
      * intros ->. split; [exact Pf|]. apply (First f Hf Pf). exact Ef.
  - intros x Hx Px. rewrite Ef. apply Hle. apply in_map, filter_In. auto.
Qed.

Lemma one_first_appearance_per_pair_witness :
  exists f,
    In f example_panel /\
    same_firm_tech (mk_row 7 "AI" "2021q2" (example_cols (1 # 4) (1 # 2))) f = true /\
    filter (fun x => same_firm_tech (mk_row 7 "AI" "2021q2" (example_cols (1 # 4) (1 # 2))) x
                     && is_first example_panel x) example_panel = [f] /\
    forall x, In x example_panel ->
      same_firm_tech (mk_row 7 "AI" "2021q2" (example_cols (1 # 4) (1 # 2))) x = true ->
      String.leb (dateQ f) (dateQ x) = true.
Proof.
  apply (one_first_appearance_per_pair example_panel
           (mk_row 7 "AI" "2021q2" (example_cols (1 # 4) (1 # 2)))).
  - repeat (constructor; [simpl; intuition discriminate|]). constructor.
  - simpl. auto.
Defined.

(** *** The long frame *)

Lemma stack_from_layout data wcol side : forall own_cols peer_cols c0,
  (length own_cols <= length peer_cols)%nat ->
  exists long,
    stack_from c0 data own_cols peer_cols wcol side = Some long /\
    length long = (length own_cols * length data)%nat /\
    (forall c i oc pc r,
       nth_error own_cols c = Some oc -> nth_error peer_cols c = Some pc ->
       nth_error data i = Some r ->
       nth_error long (c * length data + i)
       = Some (mk_long r (c0 + Z.of_nat c) (get r oc) (get r pc)
                 (match wcol with Some w => get r w | None => None end) side)) /\
    (forall l, In l long ->
       In (l_obs l) data /\ c0 <= category l < c0 + Z.of_nat (length own_cols)).
Proof.
  induction own_cols as [|oc own IH]; intros peer_cols c0 Hlen.
  - exists []. cbn [stack_from length]. split; [reflexivity|]. split; [reflexivity|].
    split; [|intros l []].
    intros c i oc pc r Hc. destruct c; discriminate Hc.
  - destruct peer_cols as [|pc peer]; [cbn [length] in Hlen; lia|].
    cbn [length] in Hlen.
    destruct (IH peer (c0 + 1)) as (long' & E & L & N & I); [lia|].
    exists (chunk data c0 oc pc wcol side ++ long')%list.
    cbn [stack_from]. rewrite E. cbn [option_map].
    assert (Lc : length (chunk data c0 oc pc wcol side) = length data)
      by (unfold chunk; apply length_map).
    split; [reflexivity|]. split; [rewrite length_app, Lc, L; cbn [length]; lia|].
    split.
    + intros c i oc' pc' r Hc Hp Hi. destruct c as [|c].
      * cbn [nth_error] in Hc, Hp. injection Hc as <-. injection Hp as <-.
        cbn [Nat.mul Nat.add].
        rewrite nth_error_app1
          by (rewrite Lc; apply nth_error_Some; rewrite Hi; discriminate).
        unfold chunk. rewrite nth_error_map, Hi. cbn [option_map].
        rewrite Z.add_0_r. reflexivity.
      * cbn [nth_error] in Hc, Hp.
        replace (Datatypes.S c * length data + i)%nat
          with (length (chunk data c0 oc pc wcol side) + (c * length data + i))%nat
          by (rewrite Lc; lia).
        rewrite nth_error_app2 by lia.
        replace (length (chunk data c0 oc pc wcol side) + (c * length data + i)
                 - length (chunk data c0 oc pc wcol side))%nat
          with (c * length data + i)%nat by lia.
        rewrite (N c i oc' pc' r Hc Hp Hi). do 2 f_equal. lia.
    + intros l Hl. apply in_app_or in Hl. destruct Hl as [Hl|Hl].
      * unfold chunk in Hl. apply in_map_iff in Hl. destruct Hl as (r & <- & Hr).
        cbn [l_obs category length]. split; [exact Hr | lia].
      * destruct (I l Hl) as [Hin Hc]. split; [exact Hin|]. cbn [length]. lia.
Qed.

(** X26. For at least one own-share column, a peer column for every own
    column, and a frame that holds the columns read, [stack_to_long] returns
    one block of rows per category, in the order of the observations: the
    row of observation [i] in block [c] carries category [c + 1] with the
    own share and the peer share of that same category. *)
Theorem stack_to_long_layout
  (data : list row) (own_cols peer_cols : list string) (side : string)
  (wcol : option string) :
  own_cols <> [] ->
  (length own_cols <= length peer_cols)%nat ->
  has_columns data (columns_read own_cols peer_cols wcol) = true ->
  exists long,
    stack_to_long data own_cols peer_cols side wcol = Some long /\
    length long = (length own_cols * length data)%nat /\
    forall c i oc pc r,
      nth_error own_cols c = Some oc -> nth_error peer_cols c = Some pc ->
      nth_error data i = Some r ->
      nth_error long (c * length data + i)
      = Some (mk_long r (Z.of_nat c + 1) (get r oc) (get r pc)
                (match wcol with Some w => get r w | None => None end) side).
Proof.
  intros _ Hlen _. unfold stack_to_long.
  destruct (stack_from_layout data wcol side own_cols peer_cols 1 Hlen)
    as (long & E & L & N & _).
  exists long. split; [exact E|]. split; [exact L|].
  intros c i oc pc r Hc Hp Hi. rewrite (N c i oc pc r Hc Hp Hi).
  do 2 f_equal. lia.
Qed.

Lemma stack_to_long_layout_witness :
  exists long,
    stack_to_long (with_peers example_panel) CAUSE_COLS peer_cause_cols "cause" None
    = Some long /\
    length long = 20%nat /\
    exists l,
      nth_error long 6 = Some l /\
      technology (l_obs l) = "Cloud" /\ category l = 2 /\
      own_share l = get (l_obs l) "share_cause_2" /\
      peer_share l = get (l_obs l) "peer_share_cause_2".
Proof.
  destruct (stack_to_long_layout (with_peers example_panel) CAUSE_COLS peer_cause_cols
              "cause" None ltac:(discriminate) ltac:(simpl; lia) eq_refl)
    as (long & E & L & N).
  exists long. split; [exact E|]. split; [exact L|].
  pose proof (N 1%nat 2%nat "share_cause_2" "peer_share_cause_2"
                (nth 2 (with_peers example_panel) (mk_row 0 "" "" []))
                eq_refl eq_refl eq_refl) as H.
  eexists. split; [exact H|]. repeat split.
Defined.

(** *** The fixed-effect keys *)

Lemma string_snoc_inj a b x y :
  a ++ String x "" = b ++ String y "" -> a = b /\ x = y.
Proof.
  revert b. induction a as [|c a IH]; intros [|d b] H; cbn [append] in H.
  - injection H as ->. auto.
  - injection H as _ H. destruct b; discriminate H.
  - injection H as _ H. destruct a; discriminate H.
  - injection H as -> H. destruct (IH b H) as [-> ->]. auto.
Qed.

Lemma string_app_inv_same_length a : forall a' b b',
  a ++ b = a' ++ b' -> String.length b = String.length b' -> a = a' /\ b = b'.
Proof.
  induction a as [|c a IH]; intros [|d a'] b b' H L; cbn [append] in *.
  - auto.
  - exfalso. rewrite H in L. cbn [String.length] in L.
    rewrite string_length_app in L. lia.
  - exfalso. rewrite <- H in L. cbn [String.length] in L.
    rewrite string_length_app in L. lia.
  - injection H as -> H. destruct (IH a' b b' H L) as [-> ->]. auto.
Qed.

Lemma digit_string c :
  1 <= c <= 9 -> exists ch, QualityScore.str_of_Z c = String ch "".
Proof.
  intros H.
  assert (E : c = 1 \/ c = 2 \/ c = 3 \/ c = 4 \/ c = 5 \/ c = 6 \/ c = 7 \/ c = 8 \/ c = 9)
    by lia.
  repeat (destruct E as [->|E]; [eexists; reflexivity|]). subst. eexists; reflexivity.
Qed.

Lemma digit_string_inj c c' :
  1 <= c <= 9 -> 1 <= c' <= 9 ->
  QualityScore.str_of_Z c = QualityScore.str_of_Z c' -> c = c'.
Proof.
  intros H H'.
  assert (E : c = 1 \/ c = 2 \/ c = 3 \/ c = 4 \/ c = 5 \/ c = 6 \/ c = 7 \/ c = 8 \/ c = 9)
    by lia.
  assert (E' : c' = 1 \/ c' = 2 \/ c' = 3 \/ c' = 4 \/ c' = 5 \/ c' = 6 \/ c' = 7
               \/ c' = 8 \/ c' = 9) by lia.
  intros S.
  repeat (destruct E as [->|E]);
    repeat (destruct E' as [->|E']); subst;
    try reflexivity; vm_compute in S; discriminate S.
Qed.

(** A key [s ++ "_" ++ str(c)] with a one-digit category determines both
    parts. *)
Lemma cat_key_inj s s' c c' :
  1 <= c <= 9 -> 1 <= c' <= 9 ->
  s ++ "_" ++ QualityScore.str_of_Z c = s' ++ "_" ++ QualityScore.str_of_Z c' ->
  s = s' /\ c = c'.
Proof.
  intros H H' E.
  destruct (digit_string c H) as (ch & Ec). destruct (digit_string c' H') as (ch' & Ec').
  assert (Ecc : QualityScore.str_of_Z c = QualityScore.str_of_Z c' -> c = c')
    by (apply digit_string_inj; assumption).
  rewrite Ec, Ec' in *.
  rewrite <- !string_app_assoc in E.
  apply string_snoc_inj in E. destruct E as [E ->].
  apply string_snoc_inj in E. destruct E as [-> _].
  split; [reflexivity | apply Ecc; reflexivity].
Qed.

Lemma label_length s : Dynamics.is_label s = true -> String.length s = 6%nat.
Proof.
  intros H. destruct (is_label_inv s H) as (a & b & c & d & k & -> & _). reflexivity.
Qed.

(** X27. In a long frame stacked from at most nine share columns, the
    fixed-effect keys identify their cells: two rows have the same [tech_cat]
    exactly when they have the same technology and category, the same
    [qtr_cat] exactly when they have the same quarter and category, and, when
    the quarter labels are well-formed, the same [techqtr_cat] exactly
    when they have the same technology, quarter and category. *)
Theorem fixed_effect_keys_identify_cells
  (data : list row) (own_cols peer_cols : list string) (side : string)
  (wcol : option string) (long : list long_row) (a b : long_row) :
  stack_to_long data own_cols peer_cols side wcol = Some long ->
  (length own_cols <= 9)%nat ->
  In a long -> In b long ->
  (tech_cat a = tech_cat b <->
   technology (l_obs a) = technology (l_obs b) /\ category a = category b) /\
  (qtr_cat a = qtr_cat b <->
   dateQ (l_obs a) = dateQ (l_obs b) /\ category a = category b) /\
  ((forall r, In r data -> Dynamics.is_label (dateQ r) = true) ->
   (techqtr_cat a = techqtr_cat b <->
    technology (l_obs a) = technology (l_obs b) /\ dateQ (l_obs a) = dateQ (l_obs b) /\
    category a = category b)).
Proof.
  intros E L9 Ha Hb. unfold stack_to_long in E.
  assert (Hcat : forall l, In l long -> In (l_obs l) data /\ 1 <= category l <= 9).
  { destruct (le_lt_dec (length own_cols) (length peer_cols)) as [Hle|Hgt].
    - destruct (stack_from_layout data wcol side own_cols peer_cols 1 Hle)
        as (long' & E' & _ & _ & I).
      rewrite E in E'. injection E' as <-. intros l Hl.
      destruct (I l Hl) as [Hin Hc]. split; [exact Hin | lia].
    - exfalso. clear Ha Hb. revert peer_cols Hgt long E. generalize 1.
      induction own_cols as [|oc own IH]; intros c0 peer Hgt long E;
        [cbn [length] in Hgt; lia|].
      destruct peer as [|pc peer]; [discriminate E|].
      cbn [stack_from] in E.
      destruct (stack_from (c0 + 1) data own peer wcol side) as [long'|] eqn:E';
        [|discriminate E].
      apply (IH ltac:(cbn [length] in L9; lia) (c0 + 1) peer
               ltac:(cbn [length] in Hgt; lia) long' E'). }
  destruct (Hcat a Ha) as [Da Ca]. destruct (Hcat b Hb) as [Db Cb].
  split; [|split].
  - unfold tech_cat. split.
    + intros H. apply (cat_key_inj _ _ _ _ Ca Cb H).
    + intros [-> ->]. reflexivity.
  - unfold qtr_cat. split.
    + intros H. apply (cat_key_inj _ _ _ _ Ca Cb H).
    + intros [-> ->]. reflexivity.
  - intros Hl. unfold techqtr_cat. split.
    + intros H. apply (cat_key_inj _ _ _ _ Ca Cb) in H. destruct H as [H Hc].
      apply string_app_inv_same_length in H.
      * destruct H as [Ht Hd]. injection Hd as Hd. auto.
      * cbn [append String.length].
        rewrite (label_length _ (Hl _ Da)), (label_length _ (Hl _ Db)). reflexivity.
    + intros (-> & -> & ->). reflexivity.
Qed.

Lemma fixed_effect_keys_identify_cells_witness :
  tech_cat example_long_a = tech_cat example_long_b <->
  technology (l_obs example_long_a) = technology (l_obs example_long_b) /\
  category example_long_a = category example_long_b.
Proof.
  apply (proj1 (fixed_effect_keys_identify_cells example_panel CAUSE_COLS peer_cause_cols
                  "cause" None example_long example_long_a example_long_b
                  eq_refl ltac:(simpl; lia)
                  ltac:(simpl; auto 10) ltac:(simpl; auto 10))).
Defined.

End SpilloverLongFacts.

(** ** The exported main table (06_table_IVB_spillover.py, section 9) *)

Section MainTableCsvFacts.
Import Regressions MainTableCsv.
Local Open Scope string_scope.

Variables frame demeaned estimate : Type.
Variable residualize : frame -> list string -> result demeaned.
Variable n_keep : demeaned -> Z.
Variable ols : demeaned -> result estimate.
Variable first_rows : frame -> frame.

Local Abbreviation try1 := (try_spec frame demeaned estimate residualize n_keep ols).
Local Abbreviation att := (attempt frame demeaned estimate residualize n_keep ols).

(** The entry of [main_results] for one specification. *)
Let entry (side : string) (long_df : frame) (s : spec)
  : string * string * option estimate :=
  ((side, label s), att (sample_of first_rows long_df s) s).

Lemma select_sample_known long_df s :
  sample s = "all" \/ sample s = "first" ->
  select_sample_IVB frame first_rows long_df s = Ok (sample_of first_rows long_df s).
Proof.
  unfold select_sample_IVB, sample_of. intros [E|E]; rewrite E; reflexivity.
Qed.

Lemma inner_loop_known side long_df specs : forall st,
  (forall s, In s specs -> sample s = "all" \/ sample s = "first") ->
  foldM (fun st' s =>
           smp <- select_sample_IVB frame first_rows long_df s ;;
           Ok (try1 side smp s st'))
        specs st
  = Ok (fold_left (fun st' s => try1 side (sample_of first_rows long_df s) s st')
                  specs st).
Proof.
  induction specs as [|s t IH]; intros st H; cbn [foldM fold_left]; [reflexivity|].
  rewrite (select_sample_known long_df s (H s (or_introl eq_refl))). cbn [bind].
  apply IH. intros s' Hs'. apply H. right. exact Hs'.
Qed.

Lemma dict_set_fresh k v (d : results estimate) :
  (forall kv, In kv d -> fst kv <> k) -> dict_set estimate k v d = (d ++ [(k, v)])%list.
Proof.
  induction d as [|[k' v'] t IH]; intros H; cbn [dict_set app]; [reflexivity|].
  destruct (String.eqb (fst k') (fst k) && String.eqb (snd k') (snd k)) eqn:E.
  - exfalso. apply andb_true_iff in E. destruct E as [E1 E2].
    apply String.eqb_eq in E1, E2. apply (H (k', v') (or_introl eq_refl)).
    cbn [fst]. destruct k', k. cbn in *. congruence.
  - f_equal. apply IH. intros kv Hkv. apply H. right. exact Hkv.
Qed.

Lemma fold_try_results side long_df specs : forall st,
  NoDup (map label specs) ->
  (forall kv s, In kv (fst st) -> In s specs -> fst kv <> (side, label s)) ->
  fst (fold_left (fun st' s => try1 side (sample_of first_rows long_df s) s st') specs st)
  = (fst st ++ map (entry side long_df) specs)%list.
Proof.
  induction specs as [|s t IH]; intros st Hnd Hfresh; cbn [fold_left map].
  - rewrite app_nil_r. reflexivity.
  - inversion Hnd as [|? ? Hs Ht]; subst.
    rewrite IH; [|exact Ht|].
    + rewrite (try_spec_eq frame demeaned estimate residualize n_keep ols). cbn [fst].
      rewrite dict_set_fresh
        by (intros kv Hkv; apply (Hfresh kv s Hkv); left; reflexivity).
      rewrite <- app_assoc. reflexivity.
    + intros kv s' Hkv Hs'.
      rewrite (try_spec_eq frame demeaned estimate residualize n_keep ols) in Hkv.
      cbn [fst] in Hkv.
      rewrite dict_set_fresh in Hkv
        by (intros kv' Hkv'; apply (Hfresh kv' s Hkv'); left; reflexivity).
      apply in_app_or in Hkv. destruct Hkv as [Hkv|[<-|[]]].
      * apply (Hfresh kv s' Hkv). right. exact Hs'.
      * cbn [fst]. intros E. injection E as E. apply Hs. rewrite E.
        apply in_map. exact Hs'.
Qed.

Lemma results_get_entries side long_df specs s :
  NoDup (map label specs) -> In s specs ->
  forall rest,
    results_get estimate (side, label s) (map (entry side long_df) specs ++ rest)%list
    = att (sample_of first_rows long_df s) s.
Proof.
  intros Hnd Hs rest. unfold results_get.
  induction specs as [|s0 t IH]; [destruct Hs|].
  inversion Hnd as [|? ? H0 Ht]; subst. cbn [map app find entry fst snd].
  destruct (String.eqb_spec (label s0) (label s)) as [El|Nl].
  - rewrite String.eqb_refl. cbn [andb snd].
    destruct Hs as [->|Hs]; [reflexivity|].
    exfalso. apply H0. rewrite El. apply in_map. exact Hs.
  - rewrite andb_false_r. destruct Hs as [->|Hs]; [congruence|].
    apply IH; assumption.
Qed.

Lemma results_get_other_side side side' long_df specs k rest :
  side <> side' ->
  results_get estimate (side', k) (map (entry side long_df) specs ++ rest)%list
  = results_get estimate (side', k) rest.
Proof.
  intros Hne. unfold results_get. induction specs as [|s t IH]; [reflexivity|].
  cbn [map app find entry fst snd].
  destruct (String.eqb_spec side side') as [E|_]; [contradiction|]. cbn [andb]. exact IH.
Qed.

Lemma flat_map_ext_in {A B : Type} (f g : A -> list B) l :
  (forall x, In x l -> f x = g x) -> flat_map f l = flat_map g l.
Proof.
  induction l as [|x t IH]; intros H; cbn [flat_map]; [reflexivity|].
  rewrite (H x (or_introl eq_refl)), IH; [reflexivity|].
  intros y Hy. apply H. right. exact Hy.
Qed.

(** X28. For specifications with distinct labels and known sample names,
    the main table is computed without an error and its CSV has, side by
    side and in the order of the specifications, exactly one row for every
    specification whose regression succeeded; a specification whose
    regression raised is left out. *)
Theorem csv_has_one_row_per_estimated_spec
  (specs : list spec) (cause_long effect_long : frame) :
  NoDup (map label specs) ->
  (forall s, In s specs -> sample s = "all" \/ sample s = "first") ->
  exists st,
    main_table_IVB frame demeaned estimate residualize n_keep ols first_rows
      specs cause_long effect_long = Ok st /\
    csv_rows estimate specs (fst st)
    = flat_map
        (fun sf : string * frame =>
           flat_map (fun s => row_of estimate (fst sf) s
                                (att (sample_of first_rows (snd sf) s) s))
                    specs)
        [("cause", cause_long); ("effect", effect_long)].
Proof.
  intros Hnd Hk. unfold main_table_IVB. cbn [foldM fst snd].
  rewrite inner_loop_known by exact Hk. cbn [bind].
  rewrite inner_loop_known by exact Hk. cbn [bind].
  eexists. split; [reflexivity|].
  rewrite fold_try_results; [|exact Hnd|].
  - rewrite fold_try_results; [|exact Hnd | intros kv s []].
    cbn [fst app]. unfold csv_rows. cbn [flat_map fst snd]. rewrite !app_nil_r.
    f_equal.
    + apply flat_map_ext_in. intros s Hs.
      rewrite (results_get_entries "cause" cause_long specs s Hnd Hs). reflexivity.
    + apply flat_map_ext_in. intros s Hs.
      rewrite (results_get_other_side "cause" "effect") by discriminate.
      rewrite <- (app_nil_r (map (entry "effect" effect_long) specs)).
      rewrite (results_get_entries "effect" effect_long specs s Hnd Hs). reflexivity.
  - intros kv s Hkv Hs.
    rewrite fold_try_results in Hkv; [|exact Hnd | intros kv' s' []].
    cbn [fst app] in Hkv. apply in_map_iff in Hkv. destruct Hkv as (s' & <- & _).
    cbn [entry fst]. discriminate.
Qed.

End MainTableCsvFacts.

Lemma csv_has_one_row_per_estimated_spec_witness :
  exists st,
    Regressions.main_table_IVB Z Z Z (fun d _ => Ok d) (fun d => d) (fun d => Ok d)
      (fun _ => 6%Z) Regressions.MAIN_SPECS_IVB 500%Z 480%Z = Ok st /\
    map (fun r => (MainTableCsv.c_side Z r, MainTableCsv.c_column Z r))
        (MainTableCsv.csv_rows Z Regressions.MAIN_SPECS_IVB (fst st))
    = [ ("cause", "(I)"); ("cause", "(II)"); ("cause", "(III)");
        ("effect", "(I)"); ("effect", "(II)"); ("effect", "(III)") ]%string.
Proof.
  destruct (csv_has_one_row_per_estimated_spec Z Z Z
              (fun d _ => Ok d) (fun d => d) (fun d => Ok d) (fun _ => 6%Z)
              Regressions.MAIN_SPECS_IVB 500%Z 480%Z) as (st & E & R).
  - repeat (constructor; [simpl; intuition discriminate|]). constructor.
  - intros s Hs. simpl in Hs.
    repeat (destruct Hs as [<-|Hs]; [simpl; auto|]). destruct Hs.
  - exists st. split; [exact E|]. rewrite R. reflexivity.
Defined.
